(** * MCP tool-orchestration clients: a shallow embedding

    The two clients of the repository, [src/weather_client.py] (one tool
    provider) and [src/multi_client.py] (several tool providers), are embedded
    as state-passing programs over

    - the instance dictionary of the [MCPClient] object ([self.__dict__]), a
      finite map from attribute names to objects, and
    - the chronological trace of the requests the client sends to its
      collaborators: the operating system (spawning a provider process), the
      MCP sessions ([initialize], [list_tools], [call_tool]), the model
      backend ([chat]) and the exit callbacks run by [AsyncExitStack].

    The collaborators are not part of the repository.  They are gathered in a
    record [World] of oracles which answer a request from the trace seen so
    far, either with a value or by raising.  [print] calls only write to
    standard output and are left out. *)

From Stdlib Require Import String Ascii ZArith Lia.
From stdpp Require Import base option list gmap strings.

Local Open Scope string_scope.
Local Open Scope list_scope.
Local Set Warnings "-register-all".

(** ** Python values *)

(** JSON-like Python data: what tool schemas, tool arguments and chat
    messages are made of.  A [dict] keeps its insertion order. *)
Inductive value : Type :=
| VNone
| VBool (b : bool)
| VInt (z : Z)
| VStr (s : string)
| VList (items : list value)
| VDict (entries : list (string * value)).

(** Lookup of a key among the entries of a dictionary. *)
Fixpoint dict_lookup (key : string) (entries : list (string * value)) : option value :=
  match entries with
  | [] => None
  | (k, v) :: rest => if String.eqb k key then Some v else dict_lookup key rest
  end.

(** [d.get(key, default)]. *)
Definition dict_get (key : string) (entries : list (string * value)) (default : value) : value :=
  match dict_lookup key entries with
  | Some v => v
  | None => default
  end.

(** [v[key]] read through an [option]: [None] when [v] is no dictionary or
    has no such key. *)
Definition value_field (key : string) (v : value) : option value :=
  match v with
  | VDict entries => dict_lookup key entries
  | _ => None
  end.

(** [s.endswith(suffix)] of Python's [str]. *)
Definition endswith (s suffix : string) : bool :=
  let n := String.length s in
  let k := String.length suffix in
  (k <=? n)%nat && String.eqb (substring (n - k) k s) suffix.

(** ** Data of the collaborators *)

(** [mcp.types.Tool], with the three attributes the clients read. *)
Record Tool : Type := mkTool {
  name : string;
  description : value;
  inputSchema : value
}.

(** [mcp.types.CallToolResult]: what [call_tool] returns.  A provider whose
    tool function failed answers with [isError = true]; that is a returned
    result, not a raised exception. *)
Record CallToolResult : Type := mkCallToolResult {
  result_content : list value;
  isError : bool
}.

(** [ollama]'s tool call: [tool_calls[0].function] supports [.get]. *)
Record ToolCall : Type := mkToolCall {
  function : list (string * value)
}.

(** [response.message] of the model backend.  [None] stands for a field that
    is absent ([.get] then yields its default); [tool_calls = None] also
    covers a field holding Python's [None]. *)
Record Message : Type := mkMessage {
  content : option value;
  tool_calls : option (list ToolCall)
}.

Record ChatResponse : Type := mkChatResponse {
  message : Message
}.

(** [StdioServerParameters(command=..., args=[...], env=None)]. *)
Record StdioServerParameters : Type := mkStdioServerParameters {
  command : string;
  args : list string;
  env : option (list (string * string))
}.

(** A spawned provider process, named by the number the world gave it. *)
Definition proc : Type := nat.

(** [ClientSession(read_stream, write_stream)]. *)
Record ClientSession : Type := mkClientSession {
  read_stream : proc;
  write_stream : proc
}.

(** Python exceptions.  [ExternalError] is any exception raised inside a
    collaborator (transport, session, provider, model backend). *)
Inductive exn : Type :=
| ValueError (msg : string)
| AttributeError (msg : string)
| TypeError (msg : string)
| IndexError (msg : string)
| ExternalError (origin msg : string).

Inductive result (A : Type) : Type :=
| Ok (a : A)
| Raise (e : exn).
Arguments Ok {A} a.
Arguments Raise {A} e.

(** The exit callbacks an [AsyncExitStack] holds: the [__aexit__] of an
    entered [stdio_client(...)] and of an entered [ClientSession]. *)
Inductive exit_callback : Type :=
| ExitStdio (p : proc)
| ExitSession (s : ClientSession).

(** The asynchronous context managers the clients enter. *)
Inductive context_manager : Type :=
| stdio_client (server_params : StdioServerParameters)
| ClientSession_over (s : ClientSession).

(** Requests sent to the collaborators, in the order they are sent. *)
Inductive event : Type :=
| EvSpawn (server_params : StdioServerParameters)
| EvSessionEnter (s : ClientSession)
| EvInitialize (s : ClientSession)
| EvListTools (s : ClientSession)
| EvCallTool (s : ClientSession) (tool_name tool_args : value)
| EvChat (model : string) (messages tools : list value)
| EvExit (cb : exit_callback) (exc : option exn).

(** [json.loads] applied to a [str]. *)
Inductive json_result : Type :=
| Decoded (v : value)
| JSONDecodeError
| JSONOtherError (e : exn).

(** The collaborators.  Every oracle sees the trace of earlier requests, so a
    provider may change its catalog over time and the model backend may
    answer differently at each round. *)
Record World : Type := mkWorld {
  json_loads : string -> json_result;
  py_str : CallToolResult -> string;
  w_spawn : list event -> StdioServerParameters -> result proc;
  w_session_enter : list event -> ClientSession -> result unit;
  w_initialize : list event -> ClientSession -> result unit;
  w_list_tools : list event -> ClientSession -> result (list Tool);
  w_call_tool : list event -> ClientSession -> value -> value -> result CallToolResult;
  w_chat : list event -> string -> list value -> list value -> result ChatResponse;
  w_exit : list event -> exit_callback -> option exn -> result bool
}.

(** ** Objects and the state of a run *)

(** The objects an [MCPClient] instance refers to. *)
Inductive pyobj : Type :=
| PNone
| PReadStream (p : proc)
| PWriteStream (p : proc)
| PSession (s : ClientSession)
| PList (items : list pyobj)
| PTuple (items : list pyobj)
| PExitStack (callbacks : list exit_callback)
| POllamaClient (host : string).

Record state : Type := mkState {
  self : gmap string pyobj;
  trace : list event
}.

(** ** The monad of client code *)

Inductive outcome (A : Type) : Type :=
| Ret (a : A)
| Exn (e : exn)
| OutOfFuel.
Arguments Ret {A} a.
Arguments Exn {A} e.
Arguments OutOfFuel {A}.

Definition M (A : Type) : Type := state -> outcome A * state.

Definition ret {A} (a : A) : M A := fun st => (Ret a, st).

Definition raise {A} (e : exn) : M A := fun st => (Exn e, st).

Definition out_of_fuel {A} : M A := fun st => (OutOfFuel, st).

Definition bind {A B} (m : M A) (k : A -> M B) : M B :=
  fun st =>
    match m st with
    | (Ret a, st') => k a st'
    | (Exn e, st') => (Exn e, st')
    | (OutOfFuel, st') => (OutOfFuel, st')
    end.

Notation "'let*' x ':=' m 'in' k" := (bind m (fun x => k))
  (at level 10, x name, m at level 100, k at level 200).
Notation "'run' m 'then' k" := (bind m (fun _ => k))
  (at level 10, m at level 100, k at level 200).

(** [try: m  except BaseException as e: ...]: the outcome of [m] as data. *)
Definition try_catch {A} (m : M A) : M (result A) :=
  fun st =>
    match m st with
    | (Ret a, st') => (Ret (Ok a), st')
    | (Exn e, st') => (Ret (Raise e), st')
    | (OutOfFuel, st') => (OutOfFuel, st')
    end.

(** [for x in l: acc = body acc x]. *)
Fixpoint for_each {A B} (l : list A) (acc : B) (body : B -> A -> M B) : M B :=
  match l with
  | [] => ret acc
  | x :: rest => let* acc' := body acc x in for_each rest acc' body
  end.

(** [self.attr]. *)
Definition getattr (attr : string) : M pyobj :=
  fun st =>
    match self st !! attr with
    | Some o => (Ret o, st)
    | None => (Exn (AttributeError ("'MCPClient' object has no attribute '" ++ attr ++ "'")), st)
    end.

(** [self.attr = o]. *)
Definition setattr (attr : string) (o : pyobj) : M unit :=
  fun st => (Ret tt, {| self := <[attr := o]> (self st); trace := trace st |}).

(** Sending request [e] and receiving what the world answers to it. *)
Definition request {A} (e : event) (answer : list event -> result A) : M A :=
  fun st =>
    let st' := {| self := self st; trace := trace st ++ [e] |} in
    match answer (trace st) with
    | Ok a => (Ret a, st')
    | Raise x => (Exn x, st')
    end.

Definition no_attribute {A} (type_name attr : string) : M A :=
  raise (AttributeError ("'" ++ type_name ++ "' object has no attribute '" ++ attr ++ "'")).

Definition type_name (o : pyobj) : string :=
  match o with
  | PNone => "NoneType"
  | PReadStream _ => "MemoryObjectReceiveStream"
  | PWriteStream _ => "MemoryObjectSendStream"
  | PSession _ => "ClientSession"
  | PList _ => "list"
  | PTuple _ => "tuple"
  | PExitStack _ => "AsyncExitStack"
  | POllamaClient _ => "Client"
  end.

Section Collaborators.

Context (W : World).

(** [await sess.initialize()]. *)
Definition session_initialize (sess : pyobj) : M unit :=
  match sess with
  | PSession s => request (EvInitialize s) (fun tr => w_initialize W tr s)
  | o => no_attribute (type_name o) "initialize"
  end.

(** [(await sess.list_tools()).tools]. *)
Definition session_list_tools (sess : pyobj) : M (list Tool) :=
  match sess with
  | PSession s => request (EvListTools s) (fun tr => w_list_tools W tr s)
  | o => no_attribute (type_name o) "list_tools"
  end.

(** [await sess.call_tool(tool_name, tool_args)]. *)
Definition session_call_tool (sess : pyobj) (tool_name tool_args : value) : M CallToolResult :=
  match sess with
  | PSession s =>
      request (EvCallTool s tool_name tool_args) (fun tr => w_call_tool W tr s tool_name tool_args)
  | o => no_attribute (type_name o) "call_tool"
  end.

(** [self.ollama_client.chat(model=..., messages=..., tools=..., stream=False)]. *)
Definition ollama_chat (model : string) (messages tools : list value) : M ChatResponse :=
  let* client := getattr "ollama_client" in
  match client with
  | POllamaClient _ =>
      request (EvChat model messages tools) (fun tr => w_chat W tr model messages tools)
  | o => no_attribute (type_name o) "chat"
  end.

(** The [try] block around [json.loads(tool_args)]: a [str] is decoded, a
    text that is no JSON gives the empty dictionary, any other exception of
    the decoder is raised again; on a value that is no [str], [json.loads]
    raises [TypeError] and the value is kept as it is. *)
Definition try_json_loads (tool_args : value) : M value :=
  match tool_args with
  | VStr s =>
      match json_loads W s with
      | Decoded v => ret v
      | JSONDecodeError => ret (VDict [])
      | JSONOtherError e => raise e
      end
  | _ => ret tool_args
  end.

(** *** [contextlib.AsyncExitStack] *)

(** [cm.__aenter__()] of the two context managers the clients enter: what
    entering returns, and the exit callback it leaves behind.
    [stdio_client] spawns the provider process and yields its pair of
    streams; [ClientSession] yields itself. *)
Definition aenter (cm : context_manager) : M (pyobj * exit_callback) :=
  match cm with
  | stdio_client server_params =>
      let* p := request (EvSpawn server_params) (fun tr => w_spawn W tr server_params) in
      ret (PTuple [PReadStream p; PWriteStream p], ExitStdio p)
  | ClientSession_over s =>
      run request (EvSessionEnter s) (fun tr => w_session_enter W tr s) then
      ret (PSession s, ExitSession s)
  end.

(** [await self.exit_stack.enter_async_context(cm)]: the attribute is read,
    then the argument is evaluated, the context is entered, and only then
    its exit callback is pushed. *)
Definition enter_async_context (cm_expr : M context_manager) : M pyobj :=
  let* stack := getattr "exit_stack" in
  match stack with
  | PExitStack _ =>
      let* cm := cm_expr in
      let* entered := aenter cm in
      let* stack' := getattr "exit_stack" in
      match stack' with
      | PExitStack callbacks =>
          run setattr "exit_stack" (PExitStack (snd entered :: callbacks)) then
          ret (fst entered)
      | o => no_attribute (type_name o) "push_async_exit"
      end
  | o => no_attribute (type_name o) "enter_async_context"
  end.

(** [ClientSession(self.stdio, self.write)]. *)
Definition new_client_session : M context_manager :=
  let* stdio := getattr "stdio" in
  let* write := getattr "write" in
  match stdio, write with
  | PReadStream r, PWriteStream w => ret (ClientSession_over (mkClientSession r w))
  | _, _ => raise (TypeError "ClientSession expects a read stream and a write stream")
  end.

(** The loop of [AsyncExitStack.__aexit__]: callbacks are popped and run
    last-in first-out; one that raises replaces the exception in flight, one
    that returns true suppresses it; all of them run. *)
Fixpoint run_exit_callbacks (callbacks : list exit_callback)
    (exc : option exn) (pending_raise : bool) : M unit :=
  match callbacks with
  | [] =>
      match exc, pending_raise with
      | Some e, true => raise e
      | _, _ => ret tt
      end
  | cb :: rest =>
      run setattr "exit_stack" (PExitStack rest) then
      let* r := try_catch (request (EvExit cb exc) (fun tr => w_exit W tr cb exc)) in
      match r with
      | Ok true => run_exit_callbacks rest None false
      | Ok false => run_exit_callbacks rest exc pending_raise
      | Raise e => run_exit_callbacks rest (Some e) true
      end
  end.

(** [await self.exit_stack.aclose()]. *)
Definition exit_stack_aclose : M unit :=
  let* stack := getattr "exit_stack" in
  match stack with
  | PExitStack callbacks => run_exit_callbacks callbacks None false
  | o => no_attribute (type_name o) "aclose"
  end.

End Collaborators.

(** Messages of the conversation. *)
Definition user_message (query : string) : value :=
  VDict [("role", VStr "user"); ("content", VStr query)].

Definition tool_message (tool_name : value) (text : string) : value :=
  VDict [("role", VStr "tool"); ("name", tool_name); ("content", VStr text)].

(** ** The terminal and the process

    [chat_loop] and [main] talk to the terminal.  Standard input is the list
    of lines still to be read, standard output the list of texts written so
    far.  Strings are byte strings: [strip] and [lower] below are exact on
    ASCII text. *)

Definition nl : string := String (ascii_of_nat 10) EmptyString.

Definition dquote : string := String (ascii_of_nat 34) EmptyString.

Record console : Type := mkConsole {
  stdin : list string;
  stdout : list string
}.

(** [print(text)]. *)
Definition print (text : string) (con : console) : console :=
  {| stdin := stdin con; stdout := stdout con ++ [(text ++ nl)%string] |}.

(** [input(prompt)]: the prompt is written, then a line is read; at the end
    of the input [EOFError] is raised. *)
Definition input (prompt : string) (con : console) : result string * console :=
  match stdin con with
  | line :: rest => (Ok line, {| stdin := rest; stdout := stdout con ++ [prompt] |})
  | [] => (Raise (ExternalError "EOFError" "EOF when reading a line"),
           {| stdin := []; stdout := stdout con ++ [prompt] |})
  end.

(** [c.isspace()] on an ASCII character. *)
Definition is_space (c : ascii) : bool :=
  let n := nat_of_ascii c in
  ((9 <=? n)%nat && (n <=? 13)%nat) || ((28 <=? n)%nat && (n <=? 32)%nat).

Fixpoint lstrip (s : string) : string :=
  match s with
  | EmptyString => EmptyString
  | String c rest => if is_space c then lstrip rest else s
  end.

Definition string_rev (s : string) : string :=
  string_of_list_ascii (rev (list_ascii_of_string s)).

(** [s.strip()]. *)
Definition strip (s : string) : string :=
  string_rev (lstrip (string_rev (lstrip s))).

Definition lower_ascii (c : ascii) : ascii :=
  let n := nat_of_ascii c in
  if (65 <=? n)%nat && (n <=? 90)%nat then ascii_of_nat (n + 32) else c.

(** [s.lower()]. *)
Fixpoint lower (s : string) : string :=
  match s with
  | EmptyString => EmptyString
  | String c rest => String (lower_ascii c) (lower rest)
  end.

Fixpoint is_ascii (s : string) : bool :=
  match s with
  | EmptyString => true
  | String c rest => (nat_of_ascii c <? 128)%nat && is_ascii rest
  end.

(** Whether [except Exception] catches [e].  The exceptions the clients
    raise themselves are all of class [Exception].  An exception of a
    collaborator is too, unless its origin names one of the classes that
    Python derives from [BaseException] alone: a cancellation of the task, an
    interrupt from the keyboard, an exit of the interpreter or of a
    generator. *)
Definition is_exception (e : exn) : bool :=
  match e with
  | ExternalError origin _ =>
      negb (String.eqb origin "CancelledError"
            || String.eqb origin "KeyboardInterrupt"
            || String.eqb origin "SystemExit"
            || String.eqb origin "GeneratorExit")
  | _ => true
  end.

(** [str(e)]. *)
Definition exn_str (e : exn) : string :=
  match e with
  | ValueError msg | AttributeError msg | TypeError msg | IndexError msg => msg
  | ExternalError _ msg => msg
  end.

(** [type(v).__name__]. *)
Definition value_type_name (v : value) : string :=
  match v with
  | VNone => "NoneType"
  | VBool _ => "bool"
  | VInt _ => "int"
  | VStr _ => "str"
  | VList _ => "list"
  | VDict _ => "dict"
  end.

(** [prefix + v] for a [str] prefix. *)
Definition str_concat (prefix : string) (v : value) : result string :=
  match v with
  | VStr text => Ok (prefix ++ text)%string
  | other =>
      Raise (TypeError ("can only concatenate str (not " ++ dquote ++ value_type_name other
                        ++ dquote ++ ") to str"))
  end.

(** The state of a process that has just started: no object yet, nothing
    sent. *)
Definition fresh_process : state := {| self := ∅; trace := [] |}.

(** How a run of the script ends: [main] returned, [sys.exit(code)] was
    called, an exception reached the top, or the run was still going when
    the fuel ran out. *)
Inductive termination : Type :=
| Finished
| SystemExit (code : Z)
| Uncaught (e : exn)
| NotTerminated.

(** [try: body  finally: cleanup], after [body] ended with [body_outcome]:
    an exception of [cleanup] replaces whatever the body ended with. *)
Definition finally (body_outcome : outcome unit) (cleanup : M unit) (st : state)
    : termination * state :=
  match body_outcome with
  | OutOfFuel => (NotTerminated, st)
  | Ret _ =>
      match cleanup st with
      | (Ret _, st') => (Finished, st')
      | (Exn e, st') => (Uncaught e, st')
      | (OutOfFuel, st') => (NotTerminated, st')
      end
  | Exn e =>
      match cleanup st with
      | (Ret _, st') => (Uncaught e, st')
      | (Exn e', st') => (Uncaught e', st')
      | (OutOfFuel, st') => (NotTerminated, st')
      end
  end.

(** ** [src/weather_client.py] *)

Module WeatherClient.

(** [MCPClient.convert_tools_format], a static method. *)
Definition convert_tools_format (tools : list Tool) : list value :=
  fold_left
    (fun converted tool =>
       let converted_tool :=
         VDict [("type", VStr "function");
                ("function",
                 VDict [("name", VStr (name tool));
                        ("description", description tool);
                        ("parameters", inputSchema tool)])] in
       converted ++ [converted_tool])
    tools [].

(** [MCPClient.__init__] on a fresh instance. *)
Definition __init__ : M unit :=
  run setattr "session" PNone then
  run setattr "exit_stack" (PExitStack []) then
  setattr "ollama_client" (POllamaClient "http://localhost:11434").

Section Methods.

Context (W : World).

Definition connect_to_server (server_script_path : string) : M unit :=
  let is_python := endswith server_script_path ".py" in
  let is_js := endswith server_script_path ".js" in
  if negb (is_python || is_js) then
    raise (ValueError "Server script must be a .py or .js file")
  else
    let command := if is_python then "python" else "node" in
    let server_params := mkStdioServerParameters command [server_script_path] None in
    let* stdio_transport := enter_async_context W (ret (stdio_client server_params)) in
    match stdio_transport with
    | PTuple [stdio; write] =>
        run setattr "stdio" stdio then
        run setattr "write" write then
        let* session := enter_async_context W new_client_session in
        run setattr "session" session then
        let* session := getattr "session" in
        run session_initialize W session then
        let* session := getattr "session" in
        let* tools := session_list_tools W session in
        ret tt
    | _ => raise (TypeError "cannot unpack non-iterable object")
    end.

(** The [while True] loop of [process_query]; [fuel] bounds the number of
    model round-trips the embedding follows. *)
Fixpoint turn_loop (fuel : nat) (model : string) (available_tools messages : list value)
    : M value :=
  match fuel with
  | O => out_of_fuel
  | S fuel' =>
      let* response := ollama_chat W model messages available_tools in
      let tool_calls := default [] (tool_calls (message response)) in
      match tool_calls with
      | first_call :: _ =>
          let call := function first_call in
          let tool_name := dict_get "name" call VNone in
          let tool_args := dict_get "arguments" call (VStr "{}") in
          let* tool_args := try_json_loads W tool_args in
          let* session := getattr "session" in
          let* result := session_call_tool W session tool_name tool_args in
          turn_loop fuel' model available_tools
            (messages ++ [tool_message tool_name (py_str W result)])
      | [] =>
          ret (default (VStr "") (content (message response)))
      end
  end.

Definition process_query (fuel : nat) (query model : string) : M value :=
  let messages := [user_message query] in
  let* session := getattr "session" in
  let* mcp_tools := session_list_tools W session in
  let available_tools := convert_tools_format mcp_tools in
  turn_loop fuel model available_tools messages.

Definition cleanup : M unit := exit_stack_aclose W.

(** The [while True] loop of [chat_loop].  [fuel] bounds the number of
    lines read, [rounds] is the fuel of each [process_query].  The handler is
    [except Exception]: an exception of another class ends the loop. *)
Fixpoint chat_rounds (fuel rounds : nat) (con : console) (st : state)
    : outcome unit * console * state :=
  match fuel with
  | O => (OutOfFuel, con, st)
  | S fuel' =>
      let '(line, con) := input (nl ++ "Query: ")%string con in
      let attempt : outcome bool * console * state :=
        match line with
        | Raise e => (Exn e, con, st)
        | Ok line =>
            let query := strip line in
            if String.eqb (lower query) "quit" then (Ret true, con, st)
            else
              match process_query rounds query "gpt-oss:20b" st with
              | (Ret response, st') =>
                  match str_concat nl response with
                  | Ok text => (Ret false, print text con, st')
                  | Raise e => (Exn e, con, st')
                  end
              | (Exn e, st') => (Exn e, con, st')
              | (OutOfFuel, st') => (OutOfFuel, con, st')
              end
        end in
      match attempt with
      | (Ret true, con, st) => (Ret tt, con, st)
      | (Ret false, con, st) => chat_rounds fuel' rounds con st
      | (Exn e, con, st) =>
          if is_exception e then
            chat_rounds fuel' rounds (print (nl ++ "Error: " ++ exn_str e)%string con) st
          else (Exn e, con, st)
      | (OutOfFuel, con, st) => (OutOfFuel, con, st)
      end
  end.

Definition chat_loop (fuel rounds : nat) (con : console) (st : state)
    : outcome unit * console * state :=
  let con := print "MCP Client Started!" con in
  let con := print "Type your queries or 'quit' to exit." con in
  chat_rounds fuel rounds con st.

(** [main()], run as a script with [sys.argv = argv] on a fresh process. *)
Definition main (argv : list string) (fuel rounds : nat) (con : console)
    : termination * console * state :=
  if (length argv <? 2)%nat then
    (SystemExit 1, print "Usage: python client.py <path_to_server_script>" con, fresh_process)
  else
    let st := snd (__init__ fresh_process) in
    let '(body, con, st) :=
      match connect_to_server (nth 1 argv "") st with
      | (Ret _, st) => chat_loop fuel rounds con st
      | (Exn e, st) => (Exn e, con, st)
      | (OutOfFuel, st) => (OutOfFuel, con, st)
      end in
    let '(ended, st) := finally body cleanup st in
    (ended, con, st).

End Methods.

End WeatherClient.

(** ** [src/multi_client.py] *)

Module MultiClient.

(** [MCPClient.convert_tools_format], a static method. *)
Definition convert_tools_format (tools : list Tool) : list value :=
  fold_left
    (fun converted tool =>
       let converted_tool :=
         VDict [("type", VStr "function");
                ("function",
                 VDict [("name", VStr (name tool));
                        ("description", description tool);
                        ("parameters", inputSchema tool)])] in
       converted ++ [converted_tool])
    tools [].

(** [MCPClient.__init__] on a fresh instance: the attribute is [sessions];
    no attribute [session] is created. *)
Definition __init__ : M unit :=
  run setattr "sessions" (PList []) then
  run setattr "exit_stack" (PExitStack []) then
  setattr "ollama_client" (POllamaClient "http://localhost:11434").

(** [for sess in self.sessions]: the items of the list. *)
Definition iter_sessions : M (list pyobj) :=
  let* sessions := getattr "sessions" in
  match sessions with
  | PList items | PTuple items => ret items
  | o => raise (TypeError ("'" ++ type_name o ++ "' object is not iterable"))
  end.

Section Methods.

Context (W : World).

Definition connect_to_server (server_script_path : string) : M unit :=
  let is_python := endswith server_script_path ".py" in
  let is_js := endswith server_script_path ".js" in
  if negb (is_python || is_js) then
    raise (ValueError "Server script must be a .py or .js file")
  else
    let command := if is_python then "python" else "node" in
    let server_params := mkStdioServerParameters command [server_script_path] None in
    let* stdio_transport := enter_async_context W (ret (stdio_client server_params)) in
    match stdio_transport with
    | PTuple [stdio; write] =>
        run setattr "stdio" stdio then
        run setattr "write" write then
        let* loc_session := enter_async_context W new_client_session in
        let* sessions := getattr "sessions" in
        match sessions with
        | PList items =>
            run setattr "sessions" (PList (items ++ [loc_session])) then
            let* sessions := getattr "sessions" in
            match sessions with
            | PList items' =>
                match last items' with
                | Some newest =>
                    run session_initialize W newest then
                    let* items'' := iter_sessions in
                    let* _available_tools :=
                      for_each items'' []
                        (fun _available_tools sess =>
                           let* tools := session_list_tools W sess in
                           ret (_available_tools ++ tools)) in
                    ret tt
                | None => raise (IndexError "list index out of range")
                end
            | o => raise (TypeError ("'" ++ type_name o ++ "' object is not subscriptable"))
            end
        | o => no_attribute (type_name o) "append"
        end
    | _ => raise (TypeError "cannot unpack non-iterable object")
    end.

Definition connect_to_servers (server_script_paths : list string) : M unit :=
  run for_each server_script_paths tt
        (fun _ server_script_path => connect_to_server server_script_path) then
  let* items := iter_sessions in
  for_each (imap (fun idx loc => (idx, loc)) items) tt
    (fun _ '(idx, loc) =>
       let* loc_tools := session_list_tools W loc in
       match server_script_paths !! idx with
       | Some _ => ret tt
       | None => raise (IndexError "list index out of range")
       end).

(** The [while True] loop of [process_query]; [fuel] bounds the number of
    model round-trips the embedding follows.  The tool is invoked through
    [self.session], as the source writes it. *)
Fixpoint turn_loop (fuel : nat) (model : string) (available_tools messages : list value)
    : M value :=
  match fuel with
  | O => out_of_fuel
  | S fuel' =>
      let* response := ollama_chat W model messages available_tools in
      let tool_calls := default [] (tool_calls (message response)) in
      match tool_calls with
      | first_call :: _ =>
          let call := function first_call in
          let tool_name := dict_get "name" call VNone in
          let tool_args := dict_get "arguments" call (VStr "{}") in
          let* tool_args := try_json_loads W tool_args in
          let* session := getattr "session" in
          let* result := session_call_tool W session tool_name tool_args in
          turn_loop fuel' model available_tools
            (messages ++ [tool_message tool_name (py_str W result)])
      | [] =>
          ret (default (VStr "") (content (message response)))
      end
  end.

(** The loop ahead of the conversation in [process_query]: the catalog of
    every session in [self.sessions], translated and concatenated. *)
Definition fetch_available_tools : M (list value) :=
  let* items := iter_sessions in
  for_each items []
    (fun available_tools sess =>
       let* tools := session_list_tools W sess in
       ret (available_tools ++ convert_tools_format tools)).

Definition process_query (fuel : nat) (query model : string) : M value :=
  let messages := [user_message query] in
  let* available_tools := fetch_available_tools in
  turn_loop fuel model available_tools messages.

Definition cleanup : M unit := exit_stack_aclose W.

(** The [while True] loop of [chat_loop].  [fuel] bounds the number of
    lines read, [rounds] is the fuel of each [process_query].  The handler is
    [except Exception]: an exception of another class ends the loop. *)
Fixpoint chat_rounds (fuel rounds : nat) (con : console) (st : state)
    : outcome unit * console * state :=
  match fuel with
  | O => (OutOfFuel, con, st)
  | S fuel' =>
      let '(line, con) := input (nl ++ "Query: ")%string con in
      let attempt : outcome bool * console * state :=
        match line with
        | Raise e => (Exn e, con, st)
        | Ok line =>
            let query := strip line in
            if String.eqb (lower query) "quit" then (Ret true, con, st)
            else
              match process_query rounds query "gpt-oss:20b" st with
              | (Ret response, st') =>
                  match str_concat nl response with
                  | Ok text => (Ret false, print text con, st')
                  | Raise e => (Exn e, con, st')
                  end
              | (Exn e, st') => (Exn e, con, st')
              | (OutOfFuel, st') => (OutOfFuel, con, st')
              end
        end in
      match attempt with
      | (Ret true, con, st) => (Ret tt, con, st)
      | (Ret false, con, st) => chat_rounds fuel' rounds con st
      | (Exn e, con, st) =>
          if is_exception e then
            chat_rounds fuel' rounds (print (nl ++ "Error: " ++ exn_str e)%string con) st
          else (Exn e, con, st)
      | (OutOfFuel, con, st) => (OutOfFuel, con, st)
      end
  end.

Definition chat_loop (fuel rounds : nat) (con : console) (st : state)
    : outcome unit * console * state :=
  let con := print (nl ++ "MCP Client Started!")%string con in
  let con := print "Type your queries or 'quit' to exit." con in
  chat_rounds fuel rounds con st.

(** [main()], run as a script with [sys.argv = argv] on a fresh process. *)
Definition main (argv : list string) (fuel rounds : nat) (con : console)
    : termination * console * state :=
  if (length argv <? 2)%nat then
    (SystemExit 1, print "Usage: python client.py <path_to_server_script>" con, fresh_process)
  else
    let st := snd (__init__ fresh_process) in
    let '(body, con, st) :=
      match connect_to_servers (drop 1 argv) st with
      | (Ret _, st) => chat_loop fuel rounds con st
      | (Exn e, st) => (Exn e, con, st)
      | (OutOfFuel, st) => (OutOfFuel, con, st)
      end in
    let '(ended, st) := finally body cleanup st in
    (ended, con, st).

End Methods.

End MultiClient.

(** ** Scenarios

    Concrete collaborators on which the programs above are run: provider
    scripts with fixed catalogs, and a model backend that reads its replies
    from a script, one per round. *)

Definition is_chat (e : event) : bool :=
  match e with EvChat _ _ _ => true | _ => false end.


Definition is_call_tool (e : event) : bool :=
  match e with EvCallTool _ _ _ => true | _ => false end.

(** The parameters of the processes spawned so far, oldest first. *)
Definition spawned (tr : list event) : list StdioServerParameters :=
  omap (fun e => match e with EvSpawn server_params => Some server_params | _ => None end) tr.

(** The script run by the process a session writes to. *)
Definition script_of (tr : list event) (s : ClientSession) : string :=
  match spawned tr !! write_stream s with
  | Some server_params => hd "" (args server_params)
  | None => ""
  end.

Definition object_schema (properties : list (string * value)) : value :=
  VDict [("type", VStr "object"); ("properties", VDict properties)].

Definition get_time_tool : Tool :=
  mkTool "get_time" (VStr "Current time of day") (object_schema []).

Definition get_weather_tool : Tool :=
  mkTool "get_weather" (VStr "Weather in a city")
    (object_schema [("city", VDict [("type", VStr "string")])]).


(** A decoder for the JSON texts the scenarios use: the empty object, the
    empty array and the three literals; any other text is reported as
    undecodable, which the scenarios rely on for the text [not-json] only. *)
Definition sample_json_loads (s : string) : json_result :=
  if String.eqb s "{}" then Decoded (VDict [])
  else if String.eqb s "[]" then Decoded (VList [])
  else if String.eqb s "null" then Decoded VNone
  else if String.eqb s "true" then Decoded (VBool true)
  else if String.eqb s "false" then Decoded (VBool false)
  else JSONDecodeError.

Definition text_of (v : value) : string :=
  match v with VStr s => s | _ => "" end.

Definition sample_str (r : CallToolResult) : string :=
  (if isError r then "isError=True content=" else "isError=False content=")
  ++ String.concat "," (map text_of (result_content r)).

Definition text_result (text : string) : CallToolResult :=
  mkCallToolResult [VStr text] false.

Definition error_result (text : string) : CallToolResult :=
  mkCallToolResult [VStr text] true.

Record scenario : Type := mkScenario {
  replies : list ChatResponse;
  catalog : list event -> string -> list Tool;
  tool_outcome : string -> value -> value -> result CallToolResult
}.

Definition final_answer (text : string) : ChatResponse :=
  mkChatResponse (mkMessage (Some (VStr text)) None).

Definition tool_request (calls : list (list (string * value))) : ChatResponse :=
  mkChatResponse (mkMessage (Some (VStr "")) (Some (map mkToolCall calls))).

Definition scenario_world (sc : scenario) : World :=
  {| json_loads := sample_json_loads;
     py_str := sample_str;
     w_spawn := fun tr _ => Ok (length (spawned tr));
     w_session_enter := fun _ _ => Ok tt;
     w_initialize := fun _ _ => Ok tt;
     w_list_tools := fun tr s => Ok (catalog sc tr (script_of tr s));
     w_call_tool := fun tr s tool_name tool_args =>
                      tool_outcome sc (script_of tr s) tool_name tool_args;
     w_chat := fun tr _ _ _ =>
                 nth (length (filter is_chat tr)) (map Ok (replies sc))
                     (Ok (final_answer "done"));
     w_exit := fun _ _ _ => Ok false |}.

(** Two provider scripts: one tells the time, one the weather. *)
Definition fixed_catalog (tr : list event) (script : string) : list Tool :=
  if String.eqb script "time_server.py" then [get_time_tool]
  else if String.eqb script "weather_server.py" then [get_weather_tool]
  else [].


Definition providers (script : string) (tool_name tool_args : value) : result CallToolResult :=
  match tool_name with
  | VStr n =>
      if String.eqb script "time_server.py" && String.eqb n "get_time" then
        Ok (text_result "12:00")
      else if String.eqb script "weather_server.py" && String.eqb n "get_weather" then
        match tool_args with
        | VDict [] => Ok (error_result "city is required")
        | _ => Ok (text_result "sunny")
        end
      else Ok (error_result "Unknown tool")
  | _ => Ok (error_result "Unknown tool")
  end.

(** A provider whose session raises instead of returning a result. *)
Definition raising_providers (script : string) (tool_name tool_args : value)
    : result CallToolResult :=
  Raise (ExternalError script "Invalid request parameters").

Definition paris : value := VDict [("city", VStr "Paris")].

Definition empty_state : state := {| self := ∅; trace := [] |}.

(** A weather client after [__init__] and [connect_to_server]. *)
Definition weather_connected (W : World) : state :=
  snd ((run WeatherClient.__init__ then
        WeatherClient.connect_to_server W "weather_server.py") empty_state).

(** A multi client after [__init__] and [connect_to_servers] on both scripts. *)
Definition multi_connected (W : World) : state :=
  snd ((run MultiClient.__init__ then
        MultiClient.connect_to_servers W ["time_server.py"; "weather_server.py"]) empty_state).

(** The events a run added to the trace it started from. *)
Definition new_events (before after : state) : list event :=
  drop (length (trace before)) (trace after).

(** What the model asks for in the scenarios. *)
Definition ask_weather_paris : list (string * value) :=
  [("name", VStr "get_weather"); ("arguments", paris)].

Definition ask_weather_json_text : list (string * value) :=
  [("name", VStr "get_weather"); ("arguments", VStr "{}")].

Definition ask_weather_not_json : list (string * value) :=
  [("name", VStr "get_weather"); ("arguments", VStr "not-json")].

Definition ask_time : list (string * value) :=
  [("name", VStr "get_time"); ("arguments", VDict [])].

(** The model asks for the weather with its arguments as a mapping. *)
Definition mapping_scenario : scenario :=
  mkScenario [tool_request [ask_weather_paris]] fixed_catalog providers.

(** The model asks for the weather with its arguments as the JSON text of
    an empty object. *)
Definition json_text_scenario : scenario :=
  mkScenario [tool_request [ask_weather_json_text]] fixed_catalog providers.

(** The model asks for the weather with arguments that are no JSON. *)
Definition not_json_scenario : scenario :=
  mkScenario [tool_request [ask_weather_not_json]] fixed_catalog providers.

(** The model asks for two tools in one reply. *)
Definition two_calls_scenario : scenario :=
  mkScenario [tool_request [ask_weather_paris; ask_time]] fixed_catalog providers.

(** The session raises when the tool is called. *)
Definition raising_scenario : scenario :=
  mkScenario [tool_request [ask_weather_paris]] fixed_catalog raising_providers.


(** The model answers at once. *)
Definition no_tool_scenario : scenario :=
  mkScenario [final_answer "It is always sunny."] fixed_catalog providers.

Definition the_model : string := "gpt-oss:20b".

Definition the_query : string := "What is the weather in Paris?".

Definition session_of (p : proc) : ClientSession := mkClientSession p p.

(** ** Vocabulary of the statements *)

(** The function-spec the translator is to produce for one descriptor:
    [{type: "function", function: {name, description, parameters}}]. *)
Definition function_spec (tool : Tool) : value :=
  VDict [("type", VStr "function");
         ("function",
          VDict [("name", VStr (name tool));
                 ("description", description tool);
                 ("parameters", inputSchema tool)])].

(** A computation that never creates attribute [attr] on [self]. *)
Definition keeps_absent (attr : string) {A} (m : M A) : Prop :=
  forall st, self st !! attr = None -> self (snd (m st)) !! attr = None.

(** A computation that leaves [self] alone and only adds events that
    satisfy [P]. *)
Definition only_sends (P : event -> Prop) {A} (m : M A) : Prop :=
  forall st, exists evs,
    snd (m st) = {| self := self st; trace := trace st ++ evs |} /\ Forall P evs.

(** The states a multi client can be in: a fresh instance after [__init__],
    and whatever a method call leaves behind, however it ended. *)
Inductive multi_reachable (W : World) : state -> Prop :=
| reach_init :
    multi_reachable W (snd (MultiClient.__init__ empty_state))
| reach_connect_to_server st path :
    multi_reachable W st ->
    multi_reachable W (snd (MultiClient.connect_to_server W path st))
| reach_connect_to_servers st paths :
    multi_reachable W st ->
    multi_reachable W (snd (MultiClient.connect_to_servers W paths st))
| reach_process_query st fuel query model :
    multi_reachable W st ->
    multi_reachable W (snd (MultiClient.process_query W fuel query model st))
| reach_cleanup st :
    multi_reachable W st ->
    multi_reachable W (snd (MultiClient.cleanup W st)).

(** What may be sent while the conversation loop runs with the tool list
    [tools]: chat requests carrying exactly [tools], and tool calls. *)
Definition loop_event (tools : list value) (e : event) : Prop :=
  match e with
  | EvChat _ _ sent => sent = tools
  | EvCallTool _ _ _ => True
  | _ => False
  end.

Definition list_tools_event (e : event) : Prop :=
  match e with
  | EvListTools _ => True
  | _ => False
  end.

Definition exit_event (e : event) : Prop :=
  match e with
  | EvExit _ _ => True
  | _ => False
  end.

(** The exit callbacks of the contexts entered by the requests [evs], which
    were sent after [before]: a spawn or a session enter counts when the
    world answered it rather than raised. *)
Fixpoint opened_from (W : World) (before evs : list event) : list exit_callback :=
  match evs with
  | [] => []
  | e :: rest =>
      match e with
      | EvSpawn server_params =>
          match w_spawn W before server_params with
          | Ok p => [ExitStdio p]
          | Raise _ => []
          end
      | EvSessionEnter s =>
          match w_session_enter W before s with
          | Ok _ => [ExitSession s]
          | Raise _ => []
          end
      | _ => []
      end ++ opened_from W (before ++ [e]) rest
  end.

(** The exit callbacks that were run, in the order they were run. *)
Definition closed (evs : list event) : list exit_callback :=
  omap (fun e => match e with EvExit cb _ => Some cb | _ => None end) evs.

(** Requests that neither enter nor exit a context. *)
Definition quiet_event (e : event) : Prop :=
  match e with
  | EvSpawn _ | EvSessionEnter _ | EvExit _ _ => False
  | _ => True
  end.

(** Requests of a query: catalog, chat, tool call. *)
Definition query_event (e : event) : Prop :=
  match e with
  | EvListTools _ | EvChat _ _ _ | EvCallTool _ _ _ => True
  | _ => False
  end.

(** A computation under which the exit stack keeps track of the contexts
    entered: started with [callbacks] on the stack, it ends, however it
    ends, with the callbacks of the contexts it entered on top of them,
    newest first, and it runs no exit callback. *)
Definition tracks_exit_stack (W : World) {A} (m : M A) : Prop :=
  forall st callbacks,
    self st !! "exit_stack" = Some (PExitStack callbacks) ->
    exists evs,
      trace (snd (m st)) = trace st ++ evs
      /\ self (snd (m st)) !! "exit_stack"
         = Some (PExitStack (rev (opened_from W (trace st) evs) ++ callbacks))
      /\ closed evs = [].

(** The messages of the chat requests among [evs], in order. *)
Definition chat_histories (evs : list event) : list (list value) :=
  omap (fun e => match e with EvChat _ messages _ => Some messages | _ => None end) evs.

(** Successive histories: the first is [messages], and each later one is the
    one before it with one tool message added at the end. *)
Fixpoint grows_by_tool_messages (messages : list value) (histories : list (list value)) : Prop :=
  match histories with
  | [] => True
  | first :: later =>
      first = messages
      /\ (later = []
          \/ exists tool_name text,
               grows_by_tool_messages (messages ++ [tool_message tool_name text]) later)
  end.

(** What the sessions [ss] answer when asked for their tools one after the
    other, starting after the trace [tr]; the answers stop at the first
    session that raises. *)
Fixpoint catalog_answers (W : World) (tr : list event) (ss : list ClientSession)
    : list (list Tool) :=
  match ss with
  | [] => []
  | s :: rest =>
      match w_list_tools W tr s with
      | Ok tools => tools :: catalog_answers W (tr ++ [EvListTools s]) rest
      | Raise _ => []
      end
  end.

(** The parameters [connect_to_server] spawns a provider with. *)
Definition server_params_for (path : string) : StdioServerParameters :=
  mkStdioServerParameters (if endswith path ".py" then "python" else "node") [path] None.

Definition supported (path : string) : bool :=
  endswith path ".py" || endswith path ".js".

(** A line that ends [chat_loop]. *)
Definition quits (line : string) : Prop := lower (strip line) = "quit".

(** A model backend whose final reply has [content] set to [None]. *)
Definition null_content_scenario : scenario :=
  mkScenario [mkChatResponse (mkMessage (Some VNone) None)] fixed_catalog providers.

(** Collaborators as in the scenarios, except that entering a session
    raises: the provider process starts but the session over it cannot be
    set up. *)
Definition broken_session_world : World :=
  let W := scenario_world no_tool_scenario in
  {| json_loads := json_loads W;
     py_str := py_str W;
     w_spawn := w_spawn W;
     w_session_enter := fun _ _ => Raise (ExternalError "session" "stream closed");
     w_initialize := w_initialize W;
     w_list_tools := w_list_tools W;
     w_call_tool := w_call_tool W;
     w_chat := w_chat W;
     w_exit := w_exit W |}.




(** * Properties *)

(** ** The tool catalog translator *)

Lemma fold_left_snoc {A B} (f : A -> B) (l : list A) (acc : list B) :
  fold_left (fun converted x => converted ++ [f x]) l acc = acc ++ map f l.
Proof.
  revert acc. induction l as [|x l IH]; intros acc; simpl.
  - by rewrite app_nil_r.
  - rewrite IH. by rewrite <- app_assoc.
Qed.

Lemma weather_convert_map tools :
  WeatherClient.convert_tools_format tools = map function_spec tools.
Proof. unfold WeatherClient.convert_tools_format. apply (fold_left_snoc function_spec). Qed.

Lemma multi_convert_map tools :
  MultiClient.convert_tools_format tools = map function_spec tools.
Proof. unfold MultiClient.convert_tools_format. apply (fold_left_snoc function_spec). Qed.

(** C5: [convert_tools_format], in either client, returns as many entries
    as it was given descriptors, in the same order: the entry at every
    position [i] is
    [{type: "function", function: {name, description, parameters}}] built from
    the name, description and input schema of the descriptor at position [i],
    and there is an entry at [i] exactly when there is a descriptor at [i]. *)
Theorem convert_tools_format_positional (tools : list Tool) :
  (length (WeatherClient.convert_tools_format tools) = length tools
   /\ forall i : nat,
        WeatherClient.convert_tools_format tools !! i
        = (fun tool =>
             VDict [("type", VStr "function");
                    ("function",
                     VDict [("name", VStr (name tool));
                            ("description", description tool);
                            ("parameters", inputSchema tool)])]) <$> tools !! i)
  /\ (length (MultiClient.convert_tools_format tools) = length tools
      /\ forall i : nat,
           MultiClient.convert_tools_format tools !! i
           = (fun tool =>
                VDict [("type", VStr "function");
                       ("function",
                        VDict [("name", VStr (name tool));
                               ("description", description tool);
                               ("parameters", inputSchema tool)])]) <$> tools !! i).
Proof.
  rewrite weather_convert_map, multi_convert_map.
  repeat split; try apply length_map; intros i; apply list_lookup_fmap.
Qed.

(** The three fields of an entry, read back through the dictionaries. *)
Lemma function_spec_fields tool :
  value_field "type" (function_spec tool) = Some (VStr "function")
  /\ (value_field "function" (function_spec tool) ≫= value_field "name") = Some (VStr (name tool))
  /\ (value_field "function" (function_spec tool) ≫= value_field "description")
     = Some (description tool)
  /\ (value_field "function" (function_spec tool) ≫= value_field "parameters")
     = Some (inputSchema tool).
Proof. repeat split. Qed.

(** ** Connecting *)

Lemma substring_whole (s : string) : substring 0 (String.length s) s = s.
Proof. induction s as [|c s IH]; simpl; [done|by rewrite IH]. Qed.

Lemma substring_of_append (prefix suffix : string) :
  substring (String.length prefix) (String.length suffix) (String.append prefix suffix) = suffix.
Proof. induction prefix as [|c prefix IH]; simpl; [apply substring_whole|done]. Qed.

Lemma string_length_append (s1 s2 : string) :
  String.length (String.append s1 s2) = String.length s1 + String.length s2.
Proof. induction s1 as [|c s1 IH]; simpl; [done|by rewrite IH]. Qed.

Lemma substring_split (s : string) :
  forall i : nat,
    i <= String.length s ->
    String.append (substring 0 i s) (substring i (String.length s - i) s) = s.
Proof.
  induction s as [|c s IH]; intros [|i] Hi; simpl in *; try lia; try done.
  - by rewrite substring_whole.
  - change (String c (String.append (substring 0 i s)
                        (substring i (String.length s - i) s)) = String c s).
    rewrite IH by lia. done.
Qed.

(** [endswith] holds exactly when the string is some prefix followed by the
    suffix. *)
Lemma endswith_spec (s suffix : string) :
  endswith s suffix = true <-> exists prefix : string, s = String.append prefix suffix.
Proof.
  unfold endswith. rewrite andb_true_iff, Nat.leb_le, String.eqb_eq. split.
  - intros [Hlen Hsub].
    exists (substring 0 (String.length s - String.length suffix) s).
    pose proof (substring_split s (String.length s - String.length suffix)) as Hsplit.
    replace (String.length s - (String.length s - String.length suffix))
      with (String.length suffix) in Hsplit by lia.
    rewrite Hsub in Hsplit. symmetry. apply Hsplit. lia.
  - intros [prefix ->]. rewrite string_length_append. split; [lia|].
    replace (String.length prefix + String.length suffix - String.length suffix)
      with (String.length prefix) by lia.
    apply substring_of_append.
Qed.

(** C8: when the locator ends neither in [.py] nor in [.js],
    [connect_to_server] of either client raises [ValueError] and hands back
    the state it was given: no request was sent (nothing spawned, no session
    entered) and no attribute of the client was set. *)
Theorem connect_to_server_rejects_suffix (W : World) (path : string) (st : state) :
  endswith path ".py" = false ->
  endswith path ".js" = false ->
  WeatherClient.connect_to_server W path st
  = (Exn (ValueError "Server script must be a .py or .js file"), st)
  /\ MultiClient.connect_to_server W path st
     = (Exn (ValueError "Server script must be a .py or .js file"), st).
Proof.
  intros Hpy Hjs.
  unfold WeatherClient.connect_to_server, MultiClient.connect_to_server.
  rewrite Hpy, Hjs. split; reflexivity.
Qed.

Lemma connect_to_server_rejects_suffix_witness :
  let W := scenario_world no_tool_scenario in
  WeatherClient.connect_to_server W "notes.txt" (snd (WeatherClient.__init__ empty_state))
  = (Exn (ValueError "Server script must be a .py or .js file"),
     snd (WeatherClient.__init__ empty_state))
  /\ MultiClient.connect_to_server W "notes.txt" (snd (WeatherClient.__init__ empty_state))
     = (Exn (ValueError "Server script must be a .py or .js file"),
        snd (WeatherClient.__init__ empty_state)).
Proof.
  intros W.
  apply (connect_to_server_rejects_suffix W "notes.txt"
           (snd (WeatherClient.__init__ empty_state))); reflexivity.
Defined.

(** On a rejected locator the trace stays empty and the attributes are those
    [__init__] created, in either client. *)
Lemma rejected_locator_spawns_nothing :
  let W := scenario_world no_tool_scenario in
  let weather := (run WeatherClient.__init__ then
                  WeatherClient.connect_to_server W "notes.txt") empty_state in
  let multi := (run MultiClient.__init__ then
                MultiClient.connect_to_server W "server.rb") empty_state in
  fst weather = Exn (ValueError "Server script must be a .py or .js file")
  /\ trace (snd weather) = []
  /\ self (snd weather) !! "session" = Some PNone
  /\ self (snd weather) !! "exit_stack" = Some (PExitStack [])
  /\ fst multi = Exn (ValueError "Server script must be a .py or .js file")
  /\ trace (snd multi) = []
  /\ self (snd multi) !! "sessions" = Some (PList [])
  /\ self (snd multi) !! "exit_stack" = Some (PExitStack []).
Proof. vm_compute. repeat split. Qed.

(** ** Releasing resources *)

Lemma run_exit_callbacks_effect (W : World) (callbacks : list exit_callback) :
  forall (exc : option exn) (pending_raise : bool) (st : state),
    self st !! "exit_stack" = Some (PExitStack callbacks) ->
    exists excs : list (option exn),
      length excs = length callbacks
      /\ trace (snd (run_exit_callbacks W callbacks exc pending_raise st))
         = trace st ++ zip_with EvExit callbacks excs
      /\ self (snd (run_exit_callbacks W callbacks exc pending_raise st))
         = <["exit_stack" := PExitStack []]> (self st).
Proof.
  induction callbacks as [|cb rest IH]; intros exc pending_raise st Hstack.
  - exists []. simpl. repeat split.
    + destruct exc, pending_raise; simpl; by rewrite app_nil_r.
    + rewrite insert_id by done. by destruct exc, pending_raise.
  - set (st_popped := {| self := <["exit_stack" := PExitStack rest]> (self st);
                         trace := trace st ++ [EvExit cb exc] |}).
    assert (Hpopped : self st_popped !! "exit_stack" = Some (PExitStack rest))
      by apply lookup_insert_eq.
    assert (Hstep : exists exc' pending',
               run_exit_callbacks W (cb :: rest) exc pending_raise st
               = run_exit_callbacks W rest exc' pending' st_popped).
    { simpl. unfold bind, setattr, try_catch, request. simpl.
      destruct (w_exit W (trace st) cb exc) as [[|]|e]; simpl; eauto. }
    destruct Hstep as (exc' & pending' & ->).
    destruct (IH exc' pending' st_popped Hpopped) as (excs & Hlen & Htrace & Hself).
    exists (exc :: excs). simpl. repeat split.
    + by rewrite Hlen.
    + rewrite Htrace. simpl. by rewrite <- app_assoc.
    + rewrite Hself. simpl. apply insert_insert_eq.
Qed.

Lemma exit_stack_aclose_on_empty (W : World) (st : state) :
  self st !! "exit_stack" = Some (PExitStack []) ->
  exit_stack_aclose W st = (Ret tt, st).
Proof.
  intros Hstack. unfold exit_stack_aclose, bind, getattr. by rewrite Hstack.
Qed.

Lemma exit_stack_aclose_effect (W : World) (st : state) (callbacks : list exit_callback) :
  self st !! "exit_stack" = Some (PExitStack callbacks) ->
  exists excs : list (option exn),
    length excs = length callbacks
    /\ trace (snd (exit_stack_aclose W st)) = trace st ++ zip_with EvExit callbacks excs
    /\ self (snd (exit_stack_aclose W st)) = <["exit_stack" := PExitStack []]> (self st).
Proof.
  intros Hstack. unfold exit_stack_aclose, bind, getattr. rewrite Hstack.
  by apply run_exit_callbacks_effect.
Qed.

(** When no exit callback raises, closing the stack returns normally. *)
Lemma run_exit_callbacks_returns (W : World) (callbacks : list exit_callback) :
  (forall tr cb exc, exists suppress, w_exit W tr cb exc = Ok suppress) ->
  forall (exc : option exn) (st : state),
    fst (run_exit_callbacks W callbacks exc false st) = Ret tt.
Proof.
  intros Hexit. induction callbacks as [|cb rest IH]; intros exc st.
  - by destruct exc.
  - simpl. unfold bind, setattr, try_catch, request. simpl.
    destruct (Hexit (trace st) cb exc) as [[|] ->]; simpl; apply IH.
Qed.

Lemma cleanup_returns_when_callbacks_return
    (W : World) (st : state) (callbacks : list exit_callback) :
  (forall tr cb exc, exists suppress, w_exit W tr cb exc = Ok suppress) ->
  self st !! "exit_stack" = Some (PExitStack callbacks) ->
  fst (WeatherClient.cleanup W st) = Ret tt /\ fst (MultiClient.cleanup W st) = Ret tt.
Proof.
  intros Hexit Hstack.
  unfold WeatherClient.cleanup, MultiClient.cleanup, exit_stack_aclose, bind, getattr.
  rewrite Hstack. split; by apply run_exit_callbacks_returns.
Qed.

(** C9: on a client whose exit stack holds [callbacks], the first [cleanup]
    (of either client) runs each callback exactly once, last entered first,
    and leaves the stack empty, whether or not a callback raised; a second
    [cleanup] right after it returns normally and hands back the state
    unchanged, so it sends no request: nothing is closed again. *)
Theorem cleanup_twice (W : World) (st : state) (callbacks : list exit_callback) :
  self st !! "exit_stack" = Some (PExitStack callbacks) ->
  (exists excs : list (option exn),
     length excs = length callbacks
     /\ trace (snd (WeatherClient.cleanup W st)) = trace st ++ zip_with EvExit callbacks excs
     /\ self (snd (WeatherClient.cleanup W st)) !! "exit_stack" = Some (PExitStack [])
     /\ WeatherClient.cleanup W (snd (WeatherClient.cleanup W st))
        = (Ret tt, snd (WeatherClient.cleanup W st)))
  /\ (exists excs : list (option exn),
        length excs = length callbacks
        /\ trace (snd (MultiClient.cleanup W st)) = trace st ++ zip_with EvExit callbacks excs
        /\ self (snd (MultiClient.cleanup W st)) !! "exit_stack" = Some (PExitStack [])
        /\ MultiClient.cleanup W (snd (MultiClient.cleanup W st))
           = (Ret tt, snd (MultiClient.cleanup W st))).
Proof.
  intros Hstack. unfold WeatherClient.cleanup, MultiClient.cleanup.
  destruct (exit_stack_aclose_effect W st callbacks Hstack) as (excs & Hlen & Htrace & Hself).
  assert (Hempty : self (snd (exit_stack_aclose W st)) !! "exit_stack" = Some (PExitStack []))
    by (rewrite Hself; apply lookup_insert_eq).
  split; exists excs; repeat split; auto using exit_stack_aclose_on_empty.
Qed.

Lemma cleanup_twice_witness :
  let W := scenario_world no_tool_scenario in
  let weather := snd (WeatherClient.cleanup W (weather_connected W)) in
  let multi := snd (MultiClient.cleanup W (multi_connected W)) in
  (self weather !! "exit_stack" = Some (PExitStack [])
   /\ WeatherClient.cleanup W weather = (Ret tt, weather))
  /\ (self multi !! "exit_stack" = Some (PExitStack [])
      /\ MultiClient.cleanup W multi = (Ret tt, multi)).
Proof.
  intros W weather multi. split.
  - destruct (cleanup_twice W (weather_connected W)
                [ExitSession (session_of 0); ExitStdio 0]) as [(excs & _ & _ & H) _].
    + vm_compute. reflexivity.
    + exact H.
  - destruct (cleanup_twice W (multi_connected W)
                [ExitSession (session_of 1); ExitStdio 1;
                 ExitSession (session_of 0); ExitStdio 0]) as [_ (excs & _ & _ & H)].
    + vm_compute. reflexivity.
    + exact H.
Defined.

(** What the two calls send, on a multi client with two providers: the first
    runs the four exit callbacks, newest first; the second sends nothing. *)
Lemma double_cleanup_events :
  let W := scenario_world no_tool_scenario in
  let st := multi_connected W in
  let once := MultiClient.cleanup W st in
  let twice := MultiClient.cleanup W (snd once) in
  fst once = Ret tt
  /\ new_events st (snd once)
     = [EvExit (ExitSession (session_of 1)) None; EvExit (ExitStdio 1) None;
        EvExit (ExitSession (session_of 0)) None; EvExit (ExitStdio 0) None]
  /\ fst twice = Ret tt
  /\ new_events (snd once) (snd twice) = [].
Proof. vm_compute. repeat split. Qed.

(** ** The conversation loop of the weather client *)

Section WeatherRounds.

Context (W : World).

Lemma try_json_loads_pure (raw : value) (st : state) :
  try_json_loads W raw st
  = (match raw with
     | VStr s =>
         match json_loads W s with
         | Decoded v => Ret v
         | JSONDecodeError => Ret (VDict [])
         | JSONOtherError e => Exn e
         end
     | _ => Ret raw
     end, st).
Proof.
  destruct raw; try reflexivity.
  simpl. by destruct (json_loads W s).
Qed.

Lemma ollama_chat_request (st : state) (host model : string) (messages tools : list value) :
  self st !! "ollama_client" = Some (POllamaClient host) ->
  ollama_chat W model messages tools st
  = request (EvChat model messages tools) (fun tr => w_chat W tr model messages tools) st.
Proof.
  intros Hclient. unfold ollama_chat, bind, getattr. by rewrite Hclient.
Qed.

(** One round in which the model asks for tools: the first request is
    decoded and sent to [self.session]; what follows depends on whether the
    session returns or raises. *)
Lemma weather_round_with_tool_call
    (fuel : nat) (model host : string) (tools messages : list value) (st : state)
    (response : ChatResponse) (first_call : ToolCall) (others : list ToolCall)
    (s : ClientSession) (tool_args : value) :
  self st !! "ollama_client" = Some (POllamaClient host) ->
  self st !! "session" = Some (PSession s) ->
  w_chat W (trace st) model messages tools = Ok response ->
  tool_calls (message response) = Some (first_call :: others) ->
  (forall st', try_json_loads W (dict_get "arguments" (function first_call) (VStr "{}")) st'
               = (Ret tool_args, st')) ->
  WeatherClient.turn_loop W (S fuel) model tools messages st
  = let tool_name := dict_get "name" (function first_call) VNone in
    let asked := trace st ++ [EvChat model messages tools] in
    let st' := {| self := self st; trace := asked ++ [EvCallTool s tool_name tool_args] |} in
    match w_call_tool W asked s tool_name tool_args with
    | Ok result =>
        WeatherClient.turn_loop W fuel model tools
          (messages ++ [tool_message tool_name (py_str W result)]) st'
    | Raise e => (Exn e, st')
    end.
Proof.
  intros Hclient Hsession Hchat Hcalls Hdecode.
  cbn [WeatherClient.turn_loop]. unfold bind at 1.
  rewrite (ollama_chat_request st host) by done.
  unfold request at 1. rewrite Hchat. cbn [self trace]. rewrite Hcalls. cbn [default from_option id].
  unfold bind at 1. rewrite Hdecode.
  unfold bind at 1. unfold getattr at 1. cbn [self trace]. rewrite Hsession.
  unfold bind at 1. unfold session_call_tool, request. cbn [self trace].
  by destruct (w_call_tool W _ s _ tool_args).
Qed.

(** One round in which the model asks for no tool. *)
Lemma weather_round_final
    (fuel : nat) (model host : string) (tools messages : list value) (st : state)
    (response : ChatResponse) :
  self st !! "ollama_client" = Some (POllamaClient host) ->
  w_chat W (trace st) model messages tools = Ok response ->
  default [] (tool_calls (message response)) = [] ->
  WeatherClient.turn_loop W (S fuel) model tools messages st
  = (Ret (default (VStr "") (content (message response))),
     {| self := self st; trace := trace st ++ [EvChat model messages tools] |}).
Proof.
  intros Hclient Hchat Hcalls.
  cbn [WeatherClient.turn_loop]. unfold bind at 1.
  rewrite (ollama_chat_request st host) by done.
  unfold request at 1. rewrite Hchat. cbn [self trace]. by rewrite Hcalls.
Qed.

Lemma weather_process_query_unfold (fuel : nat) (query model : string) (st : state)
    (s : ClientSession) :
  self st !! "session" = Some (PSession s) ->
  WeatherClient.process_query W fuel query model st
  = match w_list_tools W (trace st) s with
    | Ok mcp_tools =>
        WeatherClient.turn_loop W fuel model (WeatherClient.convert_tools_format mcp_tools)
          [user_message query] {| self := self st; trace := trace st ++ [EvListTools s] |}
    | Raise e => (Exn e, {| self := self st; trace := trace st ++ [EvListTools s] |})
    end.
Proof.
  intros Hsession. unfold WeatherClient.process_query.
  unfold bind at 1. unfold getattr at 1. rewrite Hsession.
  unfold bind at 1. unfold session_list_tools, request.
  by destruct (w_list_tools W (trace st) s).
Qed.

End WeatherRounds.

(** ** Attributes a computation never creates *)

Section KeepsAbsent.

Context (attr : string).

Lemma keeps_absent_ret {A} (a : A) : keeps_absent attr (ret a).
Proof. by intros st H. Qed.

Lemma keeps_absent_raise {A} (e : exn) : keeps_absent attr (@raise A e).
Proof. by intros st H. Qed.

Lemma keeps_absent_no_attribute {A} (ty a : string) :
  keeps_absent attr (@no_attribute A ty a).
Proof. by intros st H. Qed.

Lemma keeps_absent_out_of_fuel {A} : keeps_absent attr (@out_of_fuel A).
Proof. by intros st H. Qed.

Lemma keeps_absent_getattr (a : string) : keeps_absent attr (getattr a).
Proof. intros st H. unfold getattr. by destruct (self st !! a). Qed.

Lemma keeps_absent_setattr (a : string) (o : pyobj) :
  a <> attr -> keeps_absent attr (setattr a o).
Proof. intros Hne st H. simpl. by rewrite lookup_insert_ne. Qed.

Lemma keeps_absent_request {A} (e : event) (answer : list event -> result A) :
  keeps_absent attr (request e answer).
Proof. intros st H. unfold request. by destruct (answer (trace st)). Qed.

Lemma keeps_absent_bind {A B} (m : M A) (k : A -> M B) :
  keeps_absent attr m -> (forall a, keeps_absent attr (k a)) -> keeps_absent attr (bind m k).
Proof.
  intros Hm Hk st H. unfold bind. specialize (Hm st H).
  destruct (m st) as [[a|e|] st']; simpl in *; auto. by apply Hk.
Qed.

Lemma keeps_absent_try_catch {A} (m : M A) :
  keeps_absent attr m -> keeps_absent attr (try_catch m).
Proof.
  intros Hm st H. unfold try_catch. specialize (Hm st H).
  by destruct (m st) as [[a|e|] st'].
Qed.

Lemma keeps_absent_for_each {A B} (l : list A) (body : B -> A -> M B) :
  (forall acc x, keeps_absent attr (body acc x)) ->
  forall acc, keeps_absent attr (for_each l acc body).
Proof.
  intros Hbody. induction l as [|x l IH]; intros acc; simpl.
  - apply keeps_absent_ret.
  - apply keeps_absent_bind; auto.
Qed.

End KeepsAbsent.

Ltac keeps_absent_step :=
  first
    [ apply keeps_absent_ret
    | apply keeps_absent_raise
    | apply keeps_absent_no_attribute
    | apply keeps_absent_out_of_fuel
    | apply keeps_absent_getattr
    | apply keeps_absent_request
    | apply keeps_absent_setattr; discriminate
    | apply keeps_absent_try_catch
    | apply keeps_absent_for_each; intros
    | apply keeps_absent_bind; [|intros]
    | match goal with
      | |- keeps_absent _ (match ?x with _ => _ end) => destruct x
      end ].

Ltac keeps_absent_auto := cbv zeta; repeat keeps_absent_step.

Section MultiAttributes.

Context (W : World).

Lemma keeps_absent_session_ops (attr : string) (sess : pyobj) :
  keeps_absent attr (session_initialize W sess)
  /\ keeps_absent attr (session_list_tools W sess)
  /\ forall n a, keeps_absent attr (session_call_tool W sess n a).
Proof.
  unfold session_initialize, session_list_tools, session_call_tool.
  repeat split; intros; keeps_absent_auto.
Qed.

Lemma keeps_absent_try_json_loads (attr : string) (raw : value) :
  keeps_absent attr (try_json_loads W raw).
Proof. unfold try_json_loads. keeps_absent_auto. Qed.

Lemma keeps_absent_ollama_chat (attr : string) model messages tools :
  keeps_absent attr (ollama_chat W model messages tools).
Proof. unfold ollama_chat. keeps_absent_auto. Qed.

Lemma keeps_absent_enter_async_context (attr : string) (cm_expr : M context_manager) :
  attr <> "exit_stack" ->
  keeps_absent attr cm_expr ->
  keeps_absent attr (enter_async_context W cm_expr).
Proof.
  intros Hne Hcm. unfold enter_async_context, aenter.
  cbv zeta.
  repeat first
    [ assumption
    | apply keeps_absent_setattr; congruence
    | keeps_absent_step ].
Qed.

Lemma keeps_absent_new_client_session (attr : string) :
  keeps_absent attr new_client_session.
Proof. unfold new_client_session. keeps_absent_auto. Qed.

Lemma keeps_absent_run_exit_callbacks (attr : string) callbacks :
  attr <> "exit_stack" ->
  forall exc pending_raise,
    keeps_absent attr (run_exit_callbacks W callbacks exc pending_raise).
Proof.
  intros Hne. induction callbacks as [|cb rest IH]; intros exc pending_raise; simpl.
  - keeps_absent_auto.
  - apply keeps_absent_bind; [apply keeps_absent_setattr; congruence|intros _].
    apply keeps_absent_bind; [keeps_absent_auto|intros r].
    destruct r as [[|]|e]; apply IH.
Qed.

Lemma keeps_absent_exit_stack_aclose (attr : string) :
  attr <> "exit_stack" -> keeps_absent attr (exit_stack_aclose W).
Proof.
  intros Hne. unfold exit_stack_aclose.
  apply keeps_absent_bind; [keeps_absent_auto|intros stack].
  destruct stack; try keeps_absent_auto. by apply keeps_absent_run_exit_callbacks.
Qed.

Lemma multi_iter_sessions_keeps_absent (attr : string) :
  keeps_absent attr MultiClient.iter_sessions.
Proof. unfold MultiClient.iter_sessions. keeps_absent_auto. Qed.

Lemma multi_init_keeps_session_absent : keeps_absent "session" MultiClient.__init__.
Proof. unfold MultiClient.__init__. keeps_absent_auto. Qed.

Lemma multi_connect_to_server_keeps_session_absent path :
  keeps_absent "session" (MultiClient.connect_to_server W path).
Proof.
  unfold MultiClient.connect_to_server. cbv zeta.
  repeat first
    [ apply keeps_absent_enter_async_context; [discriminate|]
    | apply keeps_absent_new_client_session
    | apply multi_iter_sessions_keeps_absent
    | apply keeps_absent_session_ops
    | match goal with
      | |- keeps_absent _ (if ?b then _ else _) => destruct b
      end
    | keeps_absent_step ].
Qed.

Lemma multi_connect_to_servers_keeps_session_absent paths :
  keeps_absent "session" (MultiClient.connect_to_servers W paths).
Proof.
  unfold MultiClient.connect_to_servers.
  repeat first
    [ apply multi_connect_to_server_keeps_session_absent
    | apply multi_iter_sessions_keeps_absent
    | apply keeps_absent_session_ops
    | keeps_absent_step ].
Qed.

Lemma multi_turn_loop_keeps_absent (attr : string) fuel model tools :
  forall messages, keeps_absent attr (MultiClient.turn_loop W fuel model tools messages).
Proof.
  induction fuel as [|fuel IH]; intros messages; simpl.
  - apply keeps_absent_out_of_fuel.
  - repeat first
      [ apply IH
      | apply keeps_absent_ollama_chat
      | apply keeps_absent_try_json_loads
      | apply keeps_absent_session_ops
      | keeps_absent_step ].
Qed.

Lemma multi_fetch_keeps_absent (attr : string) :
  keeps_absent attr (MultiClient.fetch_available_tools W).
Proof.
  unfold MultiClient.fetch_available_tools.
  repeat first
    [ apply multi_iter_sessions_keeps_absent
    | apply keeps_absent_session_ops
    | keeps_absent_step ].
Qed.

Lemma multi_process_query_keeps_absent (attr : string) fuel query model :
  keeps_absent attr (MultiClient.process_query W fuel query model).
Proof.
  unfold MultiClient.process_query. cbv zeta.
  apply keeps_absent_bind; [apply multi_fetch_keeps_absent|intros tools].
  apply multi_turn_loop_keeps_absent.
Qed.

(** No method of the multi client ever creates the attribute [session]:
    [__init__] creates [sessions], [exit_stack] and [ollama_client], and
    [connect_to_server] adds [stdio] and [write]. *)
Lemma multi_reachable_no_session (st : state) :
  multi_reachable W st -> self st !! "session" = None.
Proof.
  induction 1.
  - by apply multi_init_keeps_session_absent.
  - by apply multi_connect_to_server_keeps_session_absent.
  - by apply multi_connect_to_servers_keeps_session_absent.
  - by apply multi_process_query_keeps_absent.
  - by apply (keeps_absent_exit_stack_aclose "session").
Qed.

End MultiAttributes.

(** ** The conversation loop of the multi client *)

Section MultiRounds.

Context (W : World).

(** One round in which the model asks for tools: after decoding the first
    request, the dispatch statement reads [self.session]; on a client
    without that attribute the round ends there with [AttributeError], and
    the chat request is the only request of the round. *)
Lemma multi_round_with_tool_call
    (fuel : nat) (model host : string) (tools messages : list value) (st : state)
    (response : ChatResponse) (first_call : ToolCall) (others : list ToolCall)
    (tool_args : value) :
  self st !! "ollama_client" = Some (POllamaClient host) ->
  self st !! "session" = None ->
  w_chat W (trace st) model messages tools = Ok response ->
  tool_calls (message response) = Some (first_call :: others) ->
  (forall st', try_json_loads W (dict_get "arguments" (function first_call) (VStr "{}")) st'
               = (Ret tool_args, st')) ->
  MultiClient.turn_loop W (S fuel) model tools messages st
  = (Exn (AttributeError "'MCPClient' object has no attribute 'session'"),
     {| self := self st; trace := trace st ++ [EvChat model messages tools] |}).
Proof.
  intros Hclient Hsession Hchat Hcalls Hdecode.
  cbn [MultiClient.turn_loop]. unfold bind at 1.
  rewrite (ollama_chat_request W st host) by done.
  unfold request at 1. rewrite Hchat. cbn [self trace]. rewrite Hcalls.
  cbn [default from_option id].
  unfold bind at 1. rewrite Hdecode.
  unfold bind at 1. unfold getattr at 1. cbn [self trace]. by rewrite Hsession.
Qed.

(** One round in which the model asks for no tool. *)
Lemma multi_round_final
    (fuel : nat) (model host : string) (tools messages : list value) (st : state)
    (response : ChatResponse) :
  self st !! "ollama_client" = Some (POllamaClient host) ->
  w_chat W (trace st) model messages tools = Ok response ->
  default [] (tool_calls (message response)) = [] ->
  MultiClient.turn_loop W (S fuel) model tools messages st
  = (Ret (default (VStr "") (content (message response))),
     {| self := self st; trace := trace st ++ [EvChat model messages tools] |}).
Proof.
  intros Hclient Hchat Hcalls.
  cbn [MultiClient.turn_loop]. unfold bind at 1.
  rewrite (ollama_chat_request W st host) by done.
  unfold request at 1. rewrite Hchat. cbn [self trace]. by rewrite Hcalls.
Qed.

Lemma only_sends_ret {A} (P : event -> Prop) (a : A) : only_sends P (ret a).
Proof. intros st. exists []. split; [|constructor]. destruct st. simpl. by rewrite app_nil_r. Qed.

Lemma only_sends_raise {A} (P : event -> Prop) (e : exn) : only_sends P (@raise A e).
Proof. intros st. exists []. split; [|constructor]. destruct st. simpl. by rewrite app_nil_r. Qed.

Lemma only_sends_getattr (P : event -> Prop) (a : string) : only_sends P (getattr a).
Proof.
  intros st. exists []. split; [|constructor]. unfold getattr.
  destruct st as [slf tr]. simpl. rewrite app_nil_r. by destruct (slf !! a).
Qed.

Lemma only_sends_request {A} (P : event -> Prop) (e : event) (answer : list event -> result A) :
  P e -> only_sends P (request e answer).
Proof.
  intros He st. exists [e]. split; [|by constructor]. unfold request.
  by destruct (answer (trace st)).
Qed.

Lemma only_sends_bind {A B} (P : event -> Prop) (m : M A) (k : A -> M B) :
  only_sends P m -> (forall a, only_sends P (k a)) -> only_sends P (bind m k).
Proof.
  intros Hm Hk st. unfold bind. destruct (Hm st) as (evs & Hst & Hevs).
  destruct (m st) as [[a|e|] st']; simpl in Hst; subst st'; simpl; eauto.
  destruct (Hk a {| self := self st; trace := trace st ++ evs |}) as (evs' & Hst' & Hevs').
  exists (evs ++ evs'). split; [|by apply Forall_app].
  rewrite Hst'. simpl. by rewrite <- app_assoc.
Qed.

Lemma only_sends_for_each {A B} (P : event -> Prop) (l : list A) (body : B -> A -> M B) :
  (forall acc x, only_sends P (body acc x)) ->
  forall acc, only_sends P (for_each l acc body).
Proof.
  intros Hbody. induction l as [|x l IH]; intros acc; simpl.
  - apply only_sends_ret.
  - apply only_sends_bind; auto.
Qed.

Lemma only_sends_weaken {A} (P Q : event -> Prop) (m : M A) :
  (forall e, P e -> Q e) -> only_sends P m -> only_sends Q m.
Proof.
  intros HPQ Hm st. destruct (Hm st) as (evs & Hst & Hevs).
  exists evs. split; [done|]. eapply Forall_impl; eauto.
Qed.

Lemma session_list_tools_only_lists (sess : pyobj) :
  only_sends list_tools_event (session_list_tools W sess).
Proof.
  unfold session_list_tools, no_attribute.
  destruct sess; try apply only_sends_raise. by apply only_sends_request.
Qed.

Lemma session_call_tool_only_calls (tools : list value) (sess : pyobj) (n a : value) :
  only_sends (loop_event tools) (session_call_tool W sess n a).
Proof.
  unfold session_call_tool, no_attribute.
  destruct sess; try apply only_sends_raise. by apply only_sends_request.
Qed.

Lemma ollama_chat_only_chats (model : string) (messages tools : list value) :
  only_sends (loop_event tools) (ollama_chat W model messages tools).
Proof.
  unfold ollama_chat, no_attribute.
  apply only_sends_bind; [apply only_sends_getattr|intros client].
  destruct client; try apply only_sends_raise. by apply only_sends_request.
Qed.

Lemma try_json_loads_sends_nothing (P : event -> Prop) (raw : value) :
  only_sends P (try_json_loads W raw).
Proof.
  unfold try_json_loads. destruct raw; try apply only_sends_ret.
  destruct (json_loads W s); auto using only_sends_ret, only_sends_raise.
Qed.

(** The catalog loop of the multi client sends [list_tools] requests only. *)
Lemma multi_fetch_only_lists :
  only_sends list_tools_event (MultiClient.fetch_available_tools W).
Proof.
  unfold MultiClient.fetch_available_tools, MultiClient.iter_sessions.
  apply only_sends_bind.
  - apply only_sends_bind; [apply only_sends_getattr|intros sessions].
    destruct sessions; auto using only_sends_ret, only_sends_raise.
  - intros items. apply only_sends_for_each. intros acc sess.
    apply only_sends_bind; [apply session_list_tools_only_lists|intros tools].
    apply only_sends_ret.
Qed.

(** The conversation loop, in either client, sends chat requests that all
    carry the tool list it was started with, and tool calls; it never asks a
    provider for its catalog. *)
Lemma weather_turn_loop_only_sends (fuel : nat) (model : string) (tools : list value) :
  forall messages,
    only_sends (loop_event tools) (WeatherClient.turn_loop W fuel model tools messages).
Proof.
  induction fuel as [|fuel IH]; intros messages; simpl.
  - intros st. exists []. split; [|constructor]. destruct st. simpl. by rewrite app_nil_r.
  - apply only_sends_bind; [apply ollama_chat_only_chats|intros response].
    destruct (default [] (tool_calls (message response))) as [|first_call others].
    + apply only_sends_ret.
    + apply only_sends_bind; [apply try_json_loads_sends_nothing|intros tool_args].
      apply only_sends_bind; [apply only_sends_getattr|intros session].
      apply only_sends_bind; [apply session_call_tool_only_calls|intros result].
      apply IH.
Qed.

Lemma multi_turn_loop_only_sends (fuel : nat) (model : string) (tools : list value) :
  forall messages,
    only_sends (loop_event tools) (MultiClient.turn_loop W fuel model tools messages).
Proof.
  induction fuel as [|fuel IH]; intros messages; simpl.
  - intros st. exists []. split; [|constructor]. destruct st. simpl. by rewrite app_nil_r.
  - apply only_sends_bind; [apply ollama_chat_only_chats|intros response].
    destruct (default [] (tool_calls (message response))) as [|first_call others].
    + apply only_sends_ret.
    + apply only_sends_bind; [apply try_json_loads_sends_nothing|intros tool_args].
      apply only_sends_bind; [apply only_sends_getattr|intros session].
      apply only_sends_bind; [apply session_call_tool_only_calls|intros result].
      apply IH.
Qed.

End MultiRounds.

(** ** Fetching the catalog *)

Section Catalog.

Context (W : World).

Lemma multi_catalog_loop_all (ss : list ClientSession) :
  forall (acc tools : list value) (st st' : state),
    for_each (PSession <$> ss) acc
      (fun available_tools sess =>
         let* tools := session_list_tools W sess in
         ret (available_tools ++ MultiClient.convert_tools_format tools)) st
    = (Ret tools, st') ->
    st' = {| self := self st; trace := trace st ++ (EvListTools <$> ss) |}.
Proof.
  induction ss as [|s ss IH]; intros acc tools st st'.
  - cbn. intros [= _ <-]. destruct st. simpl. by rewrite app_nil_r.
  - cbn [fmap list_fmap for_each]. unfold bind at 1. unfold bind at 1.
    cbn [session_list_tools]. unfold request at 1.
    destruct (w_list_tools W (trace st) s) as [mcp_tools|e]; [|done].
    cbn [ret]. intros Hrest. apply IH in Hrest. rewrite Hrest.
    cbn [self trace fmap list_fmap]. by rewrite <- app_assoc.
Qed.

(** When every session answers, the catalog loop asks each session once, in
    the order of [self.sessions]. *)
Lemma multi_fetch_all_sessions (ss : list ClientSession) (st st' : state) (tools : list value) :
  self st !! "sessions" = Some (PList (PSession <$> ss)) ->
  MultiClient.fetch_available_tools W st = (Ret tools, st') ->
  st' = {| self := self st; trace := trace st ++ (EvListTools <$> ss) |}.
Proof.
  intros Hsessions. unfold MultiClient.fetch_available_tools, MultiClient.iter_sessions.
  unfold bind at 1. unfold bind at 1. unfold getattr. rewrite Hsessions. cbn [ret].
  apply multi_catalog_loop_all.
Qed.

Lemma catalog_answers_length (tr : list event) (ss : list ClientSession) :
  length (catalog_answers W tr ss) <= length ss.
Proof.
  revert tr. induction ss as [|s ss IH]; intros tr; cbn [catalog_answers length]; [lia|].
  destruct (w_list_tools W tr s); cbn [length]; [|lia].
  specialize (IH (tr ++ [EvListTools s])). lia.
Qed.




End Catalog.

(** ** A reply without tool calls *)

(** C6: when the model's reply to the first request carries no tool call
    (the field is absent, [None] or empty), [process_query] returns after
    that one round, for any positive fuel: besides fetching the catalog it
    sends exactly one chat request and no tool call, and it returns the
    reply's [content] field as it is (the empty string when the field is
    absent).  In the weather client the catalog fetch is one [list_tools]
    request to [self.session]; in the multi client it is one per session. *)
Theorem process_query_final_answer
    (W : World) (fuel : nat) (query model : string) (response : ChatResponse) :
  default [] (tool_calls (message response)) = [] ->
  (forall (st : state) (host : string) (s : ClientSession) (mcp_tools : list Tool),
     self st !! "ollama_client" = Some (POllamaClient host) ->
     self st !! "session" = Some (PSession s) ->
     w_list_tools W (trace st) s = Ok mcp_tools ->
     w_chat W (trace st ++ [EvListTools s]) model [user_message query]
       (WeatherClient.convert_tools_format mcp_tools) = Ok response ->
     WeatherClient.process_query W (S fuel) query model st
     = (Ret (default (VStr "") (content (message response))),
        {| self := self st;
           trace := trace st ++ [EvListTools s;
                                 EvChat model [user_message query]
                                   (WeatherClient.convert_tools_format mcp_tools)] |}))
  /\ (forall (st st1 : state) (host : string) (ss : list ClientSession) (tools : list value),
        self st !! "ollama_client" = Some (POllamaClient host) ->
        self st !! "sessions" = Some (PList (PSession <$> ss)) ->
        MultiClient.fetch_available_tools W st = (Ret tools, st1) ->
        w_chat W (trace st ++ (EvListTools <$> ss)) model [user_message query] tools
        = Ok response ->
        MultiClient.process_query W (S fuel) query model st
        = (Ret (default (VStr "") (content (message response))),
           {| self := self st;
              trace := trace st ++ (EvListTools <$> ss)
                       ++ [EvChat model [user_message query] tools] |})).
Proof.
  intros Hcalls. split.
  - intros st host s mcp_tools Hclient Hsession Hlist Hchat.
    rewrite (weather_process_query_unfold W _ _ _ _ s) by done. rewrite Hlist.
    erewrite weather_round_final; eauto. cbn [self trace]. by rewrite <- app_assoc.
  - intros st st1 host ss tools Hclient Hsessions Hfetch Hchat.
    unfold MultiClient.process_query. unfold bind at 1. rewrite Hfetch.
    apply (multi_fetch_all_sessions W ss) in Hfetch; [|done]. subst st1.
    erewrite multi_round_final; eauto. cbn [self trace]. by rewrite <- app_assoc.
Qed.

Lemma process_query_final_answer_witness :
  let W := scenario_world no_tool_scenario in
  WeatherClient.process_query W 1 the_query the_model (weather_connected W)
  = (Ret (VStr "It is always sunny."),
     {| self := self (weather_connected W);
        trace := trace (weather_connected W)
                 ++ [EvListTools (session_of 0);
                     EvChat the_model [user_message the_query]
                       (WeatherClient.convert_tools_format [get_weather_tool])] |})
  /\ MultiClient.process_query W 1 the_query the_model (multi_connected W)
     = (Ret (VStr "It is always sunny."),
        {| self := self (multi_connected W);
           trace := trace (multi_connected W)
                    ++ (EvListTools <$> [session_of 0; session_of 1])
                    ++ [EvChat the_model [user_message the_query]
                          (MultiClient.convert_tools_format [get_time_tool; get_weather_tool])] |}).
Proof.
  intros W.
  destruct (process_query_final_answer W 0 the_query the_model
              (final_answer "It is always sunny.") eq_refl) as [Hweather Hmulti].
  split.
  - apply (Hweather (weather_connected W) "http://localhost:11434" (session_of 0)
             [get_weather_tool]); vm_compute; reflexivity.
  - apply (Hmulti (multi_connected W)
             {| self := self (multi_connected W);
                trace := trace (multi_connected W)
                         ++ (EvListTools <$> [session_of 0; session_of 1]) |}
             "http://localhost:11434" [session_of 0; session_of 1]); vm_compute; reflexivity.
Defined.

(** ** A tool call that raises *)

(** C2, as the code has it: [process_query] of the weather client has no
    handler around the tool invocation.  In a round where the model asks for
    a tool and [call_tool] on [self.session] raises [e], the loop ends with
    [e] raised to the caller; the tool call is the last request sent, so no
    tool message reaches the model and no further round takes place. *)
Theorem tool_call_exception_propagates
    (W : World) (fuel : nat) (model host : string) (tools messages : list value) (st : state)
    (response : ChatResponse) (first_call : ToolCall) (others : list ToolCall)
    (s : ClientSession) (tool_args : value) (e : exn) :
  self st !! "ollama_client" = Some (POllamaClient host) ->
  self st !! "session" = Some (PSession s) ->
  w_chat W (trace st) model messages tools = Ok response ->
  tool_calls (message response) = Some (first_call :: others) ->
  (forall st', try_json_loads W (dict_get "arguments" (function first_call) (VStr "{}")) st'
               = (Ret tool_args, st')) ->
  w_call_tool W (trace st ++ [EvChat model messages tools]) s
    (dict_get "name" (function first_call) VNone) tool_args = Raise e ->
  WeatherClient.turn_loop W (S fuel) model tools messages st
  = (Exn e,
     {| self := self st;
        trace := trace st ++ [EvChat model messages tools;
                              EvCallTool s (dict_get "name" (function first_call) VNone)
                                tool_args] |}).
Proof.
  intros Hclient Hsession Hchat Hcalls Hdecode Hraise.
  erewrite weather_round_with_tool_call; eauto.
  cbv zeta. rewrite Hraise. by rewrite <- app_assoc.
Qed.

(** A failure the session reports as a returned result is an ordinary
    result: its text goes into the history and the loop goes on. *)
Lemma returned_result_is_appended
    (W : World) (fuel : nat) (model host : string) (tools messages : list value) (st : state)
    (response : ChatResponse) (first_call : ToolCall) (others : list ToolCall)
    (s : ClientSession) (tool_args : value) (result : CallToolResult) :
  self st !! "ollama_client" = Some (POllamaClient host) ->
  self st !! "session" = Some (PSession s) ->
  w_chat W (trace st) model messages tools = Ok response ->
  tool_calls (message response) = Some (first_call :: others) ->
  (forall st', try_json_loads W (dict_get "arguments" (function first_call) (VStr "{}")) st'
               = (Ret tool_args, st')) ->
  w_call_tool W (trace st ++ [EvChat model messages tools]) s
    (dict_get "name" (function first_call) VNone) tool_args = Ok result ->
  WeatherClient.turn_loop W (S fuel) model tools messages st
  = WeatherClient.turn_loop W fuel model tools
      (messages ++ [tool_message (dict_get "name" (function first_call) VNone)
                      (py_str W result)])
      {| self := self st;
         trace := trace st ++ [EvChat model messages tools;
                               EvCallTool s (dict_get "name" (function first_call) VNone)
                                 tool_args] |}.
Proof.
  intros Hclient Hsession Hchat Hcalls Hdecode Hresult.
  erewrite weather_round_with_tool_call; eauto.
  cbv zeta. rewrite Hresult. by rewrite <- app_assoc.
Qed.

Lemma tool_call_exception_propagates_witness :
  let W := scenario_world raising_scenario in
  let st := {| self := self (weather_connected W);
               trace := trace (weather_connected W) ++ [EvListTools (session_of 0)] |} in
  let tools := WeatherClient.convert_tools_format [get_weather_tool] in
  WeatherClient.turn_loop W 1 the_model tools [user_message the_query] st
  = (Exn (ExternalError "weather_server.py" "Invalid request parameters"),
     {| self := self st;
        trace := trace st ++ [EvChat the_model [user_message the_query] tools;
                              EvCallTool (session_of 0) (VStr "get_weather") paris] |}).
Proof.
  intros W st tools.
  apply (tool_call_exception_propagates W 0 the_model "http://localhost:11434" tools
           [user_message the_query] st (tool_request [ask_weather_paris])
           (mkToolCall ask_weather_paris) [] (session_of 0) paris);
    try (intros; vm_compute; reflexivity).
Defined.

(** C2 as stated fails: the session of the weather provider raises when
    [get_weather] is called; [process_query] does not turn that into a tool
    message and a further round, it raises the very exception, having sent
    one chat request only. *)
Lemma tool_call_exception_not_caught :
  let W := scenario_world raising_scenario in
  let res := WeatherClient.process_query W 5 the_query the_model (weather_connected W) in
  fst res = Exn (ExternalError "weather_server.py" "Invalid request parameters")
  /\ new_events (weather_connected W) (snd res)
     = [EvListTools (session_of 0);
        EvChat the_model [user_message the_query]
          (WeatherClient.convert_tools_format [get_weather_tool]);
        EvCallTool (session_of 0) (VStr "get_weather") paris]
  /\ length (filter is_chat (new_events (weather_connected W) (snd res))) = 1.
Proof. vm_compute. repeat split. Qed.

(** ** When the catalog is fetched *)




(** ** Dispatching a tool call *)

(** In the weather client a round with tool calls sends exactly one tool
    call, for the first request of the reply, to [self.session]; when it
    returns, the next thing the loop does is the next round. *)
Lemma weather_dispatches_first_call_only
    (W : World) (fuel : nat) (model host : string) (tools messages : list value) (st : state)
    (response : ChatResponse) (first_call : ToolCall) (others : list ToolCall)
    (s : ClientSession) (tool_args : value) (result : CallToolResult) :
  self st !! "ollama_client" = Some (POllamaClient host) ->
  self st !! "session" = Some (PSession s) ->
  w_chat W (trace st) model messages tools = Ok response ->
  tool_calls (message response) = Some (first_call :: others) ->
  (forall st', try_json_loads W (dict_get "arguments" (function first_call) (VStr "{}")) st'
               = (Ret tool_args, st')) ->
  w_call_tool W (trace st ++ [EvChat model messages tools]) s
    (dict_get "name" (function first_call) VNone) tool_args = Ok result ->
  exists st',
    WeatherClient.turn_loop W (S fuel) model tools messages st
    = WeatherClient.turn_loop W fuel model tools
        (messages ++ [tool_message (dict_get "name" (function first_call) VNone)
                        (py_str W result)]) st'
    /\ filter is_call_tool (new_events st st')
       = [EvCallTool s (dict_get "name" (function first_call) VNone) tool_args].
Proof.
  intros. eexists. split; [by eapply returned_result_is_appended|].
  unfold new_events. cbn [trace]. by rewrite drop_app_length.
Qed.

(** In the weather client, arguments given as a text that is no JSON reach
    the tool as the empty mapping, and the loop goes on. *)
Lemma weather_undecodable_arguments
    (W : World) (fuel : nat) (model host : string) (tools messages : list value) (st : state)
    (response : ChatResponse) (first_call : ToolCall) (others : list ToolCall)
    (s : ClientSession) (text : string) (result : CallToolResult) :
  self st !! "ollama_client" = Some (POllamaClient host) ->
  self st !! "session" = Some (PSession s) ->
  w_chat W (trace st) model messages tools = Ok response ->
  tool_calls (message response) = Some (first_call :: others) ->
  dict_get "arguments" (function first_call) (VStr "{}") = VStr text ->
  json_loads W text = JSONDecodeError ->
  w_call_tool W (trace st ++ [EvChat model messages tools]) s
    (dict_get "name" (function first_call) VNone) (VDict []) = Ok result ->
  WeatherClient.turn_loop W (S fuel) model tools messages st
  = WeatherClient.turn_loop W fuel model tools
      (messages ++ [tool_message (dict_get "name" (function first_call) VNone)
                      (py_str W result)])
      {| self := self st;
         trace := trace st ++ [EvChat model messages tools;
                               EvCallTool s (dict_get "name" (function first_call) VNone)
                                 (VDict [])] |}.
Proof.
  intros Hclient Hsession Hchat Hcalls Hraw Hjson Hresult.
  eapply returned_result_is_appended; eauto.
  intros st'. rewrite try_json_loads_pure, Hraw. by rewrite Hjson.
Qed.

(** In the weather client, arguments that are already a mapping reach the
    tool unchanged. *)
Lemma weather_mapping_arguments
    (W : World) (fuel : nat) (model host : string) (tools messages : list value) (st : state)
    (response : ChatResponse) (first_call : ToolCall) (others : list ToolCall)
    (s : ClientSession) (entries : list (string * value)) (result : CallToolResult) :
  self st !! "ollama_client" = Some (POllamaClient host) ->
  self st !! "session" = Some (PSession s) ->
  w_chat W (trace st) model messages tools = Ok response ->
  tool_calls (message response) = Some (first_call :: others) ->
  dict_get "arguments" (function first_call) (VStr "{}") = VDict entries ->
  w_call_tool W (trace st ++ [EvChat model messages tools]) s
    (dict_get "name" (function first_call) VNone) (VDict entries) = Ok result ->
  WeatherClient.turn_loop W (S fuel) model tools messages st
  = WeatherClient.turn_loop W fuel model tools
      (messages ++ [tool_message (dict_get "name" (function first_call) VNone)
                      (py_str W result)])
      {| self := self st;
         trace := trace st ++ [EvChat model messages tools;
                               EvCallTool s (dict_get "name" (function first_call) VNone)
                                 (VDict entries)] |}.
Proof.
  intros Hclient Hsession Hchat Hcalls Hraw Hresult.
  eapply returned_result_is_appended; eauto.
  intros st'. by rewrite try_json_loads_pure, Hraw.
Qed.

(** In the multi client no tool call is ever sent: in any state the client
    can reach, a reply with a tool call whose arguments decode makes
    [process_query] raise [AttributeError] at [self.session], right after
    the chat request. *)
Lemma multi_tool_call_raises
    (W : World) (fuel : nat) (query model host : string) (st st1 : state)
    (ss : list ClientSession) (tools : list value)
    (response : ChatResponse) (first_call : ToolCall) (others : list ToolCall)
    (tool_args : value) :
  multi_reachable W st ->
  self st !! "ollama_client" = Some (POllamaClient host) ->
  self st !! "sessions" = Some (PList (PSession <$> ss)) ->
  MultiClient.fetch_available_tools W st = (Ret tools, st1) ->
  w_chat W (trace st ++ (EvListTools <$> ss)) model [user_message query] tools = Ok response ->
  tool_calls (message response) = Some (first_call :: others) ->
  (forall st', try_json_loads W (dict_get "arguments" (function first_call) (VStr "{}")) st'
               = (Ret tool_args, st')) ->
  MultiClient.process_query W (S fuel) query model st
  = (Exn (AttributeError "'MCPClient' object has no attribute 'session'"),
     {| self := self st;
        trace := trace st ++ (EvListTools <$> ss)
                 ++ [EvChat model [user_message query] tools] |}).
Proof.
  intros Hreach Hclient Hsessions Hfetch Hchat Hcalls Hdecode.
  apply multi_reachable_no_session in Hreach.
  unfold MultiClient.process_query. unfold bind at 1. rewrite Hfetch.
  apply (multi_fetch_all_sessions W ss) in Hfetch; [|done]. subst st1.
  erewrite multi_round_with_tool_call; eauto. cbn [self trace]. by rewrite <- app_assoc.
Qed.

(** C1 on the code: two providers are connected, the first advertises
    [get_time] and the second [get_weather]; the model asks for
    [get_weather].  [process_query] of the multi client raises
    [AttributeError] for [self.session] and sends no tool call to any
    provider, the second included. *)
Theorem multi_get_weather_reaches_no_provider (fuel : nat) :
  let W := scenario_world json_text_scenario in
  let st := multi_connected W in
  let res := MultiClient.process_query W (S fuel) the_query the_model st in
  w_list_tools W (trace st) (session_of 0) = Ok [get_time_tool]
  /\ w_list_tools W (trace st) (session_of 1) = Ok [get_weather_tool]
  /\ fst res = Exn (AttributeError "'MCPClient' object has no attribute 'session'")
  /\ filter is_call_tool (new_events st (snd res)) = [].
Proof. vm_compute. repeat split. Qed.

(** C3 on the code: the model asks for [get_weather] with the arguments
    [not-json].  The weather client sends the call with an empty mapping
    and goes on to the next round; the multi client decodes the same way
    but raises [AttributeError] for [self.session]: no call is sent and the
    loop does not go on. *)
Theorem not_json_arguments_in_both_clients (fuel : nat) :
  let W := scenario_world not_json_scenario in
  let weather := WeatherClient.process_query W (S (S fuel)) the_query the_model
                   (weather_connected W) in
  let multi := MultiClient.process_query W (S (S fuel)) the_query the_model
                 (multi_connected W) in
  json_loads W "not-json" = JSONDecodeError
  /\ fst weather = Ret (VStr "done")
  /\ filter is_call_tool (new_events (weather_connected W) (snd weather))
     = [EvCallTool (session_of 0) (VStr "get_weather") (VDict [])]
  /\ fst multi = Exn (AttributeError "'MCPClient' object has no attribute 'session'")
  /\ filter is_call_tool (new_events (multi_connected W) (snd multi)) = [].
Proof. vm_compute. repeat split. Qed.

(** C4 on the code: the model asks for [get_weather] and [get_time] in one
    reply.  The weather client sends the first call only and then asks the
    model again; the multi client raises [AttributeError] for
    [self.session] and sends neither. *)
Theorem two_tool_calls_in_both_clients (fuel : nat) :
  let W := scenario_world two_calls_scenario in
  let weather := WeatherClient.process_query W (S (S fuel)) the_query the_model
                   (weather_connected W) in
  let multi := MultiClient.process_query W (S (S fuel)) the_query the_model
                 (multi_connected W) in
  fst weather = Ret (VStr "done")
  /\ filter (fun e => is_call_tool e || is_chat e)
       (drop 1 (new_events (weather_connected W) (snd weather)))
     = [EvChat the_model [user_message the_query]
          (WeatherClient.convert_tools_format [get_weather_tool]);
        EvCallTool (session_of 0) (VStr "get_weather") paris;
        EvChat the_model
          [user_message the_query;
           tool_message (VStr "get_weather") "isError=False content=sunny"]
          (WeatherClient.convert_tools_format [get_weather_tool])]
  /\ fst multi = Exn (AttributeError "'MCPClient' object has no attribute 'session'")
  /\ filter is_call_tool (new_events (multi_connected W) (snd multi)) = [].
Proof. vm_compute. repeat split. Qed.

(** C10 on the code: the model asks for [get_weather] with the arguments
    already a mapping.  The weather client sends the call with that very
    mapping; the multi client raises [AttributeError] for [self.session]
    and sends no call, so the mapping is forwarded to nothing. *)
Theorem mapping_arguments_in_both_clients (fuel : nat) :
  let W := scenario_world mapping_scenario in
  let weather := WeatherClient.process_query W (S (S fuel)) the_query the_model
                   (weather_connected W) in
  let multi := MultiClient.process_query W (S (S fuel)) the_query the_model
                 (multi_connected W) in
  fst weather = Ret (VStr "done")
  /\ filter is_call_tool (new_events (weather_connected W) (snd weather))
     = [EvCallTool (session_of 0) (VStr "get_weather") paris]
  /\ fst multi = Exn (AttributeError "'MCPClient' object has no attribute 'session'")
  /\ filter is_call_tool (new_events (multi_connected W) (snd multi)) = [].
Proof. vm_compute. repeat split. Qed.

(** * Further properties of the clients *)

(** ** The interactive loop *)

Section ChatLoop.

Context (W : World).

Lemma weather_process_query_only_sends (fuel : nat) (query model : string) :
  only_sends query_event (WeatherClient.process_query W fuel query model).
Proof.
  unfold WeatherClient.process_query.
  apply only_sends_bind; [apply only_sends_getattr|intros session].
  apply only_sends_bind.
  - eapply only_sends_weaken; [|apply session_list_tools_only_lists]. by intros [].
  - intros mcp_tools. eapply only_sends_weaken; [|apply weather_turn_loop_only_sends].
    by intros [].
Qed.

Lemma multi_process_query_only_sends (fuel : nat) (query model : string) :
  only_sends query_event (MultiClient.process_query W fuel query model).
Proof.
  unfold MultiClient.process_query.
  apply only_sends_bind.
  - eapply only_sends_weaken; [|apply multi_fetch_only_lists]. by intros [].
  - intros tools. eapply only_sends_weaken; [|apply multi_turn_loop_only_sends].
    by intros [].
Qed.

Lemma weather_chat_rounds_never_raise (rounds fuel : nat) :
  forall (con : console) (st : state) (e : exn),
    is_exception e = true ->
    fst (fst (WeatherClient.chat_rounds W fuel rounds con st)) <> Exn e.
Proof.
  induction fuel as [|fuel IH]; intros con st e He; [done|].
  cbn [WeatherClient.chat_rounds].
  destruct (input _ con) as [[line|x] con1].
  - destruct (String.eqb (lower (strip line)) "quit"); [done|].
    destruct (WeatherClient.process_query W rounds (strip line) "gpt-oss:20b" st)
      as [[response|x|] st1]; [| |done].
    + destruct (str_concat nl response) as [text|x]; [by apply IH|].
      destruct (is_exception x) eqn:Hx; [by apply IH|].
      cbn [fst]. intros [= ->]. congruence.
    + destruct (is_exception x) eqn:Hx; [by apply IH|].
      cbn [fst]. intros [= ->]. congruence.
  - destruct (is_exception x) eqn:Hx; [by apply IH|].
    cbn [fst]. intros [= ->]. congruence.
Qed.

Lemma multi_chat_rounds_never_raise (rounds fuel : nat) :
  forall (con : console) (st : state) (e : exn),
    is_exception e = true ->
    fst (fst (MultiClient.chat_rounds W fuel rounds con st)) <> Exn e.
Proof.
  induction fuel as [|fuel IH]; intros con st e He; [done|].
  cbn [MultiClient.chat_rounds].
  destruct (input _ con) as [[line|x] con1].
  - destruct (String.eqb (lower (strip line)) "quit"); [done|].
    destruct (MultiClient.process_query W rounds (strip line) "gpt-oss:20b" st)
      as [[response|x|] st1]; [| |done].
    + destruct (str_concat nl response) as [text|x]; [by apply IH|].
      destruct (is_exception x) eqn:Hx; [by apply IH|].
      cbn [fst]. intros [= ->]. congruence.
    + destruct (is_exception x) eqn:Hx; [by apply IH|].
      cbn [fst]. intros [= ->]. congruence.
  - destruct (is_exception x) eqn:Hx; [by apply IH|].
    cbn [fst]. intros [= ->]. congruence.
Qed.


Lemma input_stdin (prompt : string) (con : console) :
  match fst (input prompt con) with
  | Ok line => stdin con = line :: stdin (snd (input prompt con))
  | Raise _ => stdin con = [] /\ stdin (snd (input prompt con)) = []
  end.
Proof. unfold input. by destruct (stdin con). Qed.

Lemma weather_chat_rounds_return (rounds fuel : nat) :
  forall (con con' : console) (st st' : state),
    WeatherClient.chat_rounds W fuel rounds con st = (Ret tt, con', st') ->
    exists before line,
      stdin con = before ++ line :: stdin con'
      /\ quits line
      /\ Forall (fun l => ~ quits l) before.
Proof.
  induction fuel as [|fuel IH]; intros con con' st st'; [done|].
  cbn [WeatherClient.chat_rounds].
  pose proof (input_stdin (nl ++ "Query: ") con) as Hin.
  destruct (input _ con) as [[line|x] con1]; cbn [fst snd] in Hin.
  - destruct (String.eqb_spec (lower (strip line)) "quit") as [Hquit|Hquit].
    + intros [= <- <-]. exists [], line. by repeat split.
    + assert (Hnext : forall c s,
                 stdin c = stdin con1 ->
                 WeatherClient.chat_rounds W fuel rounds c s = (Ret tt, con', st') ->
                 exists before line0,
                   stdin con = before ++ line0 :: stdin con'
                   /\ quits line0 /\ Forall (fun l => ~ quits l) before).
      { intros c s Hc Hrun. destruct (IH _ _ _ _ Hrun) as (before & line0 & Hs & Hq & Hb).
        exists (line :: before), line0. rewrite Hin, <- Hc, Hs. repeat split; auto. }
      destruct (WeatherClient.process_query W rounds (strip line) "gpt-oss:20b" st)
        as [[response|x|] st1]; [| |done].
      * destruct (str_concat nl response) as [text|x]; [by apply Hnext|].
        destruct (is_exception x); [by apply Hnext|done].
      * destruct (is_exception x); [by apply Hnext|done].
  - destruct Hin as [Hcon Hcon1].
    destruct (is_exception x); [|done]. intros Hrun.
    destruct (IH _ _ _ _ Hrun) as (before & line0 & Hs & _).
    cbn [print stdin] in Hs. rewrite Hcon1 in Hs. by destruct before.
Qed.

Lemma multi_chat_rounds_return (rounds fuel : nat) :
  forall (con con' : console) (st st' : state),
    MultiClient.chat_rounds W fuel rounds con st = (Ret tt, con', st') ->
    exists before line,
      stdin con = before ++ line :: stdin con'
      /\ quits line
      /\ Forall (fun l => ~ quits l) before.
Proof.
  induction fuel as [|fuel IH]; intros con con' st st'; [done|].
  cbn [MultiClient.chat_rounds].
  pose proof (input_stdin (nl ++ "Query: ") con) as Hin.
  destruct (input _ con) as [[line|x] con1]; cbn [fst snd] in Hin.
  - destruct (String.eqb_spec (lower (strip line)) "quit") as [Hquit|Hquit].
    + intros [= <- <-]. exists [], line. by repeat split.
    + assert (Hnext : forall c s,
                 stdin c = stdin con1 ->
                 MultiClient.chat_rounds W fuel rounds c s = (Ret tt, con', st') ->
                 exists before line0,
                   stdin con = before ++ line0 :: stdin con'
                   /\ quits line0 /\ Forall (fun l => ~ quits l) before).
      { intros c s Hc Hrun. destruct (IH _ _ _ _ Hrun) as (before & line0 & Hs & Hq & Hb).
        exists (line :: before), line0. rewrite Hin, <- Hc, Hs. repeat split; auto. }
      destruct (MultiClient.process_query W rounds (strip line) "gpt-oss:20b" st)
        as [[response|x|] st1]; [| |done].
      * destruct (str_concat nl response) as [text|x]; [by apply Hnext|].
        destruct (is_exception x); [by apply Hnext|done].
      * destruct (is_exception x); [by apply Hnext|done].
  - destruct Hin as [Hcon Hcon1].
    destruct (is_exception x); [|done]. intros Hrun.
    destruct (IH _ _ _ _ Hrun) as (before & line0 & Hs & _).
    cbn [print stdin] in Hs. rewrite Hcon1 in Hs. by destruct before.
Qed.

(** X2: [chat_loop], in either client, returns only when it reads a line
    that is [quit] once stripped and lowercased: when it returns, the lines
    it consumed are some lines that are not [quit] followed by one that is,
    and the lines after that one are left unread.  (Lines are ASCII, on which
    the embedding of [strip] and [lower] is exact.) *)
Theorem chat_loop_returns_only_on_quit
    (fuel rounds : nat) (con con' : console) (st st' : state) :
  Forall (fun l => is_ascii l = true) (stdin con) ->
  (WeatherClient.chat_loop W fuel rounds con st = (Ret tt, con', st') ->
   exists before line,
     stdin con = before ++ line :: stdin con'
     /\ quits line /\ Forall (fun l => ~ quits l) before)
  /\ (MultiClient.chat_loop W fuel rounds con st = (Ret tt, con', st') ->
      exists before line,
        stdin con = before ++ line :: stdin con'
        /\ quits line /\ Forall (fun l => ~ quits l) before).
Proof.
  intros _. unfold WeatherClient.chat_loop, MultiClient.chat_loop. cbv zeta. split.
  - intros Hrun. by apply weather_chat_rounds_return in Hrun.
  - intros Hrun. by apply multi_chat_rounds_return in Hrun.
Qed.

Lemma weather_chat_rounds_at_eof (rounds fuel : nat) :
  forall (con : console) (st : state),
    stdin con = [] ->
    fst (fst (WeatherClient.chat_rounds W fuel rounds con st)) = OutOfFuel.
Proof.
  induction fuel as [|fuel IH]; intros con st Hcon; [done|].
  cbn [WeatherClient.chat_rounds]. unfold input. rewrite Hcon.
  cbn [is_exception String.eqb orb negb]. by apply IH.
Qed.

Lemma multi_chat_rounds_at_eof (rounds fuel : nat) :
  forall (con : console) (st : state),
    stdin con = [] ->
    fst (fst (MultiClient.chat_rounds W fuel rounds con st)) = OutOfFuel.
Proof.
  induction fuel as [|fuel IH]; intros con st Hcon; [done|].
  cbn [MultiClient.chat_rounds]. unfold input. rewrite Hcon.
  cbn [is_exception String.eqb orb negb]. by apply IH.
Qed.

Lemma no_quit_line (lines : list string) :
  Forall (fun l => ~ quits l) lines ->
  forall before line (rest : list string),
    lines = before ++ line :: rest -> quits line -> False.
Proof.
  intros Hnoquit before line rest Hs Hq. rewrite Hs in Hnoquit.
  apply Forall_app in Hnoquit as [_ Hl]. by inversion Hl.
Qed.

(** X3: when the lines of the input are ASCII (on which the embedding of
    [strip] and [lower] is exact) and none of them is [quit] once stripped
    and lowercased, [chat_loop], in either client, never returns: whatever
    the fuel, either it is still running when the fuel runs out, or it was
    ended by an exception that is not of class [Exception], which its handler
    does not catch.  At the end of the input it is still running: every
    [input] raises [EOFError], which the loop catches before it reads
    again. *)
Theorem chat_loop_without_quit_never_returns
    (fuel rounds : nat) (con : console) (st : state) :
  Forall (fun l => is_ascii l = true) (stdin con) ->
  Forall (fun l => ~ quits l) (stdin con) ->
  (fst (fst (WeatherClient.chat_loop W fuel rounds con st)) = OutOfFuel
   \/ exists e, fst (fst (WeatherClient.chat_loop W fuel rounds con st)) = Exn e
                /\ is_exception e = false)
  /\ (fst (fst (MultiClient.chat_loop W fuel rounds con st)) = OutOfFuel
      \/ exists e, fst (fst (MultiClient.chat_loop W fuel rounds con st)) = Exn e
                   /\ is_exception e = false)
  /\ (stdin con = [] ->
      fst (fst (WeatherClient.chat_loop W fuel rounds con st)) = OutOfFuel
      /\ fst (fst (MultiClient.chat_loop W fuel rounds con st)) = OutOfFuel).
Proof.
  intros _ Hnoquit.
  pose proof (no_quit_line _ Hnoquit) as Hin.
  split; [|split].
  - destruct (WeatherClient.chat_loop W fuel rounds con st) as [[[[]|e|] con'] st'] eqn:Hrun;
      cbn [fst]; [exfalso| |by left].
    + unfold WeatherClient.chat_loop in Hrun. cbv zeta in Hrun.
      apply weather_chat_rounds_return in Hrun as (before & line & Hs & Hq & _). eauto.
    + right. exists e. split; [done|].
      destruct (is_exception e) eqn:He; [|done].
      pose proof (weather_chat_rounds_never_raise rounds fuel
                    (print "Type your queries or 'quit' to exit."
                       (print "MCP Client Started!" con)) st e He) as Hne.
      unfold WeatherClient.chat_loop in Hrun. cbv zeta in Hrun. by rewrite Hrun in Hne.
  - destruct (MultiClient.chat_loop W fuel rounds con st) as [[[[]|e|] con'] st'] eqn:Hrun;
      cbn [fst]; [exfalso| |by left].
    + unfold MultiClient.chat_loop in Hrun. cbv zeta in Hrun.
      apply multi_chat_rounds_return in Hrun as (before & line & Hs & Hq & _). eauto.
    + right. exists e. split; [done|].
      destruct (is_exception e) eqn:He; [|done].
      pose proof (multi_chat_rounds_never_raise rounds fuel
                    (print "Type your queries or 'quit' to exit."
                       (print (nl ++ "MCP Client Started!")%string con)) st e He) as Hne.
      unfold MultiClient.chat_loop in Hrun. cbv zeta in Hrun. by rewrite Hrun in Hne.
  - intros Hcon. unfold WeatherClient.chat_loop, MultiClient.chat_loop. cbv zeta.
    split; [by apply weather_chat_rounds_at_eof|by apply multi_chat_rounds_at_eof].
Qed.

(** X4: when [process_query] returns something that is no string, as it
    does when the model's final reply has [content] set to [None], the
    answer is not printed: [chat_loop] reports the [TypeError] of the
    concatenation with the newline and goes on to the next line, keeping the
    state the query left. *)
Theorem chat_loop_reports_non_string_answer
    (fuel rounds : nat) (con : console) (st st' : state) (line : string)
    (rest : list string) (answer : value) :
  stdin con = line :: rest ->
  is_ascii line = true ->
  ~ quits line ->
  value_type_name answer <> "str" ->
  let reported :=
    {| stdin := rest;
       stdout := stdout con
                 ++ [(nl ++ "Query: ")%string;
                     (nl ++ "Error: can only concatenate str (not " ++ dquote
                      ++ value_type_name answer ++ dquote ++ ") to str" ++ nl)%string] |} in
  (WeatherClient.process_query W rounds (strip line) "gpt-oss:20b" st = (Ret answer, st') ->
   WeatherClient.chat_rounds W (S fuel) rounds con st
   = WeatherClient.chat_rounds W fuel rounds reported st')
  /\ (MultiClient.process_query W rounds (strip line) "gpt-oss:20b" st = (Ret answer, st') ->
      MultiClient.chat_rounds W (S fuel) rounds con st
      = MultiClient.chat_rounds W fuel rounds reported st').
Proof.
  intros Hin _ Hquit Hanswer reported.
  assert (Hq : String.eqb (lower (strip line)) "quit" = false)
    by (by apply String.eqb_neq).
  split; intros Hrun.
  - cbn [WeatherClient.chat_rounds]. unfold input. rewrite Hin, Hq, Hrun.
    destruct answer; try (by exfalso; apply Hanswer);
      cbn [str_concat]; cbv iota beta; f_equal;
      unfold print, reported; cbn [stdin stdout]; rewrite <- app_assoc; reflexivity.
  - cbn [MultiClient.chat_rounds]. unfold input. rewrite Hin, Hq, Hrun.
    destruct answer; try (by exfalso; apply Hanswer);
      cbn [str_concat]; cbv iota beta; f_equal;
      unfold print, reported; cbn [stdin stdout]; rewrite <- app_assoc; reflexivity.
Qed.


End ChatLoop.



Lemma chat_loop_returns_only_on_quit_witness :
  let W0 := scenario_world no_tool_scenario in
  let con := mkConsole ["hello"; "  QuIt "; "later"] [] in
  (exists before line,
     stdin con = before ++ line :: ["later"]
     /\ quits line /\ Forall (fun l => ~ quits l) before)
  /\ (exists before line,
        stdin con = before ++ line :: ["later"]
        /\ quits line /\ Forall (fun l => ~ quits l) before).
Proof.
  intros W0 con. split.
  - refine (proj1 (chat_loop_returns_only_on_quit W0 5 3 con
                     (snd (fst (WeatherClient.chat_loop W0 5 3 con (weather_connected W0))))
                     (weather_connected W0)
                     (snd (WeatherClient.chat_loop W0 5 3 con (weather_connected W0))) _) _).
    + repeat constructor.
    + vm_compute. reflexivity.
  - refine (proj2 (chat_loop_returns_only_on_quit W0 5 3 con
                     (snd (fst (MultiClient.chat_loop W0 5 3 con (multi_connected W0))))
                     (multi_connected W0)
                     (snd (MultiClient.chat_loop W0 5 3 con (multi_connected W0))) _) _).
    + repeat constructor.
    + vm_compute. reflexivity.
Defined.

Lemma chat_loop_without_quit_never_returns_witness :
  let W0 := scenario_world no_tool_scenario in
  let con := mkConsole ["hello"; "  Quit it "] [] in
  let eof := mkConsole [] [] in
  (fst (fst (WeatherClient.chat_loop W0 7 3 con (weather_connected W0))) = OutOfFuel
   \/ exists e, fst (fst (WeatherClient.chat_loop W0 7 3 con (weather_connected W0))) = Exn e
                /\ is_exception e = false)
  /\ (fst (fst (MultiClient.chat_loop W0 7 3 con (multi_connected W0))) = OutOfFuel
      \/ exists e, fst (fst (MultiClient.chat_loop W0 7 3 con (multi_connected W0))) = Exn e
                   /\ is_exception e = false)
  /\ fst (fst (WeatherClient.chat_loop W0 7 3 eof (weather_connected W0))) = OutOfFuel
  /\ fst (fst (MultiClient.chat_loop W0 7 3 eof (weather_connected W0))) = OutOfFuel.
Proof.
  intros W0 con eof. split; [|split].
  - apply (proj1 (chat_loop_without_quit_never_returns W0 7 3 con (weather_connected W0)
                    ltac:(repeat constructor)
                    ltac:(repeat constructor; vm_compute; discriminate))).
  - apply (proj1 (proj2 (chat_loop_without_quit_never_returns W0 7 3 con
                           (multi_connected W0)
                           ltac:(repeat constructor)
                           ltac:(repeat constructor; vm_compute; discriminate)))).
  - apply (proj2 (proj2 (chat_loop_without_quit_never_returns W0 7 3 eof
                           (weather_connected W0)
                           ltac:(constructor) ltac:(constructor))) eq_refl).
Defined.

Lemma chat_loop_reports_non_string_answer_witness :
  let W0 := scenario_world null_content_scenario in
  let con := mkConsole ["What is the weather?"; "quit"] [] in
  let reported :=
    {| stdin := ["quit"];
       stdout := [(nl ++ "Query: ")%string;
                  (nl ++ "Error: can only concatenate str (not " ++ dquote
                   ++ "NoneType" ++ dquote ++ ") to str" ++ nl)%string] |} in
  WeatherClient.chat_rounds W0 2 3 con (weather_connected W0)
  = WeatherClient.chat_rounds W0 1 3 reported
      (snd (WeatherClient.process_query W0 3 "What is the weather?" "gpt-oss:20b"
              (weather_connected W0)))
  /\ MultiClient.chat_rounds W0 2 3 con (multi_connected W0)
     = MultiClient.chat_rounds W0 1 3 reported
         (snd (MultiClient.process_query W0 3 "What is the weather?" "gpt-oss:20b"
                 (multi_connected W0))).
Proof.
  intros W0 con reported. split.
  - apply (proj1 (chat_loop_reports_non_string_answer W0 1 3 con (weather_connected W0)
                    (snd (WeatherClient.process_query W0 3 "What is the weather?"
                            "gpt-oss:20b" (weather_connected W0)))
                    "What is the weather?" ["quit"] VNone
                    eq_refl eq_refl ltac:(vm_compute; discriminate)
                    ltac:(vm_compute; discriminate))).
    vm_compute. reflexivity.
  - apply (proj2 (chat_loop_reports_non_string_answer W0 1 3 con (multi_connected W0)
                    (snd (MultiClient.process_query W0 3 "What is the weather?"
                            "gpt-oss:20b" (multi_connected W0)))
                    "What is the weather?" ["quit"] VNone
                    eq_refl eq_refl ltac:(vm_compute; discriminate)
                    ltac:(vm_compute; discriminate))).
    vm_compute. reflexivity.
Defined.

(** ** The exit stack keeps track of what was entered *)

Section ExitStack.

Context (W : World).

Lemma opened_from_app (evs1 evs2 before : list event) :
  opened_from W before (evs1 ++ evs2)
  = opened_from W before evs1 ++ opened_from W (before ++ evs1) evs2.
Proof.
  revert before. induction evs1 as [|e evs1 IH]; intros before; simpl.
  - by rewrite app_nil_r.
  - rewrite IH, <- !app_assoc. done.
Qed.

Lemma closed_app (evs1 evs2 : list event) :
  closed (evs1 ++ evs2) = closed evs1 ++ closed evs2.
Proof. apply omap_app. Qed.

Lemma quiet_events_open_nothing (evs before : list event) :
  Forall quiet_event evs -> opened_from W before evs = [] /\ closed evs = [].
Proof.
  revert before. induction evs as [|e evs IH]; intros before Hq; [done|].
  inversion Hq as [|? ? He Hevs]; subst.
  destruct (IH (before ++ [e]) Hevs) as [Ho Hc]. split.
  - cbn [opened_from]. rewrite Ho. by destruct e.
  - unfold closed in *. destruct e; try done; by cbn [omap].
Qed.

Lemma exit_events_open_nothing (callbacks : list exit_callback) (excs : list (option exn))
    (before : list event) :
  opened_from W before (zip_with EvExit callbacks excs) = [].
Proof.
  revert excs before. induction callbacks as [|cb rest IH]; intros [|x excs] before; try done.
  simpl. apply IH.
Qed.

Lemma closed_exit_events (callbacks : list exit_callback) (excs : list (option exn)) :
  length excs = length callbacks ->
  closed (zip_with EvExit callbacks excs) = callbacks.
Proof.
  revert excs. induction callbacks as [|cb rest IH]; intros [|x excs] Hlen; try done.
  unfold closed in *. simpl. rewrite IH; [done|]. simpl in Hlen. lia.
Qed.

(** A computation that leaves [self] alone and sends quiet requests only
    keeps the exit stack as it is. *)
Lemma only_sends_tracks {A} (P : event -> Prop) (m : M A) :
  (forall e, P e -> quiet_event e) -> only_sends P m -> tracks_exit_stack W m.
Proof.
  intros HP Hm st callbacks Hstack. destruct (Hm st) as (evs & Hst & Hevs).
  exists evs. rewrite Hst. cbn [self trace].
  destruct (quiet_events_open_nothing evs (trace st)) as [-> ->].
  - eapply Forall_impl; eauto.
  - by repeat split.
Qed.

Lemma tracks_ret {A} (a : A) : tracks_exit_stack W (ret a).
Proof. intros st cbs H. exists []. simpl. by rewrite app_nil_r. Qed.

Lemma tracks_raise {A} (e : exn) : tracks_exit_stack W (@raise A e).
Proof. intros st cbs H. exists []. simpl. by rewrite app_nil_r. Qed.

Lemma tracks_no_attribute {A} (ty a : string) : tracks_exit_stack W (@no_attribute A ty a).
Proof. apply tracks_raise. Qed.

Lemma tracks_getattr (a : string) : tracks_exit_stack W (getattr a).
Proof.
  intros st cbs H. exists []. unfold getattr. rewrite app_nil_r.
  by destruct (self st !! a).
Qed.

Lemma tracks_setattr (a : string) (o : pyobj) :
  a <> "exit_stack" -> tracks_exit_stack W (setattr a o).
Proof.
  intros Hne st cbs H. exists []. simpl. rewrite app_nil_r.
  by rewrite lookup_insert_ne.
Qed.

Lemma tracks_request {A} (e : event) (answer : list event -> result A) :
  quiet_event e -> tracks_exit_stack W (request e answer).
Proof.
  intros He st cbs H. exists [e]. unfold request.
  destruct (answer (trace st)); cbn [snd self trace]; by destruct e.
Qed.

Lemma tracks_bind {A B} (m : M A) (k : A -> M B) :
  tracks_exit_stack W m -> (forall a, tracks_exit_stack W (k a)) ->
  tracks_exit_stack W (bind m k).
Proof.
  intros Hm Hk st cbs Hstack. unfold bind.
  destruct (Hm st cbs Hstack) as (evs & Htr & Hst & Hcl).
  destruct (m st) as [[a|e|] st1]; cbn [snd] in *; try (by exists evs).
  destruct (Hk a st1 _ Hst) as (evs' & Htr' & Hst' & Hcl').
  exists (evs ++ evs'). rewrite Htr', Hst', opened_from_app, closed_app, Hcl, Hcl', <- Htr.
  rewrite rev_app_distr, Htr, <- !app_assoc. done.
Qed.

Lemma tracks_for_each {A B} (l : list A) (body : B -> A -> M B) :
  (forall acc x, tracks_exit_stack W (body acc x)) ->
  forall acc, tracks_exit_stack W (for_each l acc body).
Proof.
  intros Hbody. induction l as [|x l IH]; intros acc; simpl.
  - apply tracks_ret.
  - apply tracks_bind; auto.
Qed.

(** Entering a context: the callback is pushed exactly when the world let
    the context be entered. *)
Lemma tracks_enter_async_context (cm_expr : M context_manager) :
  tracks_exit_stack W cm_expr ->
  tracks_exit_stack W (enter_async_context W cm_expr).
Proof.
  intros Hcm st cbs Hstack.
  destruct (Hcm st cbs Hstack) as (evs & Htr & Hst & Hcl).
  unfold enter_async_context, bind, getattr. rewrite Hstack.
  destruct (cm_expr st) as [[cm|e|] st1]; cbn [snd] in *; try (by exists evs).
  destruct cm as [server_params|s]; unfold aenter, bind, request, ret.
  - exists (evs ++ [EvSpawn server_params]).
    rewrite opened_from_app, closed_app, Hcl, <- Htr. cbn [opened_from closed omap].
    destruct (w_spawn W (trace st1) server_params) as [p|e]; cbn [self trace].
    + rewrite Hst. cbn [setattr snd fst self trace].
      rewrite lookup_insert_eq, Htr, <- app_assoc, app_nil_r, rev_app_distr. done.
    + cbn [snd self trace]. rewrite Htr, <- app_assoc, !app_nil_r. done.
  - exists (evs ++ [EvSessionEnter s]).
    rewrite opened_from_app, closed_app, Hcl, <- Htr. cbn [opened_from closed omap].
    destruct (w_session_enter W (trace st1) s) as [[]|e]; cbn [self trace].
    + rewrite Hst. cbn [setattr snd fst self trace].
      rewrite lookup_insert_eq, Htr, <- app_assoc, app_nil_r, rev_app_distr. done.
    + cbn [snd self trace]. rewrite Htr, <- app_assoc, !app_nil_r. done.
Qed.

End ExitStack.

Ltac tracks_step W :=
  first
    [ apply tracks_ret
    | apply tracks_raise
    | apply tracks_no_attribute
    | apply tracks_getattr
    | apply tracks_request; exact I
    | apply tracks_setattr; discriminate
    | apply tracks_enter_async_context
    | apply tracks_for_each; intros
    | apply tracks_bind; [|intros]
    | match goal with
      | |- tracks_exit_stack _ (match ?x with _ => _ end) => destruct x
      | |- tracks_exit_stack _ (if ?b then _ else _) => destruct b
      end ].

Section Connecting.

Context (W : World).

Lemma tracks_session_ops (sess : pyobj) :
  tracks_exit_stack W (session_initialize W sess)
  /\ tracks_exit_stack W (session_list_tools W sess).
Proof.
  unfold session_initialize, session_list_tools. split; repeat tracks_step W.
Qed.

Lemma tracks_new_client_session : tracks_exit_stack W new_client_session.
Proof. unfold new_client_session. repeat tracks_step W. Qed.

Lemma tracks_iter_sessions : tracks_exit_stack W MultiClient.iter_sessions.
Proof. unfold MultiClient.iter_sessions. repeat tracks_step W. Qed.

Lemma weather_connect_tracks (path : string) :
  tracks_exit_stack W (WeatherClient.connect_to_server W path).
Proof.
  unfold WeatherClient.connect_to_server. cbv zeta.
  repeat first
    [ apply tracks_new_client_session
    | apply tracks_session_ops
    | tracks_step W ].
Qed.

Lemma multi_connect_tracks (path : string) :
  tracks_exit_stack W (MultiClient.connect_to_server W path).
Proof.
  unfold MultiClient.connect_to_server. cbv zeta.
  repeat first
    [ apply tracks_new_client_session
    | apply tracks_iter_sessions
    | apply tracks_session_ops
    | tracks_step W ].
Qed.

Lemma multi_connect_all_tracks (paths : list string) :
  tracks_exit_stack W (MultiClient.connect_to_servers W paths).
Proof.
  unfold MultiClient.connect_to_servers.
  repeat first
    [ apply multi_connect_tracks
    | apply tracks_iter_sessions
    | apply tracks_session_ops
    | tracks_step W ].
Qed.

(** X5: however [connect_to_server] (of either client) or
    [connect_to_servers] ends, normally or with an exception of any
    collaborator at any step, the exit stack then holds the callbacks of
    exactly the contexts the call entered, newest first, on top of the ones
    it held before, and the call has run no exit callback.  So a provider
    process that was spawned is never lost to [cleanup], also when the
    session, the handshake or the first [list_tools] failed. *)
Theorem connecting_keeps_exit_stack_in_step
    (path : string) (paths : list string) (st : state) (callbacks : list exit_callback) :
  self st !! "exit_stack" = Some (PExitStack callbacks) ->
  (exists evs,
     trace (snd (WeatherClient.connect_to_server W path st)) = trace st ++ evs
     /\ self (snd (WeatherClient.connect_to_server W path st)) !! "exit_stack"
        = Some (PExitStack (rev (opened_from W (trace st) evs) ++ callbacks))
     /\ closed evs = [])
  /\ (exists evs,
        trace (snd (MultiClient.connect_to_server W path st)) = trace st ++ evs
        /\ self (snd (MultiClient.connect_to_server W path st)) !! "exit_stack"
           = Some (PExitStack (rev (opened_from W (trace st) evs) ++ callbacks))
        /\ closed evs = [])
  /\ (exists evs,
        trace (snd (MultiClient.connect_to_servers W paths st)) = trace st ++ evs
        /\ self (snd (MultiClient.connect_to_servers W paths st)) !! "exit_stack"
           = Some (PExitStack (rev (opened_from W (trace st) evs) ++ callbacks))
        /\ closed evs = []).
Proof.
  intros Hstack. repeat split.
  - by apply weather_connect_tracks.
  - by apply multi_connect_tracks.
  - by apply multi_connect_all_tracks.
Qed.

End Connecting.

(** ** Running the script *)

Section Script.

Context (W : World).

Lemma weather_chat_rounds_only_send (rounds fuel : nat) :
  forall (con : console) (st : state),
  exists evs,
    snd (WeatherClient.chat_rounds W fuel rounds con st)
    = {| self := self st; trace := trace st ++ evs |}
    /\ Forall query_event evs.
Proof.
  induction fuel as [|fuel IH]; intros con st.
  - exists []. destruct st. simpl. by rewrite app_nil_r.
  - cbn [WeatherClient.chat_rounds].
    destruct (input _ con) as [[line|x] con1].
    2:{ destruct (is_exception x); [apply IH|].
        exists []. destruct st. simpl. by rewrite app_nil_r. }
    destruct (String.eqb (lower (strip line)) "quit").
    { exists []. destruct st. simpl. by rewrite app_nil_r. }
    destruct (weather_process_query_only_sends W rounds (strip line) "gpt-oss:20b" st)
      as (evs & Hst & Hevs).
    assert (Hnext : forall c,
               exists evs0,
                 snd (WeatherClient.chat_rounds W fuel rounds c
                        {| self := self st; trace := trace st ++ evs |})
                 = {| self := self st; trace := trace st ++ evs0 |}
                 /\ Forall query_event evs0).
    { intros c. destruct (IH c {| self := self st; trace := trace st ++ evs |})
        as (evs' & Hst' & Hevs').
      exists (evs ++ evs'). rewrite Hst'. cbn [self trace]. rewrite <- app_assoc.
      split; [done|by apply Forall_app]. }
    destruct (WeatherClient.process_query W rounds (strip line) "gpt-oss:20b" st)
      as [[response|x|] st1]; cbn [snd] in Hst; subst st1.
    + destruct (str_concat nl response) as [text|x]; [apply Hnext|].
      destruct (is_exception x); [apply Hnext|by exists evs].
    + destruct (is_exception x); [apply Hnext|by exists evs].
    + by exists evs.
Qed.

Lemma multi_chat_rounds_only_send (rounds fuel : nat) :
  forall (con : console) (st : state),
  exists evs,
    snd (MultiClient.chat_rounds W fuel rounds con st)
    = {| self := self st; trace := trace st ++ evs |}
    /\ Forall query_event evs.
Proof.
  induction fuel as [|fuel IH]; intros con st.
  - exists []. destruct st. simpl. by rewrite app_nil_r.
  - cbn [MultiClient.chat_rounds].
    destruct (input _ con) as [[line|x] con1].
    2:{ destruct (is_exception x); [apply IH|].
        exists []. destruct st. simpl. by rewrite app_nil_r. }
    destruct (String.eqb (lower (strip line)) "quit").
    { exists []. destruct st. simpl. by rewrite app_nil_r. }
    destruct (multi_process_query_only_sends W rounds (strip line) "gpt-oss:20b" st)
      as (evs & Hst & Hevs).
    assert (Hnext : forall c,
               exists evs0,
                 snd (MultiClient.chat_rounds W fuel rounds c
                        {| self := self st; trace := trace st ++ evs |})
                 = {| self := self st; trace := trace st ++ evs0 |}
                 /\ Forall query_event evs0).
    { intros c. destruct (IH c {| self := self st; trace := trace st ++ evs |})
        as (evs' & Hst' & Hevs').
      exists (evs ++ evs'). rewrite Hst'. cbn [self trace]. rewrite <- app_assoc.
      split; [done|by apply Forall_app]. }
    destruct (MultiClient.process_query W rounds (strip line) "gpt-oss:20b" st)
      as [[response|x|] st1]; cbn [snd] in Hst; subst st1.
    + destruct (str_concat nl response) as [text|x]; [apply Hnext|].
      destruct (is_exception x); [apply Hnext|by exists evs].
    + destruct (is_exception x); [apply Hnext|by exists evs].
    + by exists evs.
Qed.

Lemma query_event_quiet (e : event) : query_event e -> quiet_event e.
Proof. by destruct e. Qed.

(** What [finally] leaves behind when the body did end: every callback on
    the stack has been run, top first, and the stack is empty. *)
Lemma finally_closes (body : outcome unit) (st : state) (callbacks : list exit_callback) :
  self st !! "exit_stack" = Some (PExitStack callbacks) ->
  fst (finally body (exit_stack_aclose W) st) <> NotTerminated ->
  exists excs,
    length excs = length callbacks
    /\ trace (snd (finally body (exit_stack_aclose W) st))
       = trace st ++ zip_with EvExit callbacks excs
    /\ self (snd (finally body (exit_stack_aclose W) st)) !! "exit_stack"
       = Some (PExitStack []).
Proof.
  intros Hstack Hended.
  destruct (exit_stack_aclose_effect W st callbacks Hstack) as (excs & Hlen & Htr & Hself).
  exists excs. unfold finally in *.
  destruct body as [[]|e|]; [| |done];
    destruct (exit_stack_aclose W st) as [[[]|e'|] st1]; cbn [fst snd] in *;
    rewrite ?Htr, ?Hself, ?lookup_insert_eq; done.
Qed.

End Script.

Section ScriptEnds.

Context (W : World).

Lemma closes_what_was_opened (body : outcome unit) (st1 : state) (evs1 evs2 : list event) :
  trace st1 = evs1 ->
  self st1 !! "exit_stack" = Some (PExitStack (rev (opened_from W [] evs1))) ->
  closed evs1 = [] ->
  Forall query_event evs2 ->
  let st2 := {| self := self st1; trace := trace st1 ++ evs2 |} in
  fst (finally body (exit_stack_aclose W) st2) <> NotTerminated ->
  closed (trace (snd (finally body (exit_stack_aclose W) st2)))
  = rev (opened_from W [] (trace (snd (finally body (exit_stack_aclose W) st2))))
  /\ self (snd (finally body (exit_stack_aclose W) st2)) !! "exit_stack"
     = Some (PExitStack []).
Proof.
  intros Htr Hstack Hclosed Hquery st2 Hended.
  destruct (finally_closes W body st2 (rev (opened_from W [] evs1)) Hstack Hended)
    as (excs & Hlen & Hfinal & Hempty).
  split; [|done]. rewrite Hfinal. subst st2. cbn [trace]. rewrite Htr.
  destruct (quiet_events_open_nothing W evs2 evs1) as [Ho Hc].
  { eapply Forall_impl; [done|apply query_event_quiet]. }
  rewrite !closed_app, !opened_from_app, Hclosed, Hc. cbn [app].
  rewrite Ho, exit_events_open_nothing.
  rewrite closed_exit_events by done. by rewrite !app_nil_r.
Qed.

(** X6: whenever [main] of either client ends, by returning, by
    [sys.exit] or with an exception, every context the run entered has been
    exited exactly once, in the reverse of the order of entering: the exit
    callbacks run are those of the processes spawned and the sessions
    entered, newest first.  This covers a failure while connecting as well
    as the end of the chat loop. *)
Theorem main_closes_what_it_opened
    (argv : list string) (fuel rounds : nat) (con : console) :
  (fst (fst (WeatherClient.main W argv fuel rounds con)) <> NotTerminated ->
   closed (trace (snd (WeatherClient.main W argv fuel rounds con)))
   = rev (opened_from W [] (trace (snd (WeatherClient.main W argv fuel rounds con)))))
  /\ (fst (fst (MultiClient.main W argv fuel rounds con)) <> NotTerminated ->
      closed (trace (snd (MultiClient.main W argv fuel rounds con)))
      = rev (opened_from W [] (trace (snd (MultiClient.main W argv fuel rounds con))))).
Proof.
  split.
  - unfold WeatherClient.main. destruct (length argv <? 2)%nat; [done|]. cbv zeta.
    set (st0 := snd (WeatherClient.__init__ fresh_process)).
    destruct (weather_connect_tracks W (nth 1 argv "") st0 [] eq_refl)
      as (evs1 & Htr1 & Hstack1 & Hcl1).
    rewrite app_nil_r in Hstack1. change (trace st0) with (@nil event) in *.
    cbn [app] in Htr1.
    destruct (WeatherClient.connect_to_server W (nth 1 argv "") st0) as [[[]|e|] st1];
      cbn [snd] in *.
    + unfold WeatherClient.chat_loop. cbv zeta.
      set (con1 := print _ (print _ con)).
      destruct (weather_chat_rounds_only_send W rounds fuel con1 st1) as (evs2 & Hst2 & Hq2).
      destruct (WeatherClient.chat_rounds W fuel rounds con1 st1) as [[body con2] st2].
      cbn [snd] in Hst2. subst st2. unfold WeatherClient.cleanup.
      pose proof (closes_what_was_opened body st1 evs1 evs2 Htr1 Hstack1 Hcl1 Hq2) as Hc.
      cbv zeta in Hc.
      destruct (finally body (exit_stack_aclose W) _) as [ended st3]. cbn [fst snd] in *.
      intros Hended. by apply Hc.
    + unfold WeatherClient.cleanup.
      pose proof (closes_what_was_opened (Exn e) st1 evs1 [] Htr1 Hstack1 Hcl1
                    (Forall_nil_2 _)) as Hc.
      cbv zeta in Hc. rewrite app_nil_r in Hc.
      replace {| self := self st1; trace := trace st1 |} with st1 in Hc by (by destruct st1).
      destruct (finally (Exn e) (exit_stack_aclose W) st1) as [ended st3].
      cbn [fst snd] in *. intros Hended. by apply Hc.
    + done.
  - unfold MultiClient.main. destruct (length argv <? 2)%nat; [done|]. cbv zeta.
    set (st0 := snd (MultiClient.__init__ fresh_process)).
    destruct (multi_connect_all_tracks W (drop 1 argv) st0 [] eq_refl)
      as (evs1 & Htr1 & Hstack1 & Hcl1).
    rewrite app_nil_r in Hstack1. change (trace st0) with (@nil event) in *.
    cbn [app] in Htr1.
    destruct (MultiClient.connect_to_servers W (drop 1 argv) st0) as [[[]|e|] st1];
      cbn [snd] in *.
    + unfold MultiClient.chat_loop. cbv zeta.
      set (con1 := print _ (print _ con)).
      destruct (multi_chat_rounds_only_send W rounds fuel con1 st1) as (evs2 & Hst2 & Hq2).
      destruct (MultiClient.chat_rounds W fuel rounds con1 st1) as [[body con2] st2].
      cbn [snd] in Hst2. subst st2. unfold MultiClient.cleanup.
      pose proof (closes_what_was_opened body st1 evs1 evs2 Htr1 Hstack1 Hcl1 Hq2) as Hc.
      cbv zeta in Hc.
      destruct (finally body (exit_stack_aclose W) _) as [ended st3]. cbn [fst snd] in *.
      intros Hended. by apply Hc.
    + unfold MultiClient.cleanup.
      pose proof (closes_what_was_opened (Exn e) st1 evs1 [] Htr1 Hstack1 Hcl1
                    (Forall_nil_2 _)) as Hc.
      cbv zeta in Hc. rewrite app_nil_r in Hc.
      replace {| self := self st1; trace := trace st1 |} with st1 in Hc by (by destruct st1).
      destruct (finally (Exn e) (exit_stack_aclose W) st1) as [ended st3].
      cbn [fst snd] in *. intros Hended. by apply Hc.
    + done.
Qed.

End ScriptEnds.

(** ** What a successful connection leaves behind *)

Section Connected.

Context (W : World).

Lemma enter_stdio_client_run (server_params : StdioServerParameters) (st : state)
    (callbacks : list exit_callback) :
  self st !! "exit_stack" = Some (PExitStack callbacks) ->
  enter_async_context W (ret (stdio_client server_params)) st
  = match w_spawn W (trace st) server_params with
    | Ok p =>
        (Ret (PTuple [PReadStream p; PWriteStream p]),
         {| self := <["exit_stack" := PExitStack (ExitStdio p :: callbacks)]> (self st);
            trace := trace st ++ [EvSpawn server_params] |})
    | Raise e => (Exn e, {| self := self st; trace := trace st ++ [EvSpawn server_params] |})
    end.
Proof.
  intros Hstack. unfold enter_async_context, aenter, bind, getattr, request, ret.
  rewrite Hstack. destruct (w_spawn W (trace st) server_params); [|done].
  cbn [self trace]. by rewrite Hstack.
Qed.

Lemma enter_client_session_run (st : state) (callbacks : list exit_callback) (r w : proc) :
  self st !! "exit_stack" = Some (PExitStack callbacks) ->
  self st !! "stdio" = Some (PReadStream r) ->
  self st !! "write" = Some (PWriteStream w) ->
  enter_async_context W new_client_session st
  = let s := mkClientSession r w in
    match w_session_enter W (trace st) s with
    | Ok _ =>
        (Ret (PSession s),
         {| self := <["exit_stack" := PExitStack (ExitSession s :: callbacks)]> (self st);
            trace := trace st ++ [EvSessionEnter s] |})
    | Raise e => (Exn e, {| self := self st; trace := trace st ++ [EvSessionEnter s] |})
    end.
Proof.
  intros Hstack Hstdio Hwrite.
  unfold enter_async_context, new_client_session, aenter, bind, getattr, request, ret.
  rewrite Hstack, Hstdio, Hwrite. cbv zeta.
  destruct (w_session_enter W (trace st) (mkClientSession r w)); [|done].
  cbn [self trace]. by rewrite Hstack.
Qed.

Lemma supported_params (path : string) (st : state) :
  WeatherClient.connect_to_server W path st
  = (if supported path then
       let* stdio_transport
         := enter_async_context W (ret (stdio_client (server_params_for path))) in
       match stdio_transport with
       | PTuple [stdio; write] =>
           run setattr "stdio" stdio then
           run setattr "write" write then
           let* session := enter_async_context W new_client_session in
           run setattr "session" session then
           let* session := getattr "session" in
           run session_initialize W session then
           let* session := getattr "session" in
           let* tools := session_list_tools W session in
           ret tt
       | _ => raise (TypeError "cannot unpack non-iterable object")
       end
     else raise (ValueError "Server script must be a .py or .js file")) st.
Proof.
  unfold WeatherClient.connect_to_server, supported, server_params_for.
  by destruct (endswith path ".py"), (endswith path ".js").
Qed.

End Connected.

Section ConnectedWeather.

Context (W : World).

(** [connect_to_server] of the weather client on a supported locator, step
    by step: which request is sent after which answer, and what the client
    holds at each point. *)
Lemma weather_connect_run (path : string) (st : state) (callbacks : list exit_callback) :
  supported path = true ->
  self st !! "exit_stack" = Some (PExitStack callbacks) ->
  WeatherClient.connect_to_server W path st
  = let tr1 := trace st ++ [EvSpawn (server_params_for path)] in
    match w_spawn W (trace st) (server_params_for path) with
    | Raise e => (Exn e, {| self := self st; trace := tr1 |})
    | Ok p =>
        let s := session_of p in
        let self1 :=
          <["write" := PWriteStream p]>
            (<["stdio" := PReadStream p]>
               (<["exit_stack" := PExitStack (ExitStdio p :: callbacks)]> (self st))) in
        let tr2 := tr1 ++ [EvSessionEnter s] in
        match w_session_enter W tr1 s with
        | Raise e => (Exn e, {| self := self1; trace := tr2 |})
        | Ok _ =>
            let self2 :=
              <["session" := PSession s]>
                (<["exit_stack" := PExitStack (ExitSession s :: ExitStdio p :: callbacks)]>
                   self1) in
            let tr3 := tr2 ++ [EvInitialize s] in
            match w_initialize W tr2 s with
            | Raise e => (Exn e, {| self := self2; trace := tr3 |})
            | Ok _ =>
                (match w_list_tools W tr3 s with
                 | Ok _ => Ret tt
                 | Raise e => Exn e
                 end,
                 {| self := self2; trace := tr3 ++ [EvListTools s] |})
            end
        end
    end.
Proof.
  intros Hsupported Hstack. rewrite supported_params, Hsupported. cbv zeta.
  unfold session_of.
  unfold bind at 1. rewrite (enter_stdio_client_run W _ st callbacks Hstack).
  destruct (w_spawn W (trace st) (server_params_for path)) as [p|e]; [|done].
  cbv iota beta. unfold bind at 1. unfold bind at 1. unfold bind at 1.
  cbn [setattr self trace].
  erewrite (enter_client_session_run W _ (ExitStdio p :: callbacks) p p);
    [|by simplify_map_eq..].
  cbv zeta. cbn [self trace].
  destruct (w_session_enter W _ (mkClientSession p p)) as [[]|e]; [|done].
  unfold bind at 1. cbn [setattr self trace].
  unfold bind at 1. unfold getattr at 1. cbn [self trace]. rewrite lookup_insert_eq.
  unfold bind at 1. cbn [session_initialize]. unfold request at 1. cbn [self trace].
  destruct (w_initialize W _ (mkClientSession p p)) as [[]|e]; [|done].
  unfold bind at 1. unfold getattr at 1. cbn [self trace]. rewrite lookup_insert_eq.
  unfold bind at 1. cbn [session_list_tools]. unfold request at 1. cbn [self trace].
  by destruct (w_list_tools W _ (mkClientSession p p)).
Qed.

Lemma weather_connect_returns
    (path : string) (st : state) (callbacks : list exit_callback) :
  self st !! "exit_stack" = Some (PExitStack callbacks) ->
  fst (WeatherClient.connect_to_server W path st) = Ret tt ->
  exists p : proc,
    supported path = true
    /\ w_spawn W (trace st) (server_params_for path) = Ok p
    /\ trace (snd (WeatherClient.connect_to_server W path st))
       = trace st ++ [EvSpawn (server_params_for path); EvSessionEnter (session_of p);
                      EvInitialize (session_of p); EvListTools (session_of p)]
    /\ self (snd (WeatherClient.connect_to_server W path st)) !! "session"
       = Some (PSession (session_of p))
    /\ self (snd (WeatherClient.connect_to_server W path st)) !! "exit_stack"
       = Some (PExitStack (ExitSession (session_of p) :: ExitStdio p :: callbacks))
    /\ forall a : string,
         a <> "session" -> a <> "stdio" -> a <> "write" -> a <> "exit_stack" ->
         self (snd (WeatherClient.connect_to_server W path st)) !! a = self st !! a.
Proof.
  intros Hstack Hret.
  destruct (supported path) eqn:Hsupported.
  2:{ rewrite supported_params, Hsupported in Hret. done. }
  rewrite (weather_connect_run path st callbacks Hsupported Hstack) in *. cbv zeta in *.
  destruct (w_spawn W (trace st) (server_params_for path)) as [p|e]; [|done].
  destruct (w_session_enter W _ (session_of p)) as [[]|e]; [|done].
  destruct (w_initialize W _ (session_of p)) as [[]|e]; [|done].
  exists p. cbn [fst snd self trace]. rewrite <- !app_assoc.
  repeat split; try done; try (by simplify_map_eq).
  intros a ? ? ? ?. by rewrite !lookup_insert_ne.
Qed.

(** X7: when [connect_to_server] of the weather client returns, the
    locator ended in [.py] or [.js]; exactly four requests were sent, in this
    order: spawn a process with [python] (for [.py]) or [node] (for [.js])
    and the locator as its only argument, enter a session over that
    process, initialize it, list its tools; [self.session] is that session;
    and the exit stack has gained the session's callback on top of the
    process's, so that [cleanup] closes the session before the process.
    Attributes other than [session], [stdio], [write] and [exit_stack] are
    as before. *)
Theorem weather_connect_success
    (path : string) (st : state) (callbacks : list exit_callback) :
  self st !! "exit_stack" = Some (PExitStack callbacks) ->
  fst (WeatherClient.connect_to_server W path st) = Ret tt ->
  exists p : proc,
    supported path = true
    /\ w_spawn W (trace st) (server_params_for path) = Ok p
    /\ trace (snd (WeatherClient.connect_to_server W path st))
       = trace st ++ [EvSpawn (server_params_for path); EvSessionEnter (session_of p);
                      EvInitialize (session_of p); EvListTools (session_of p)]
    /\ self (snd (WeatherClient.connect_to_server W path st)) !! "session"
       = Some (PSession (session_of p))
    /\ self (snd (WeatherClient.connect_to_server W path st)) !! "exit_stack"
       = Some (PExitStack (ExitSession (session_of p) :: ExitStdio p :: callbacks))
    /\ forall a : string,
         a <> "session" -> a <> "stdio" -> a <> "write" -> a <> "exit_stack" ->
         self (snd (WeatherClient.connect_to_server W path st)) !! a = self st !! a.
Proof. apply weather_connect_returns. Qed.

(** X8: connecting the weather client a second time replaces
    [self.session] by the new session and closes nothing: the first session
    and its process stay open, below the new ones on the exit stack, until
    [cleanup]; queries go to the second provider from then on. *)
Theorem weather_reconnect_replaces_session
    (path1 path2 : string) (st : state) (callbacks : list exit_callback) :
  self st !! "exit_stack" = Some (PExitStack callbacks) ->
  fst (WeatherClient.connect_to_server W path1 st) = Ret tt ->
  fst (WeatherClient.connect_to_server W path2
         (snd (WeatherClient.connect_to_server W path1 st))) = Ret tt ->
  exists (p1 p2 : proc) (evs : list event),
    let st2 := snd (WeatherClient.connect_to_server W path2
                      (snd (WeatherClient.connect_to_server W path1 st))) in
    w_spawn W (trace st) (server_params_for path1) = Ok p1
    /\ trace st2 = trace st ++ evs
    /\ closed evs = []
    /\ self st2 !! "session" = Some (PSession (session_of p2))
    /\ self st2 !! "exit_stack"
       = Some (PExitStack (ExitSession (session_of p2) :: ExitStdio p2
                           :: ExitSession (session_of p1) :: ExitStdio p1 :: callbacks))
    /\ forall fuel query model,
         exists rest,
           trace (snd (WeatherClient.process_query W fuel query model st2))
           = trace st2 ++ EvListTools (session_of p2) :: rest.
Proof.
  intros Hstack Hret1 Hret2.
  destruct (weather_connect_returns path1 st callbacks Hstack Hret1)
    as (p1 & _ & Hspawn1 & Htr1 & _ & Hstack1 & _).
  destruct (weather_connect_returns path2 _ _ Hstack1 Hret2)
    as (p2 & _ & Hspawn2 & Htr2 & Hsession2 & Hstack2 & _).
  exists p1, p2.
  exists ([EvSpawn (server_params_for path1); EvSessionEnter (session_of p1);
           EvInitialize (session_of p1); EvListTools (session_of p1)]
          ++ [EvSpawn (server_params_for path2); EvSessionEnter (session_of p2);
              EvInitialize (session_of p2); EvListTools (session_of p2)]).
  cbv zeta. split; [done|]. split; [by rewrite Htr2, Htr1, <- app_assoc|].
  split; [done|]. split; [done|]. split; [done|].
  intros fuel query model.
  {
    rewrite (weather_process_query_unfold W _ _ _ _ (session_of p2)) by done.
    destruct (w_list_tools W _ (session_of p2)) as [mcp_tools|e].
    + destruct (weather_turn_loop_only_sends W fuel model
                  (WeatherClient.convert_tools_format mcp_tools) [user_message query]
                  {| self := self (snd (WeatherClient.connect_to_server W path2
                                          (snd (WeatherClient.connect_to_server W path1 st))));
                     trace := trace (snd (WeatherClient.connect_to_server W path2
                                            (snd (WeatherClient.connect_to_server W path1 st))))
                              ++ [EvListTools (session_of p2)] |})
        as (evs & -> & _).
      exists evs. cbn [trace]. by rewrite <- app_assoc.
    + exists []. done. }
Qed.

End ConnectedWeather.

Section ConnectedMulti.

Context (W : World).

Lemma multi_supported_params (path : string) (st : state) :
  MultiClient.connect_to_server W path st
  = (if supported path then
       let* stdio_transport
         := enter_async_context W (ret (stdio_client (server_params_for path))) in
       match stdio_transport with
       | PTuple [stdio; write] =>
           run setattr "stdio" stdio then
           run setattr "write" write then
           let* loc_session := enter_async_context W new_client_session in
           let* sessions := getattr "sessions" in
           match sessions with
           | PList items =>
               run setattr "sessions" (PList (items ++ [loc_session])) then
               let* sessions := getattr "sessions" in
               match sessions with
               | PList items' =>
                   match last items' with
                   | Some newest =>
                       run session_initialize W newest then
                       let* items'' := MultiClient.iter_sessions in
                       let* _available_tools :=
                         for_each items'' []
                           (fun _available_tools sess =>
                              let* tools := session_list_tools W sess in
                              ret (_available_tools ++ tools)) in
                       ret tt
                   | None => raise (IndexError "list index out of range")
                   end
               | o => raise (TypeError ("'" ++ type_name o ++ "' object is not subscriptable"))
               end
           | o => no_attribute (type_name o) "append"
           end
       | _ => raise (TypeError "cannot unpack non-iterable object")
       end
     else raise (ValueError "Server script must be a .py or .js file")) st.
Proof.
  unfold MultiClient.connect_to_server, supported, server_params_for.
  by destruct (endswith path ".py"), (endswith path ".js").
Qed.

(** The listing loop at the end of [connect_to_server]. *)
Lemma listing_loop_only_lists (items : list pyobj) :
  only_sends list_tools_event
    (let* _available_tools :=
       for_each items []
         (fun (_available_tools : list Tool) sess =>
            let* tools := session_list_tools W sess in
            ret (_available_tools ++ tools)) in
     ret tt).
Proof.
  apply only_sends_bind; [|intros; apply only_sends_ret].
  apply only_sends_for_each. intros acc sess.
  apply only_sends_bind; [apply session_list_tools_only_lists|intros; apply only_sends_ret].
Qed.

(** [connect_to_server] of the multi client on a supported locator, step by
    step, up to the listing loop that ends it. *)
Lemma multi_connect_run (path : string) (st : state) (callbacks : list exit_callback)
    (items : list pyobj) :
  supported path = true ->
  self st !! "exit_stack" = Some (PExitStack callbacks) ->
  self st !! "sessions" = Some (PList items) ->
  MultiClient.connect_to_server W path st
  = let tr1 := trace st ++ [EvSpawn (server_params_for path)] in
    match w_spawn W (trace st) (server_params_for path) with
    | Raise e => (Exn e, {| self := self st; trace := tr1 |})
    | Ok p =>
        let s := session_of p in
        let self1 :=
          <["write" := PWriteStream p]>
            (<["stdio" := PReadStream p]>
               (<["exit_stack" := PExitStack (ExitStdio p :: callbacks)]> (self st))) in
        let tr2 := tr1 ++ [EvSessionEnter s] in
        match w_session_enter W tr1 s with
        | Raise e => (Exn e, {| self := self1; trace := tr2 |})
        | Ok _ =>
            let self2 :=
              <["sessions" := PList (items ++ [PSession s])]>
                (<["exit_stack" := PExitStack (ExitSession s :: ExitStdio p :: callbacks)]>
                   self1) in
            let tr3 := tr2 ++ [EvInitialize s] in
            match w_initialize W tr2 s with
            | Raise e => (Exn e, {| self := self2; trace := tr3 |})
            | Ok _ =>
                (let* _available_tools :=
                   for_each (items ++ [PSession s]) []
                     (fun (_available_tools : list Tool) sess =>
                        let* tools := session_list_tools W sess in
                        ret (_available_tools ++ tools)) in
                 ret tt) {| self := self2; trace := tr3 |}
            end
        end
    end.
Proof.
  intros Hsupported Hstack Hsessions. rewrite multi_supported_params, Hsupported. cbv zeta.
  unfold session_of.
  unfold bind at 1. rewrite (enter_stdio_client_run W _ st callbacks Hstack).
  destruct (w_spawn W (trace st) (server_params_for path)) as [p|e]; [|done].
  cbv iota beta. unfold bind at 1. unfold bind at 1. unfold bind at 1.
  cbn [setattr self trace].
  erewrite (enter_client_session_run W _ (ExitStdio p :: callbacks) p p);
    [|by simplify_map_eq..].
  cbv zeta. cbn [self trace].
  destruct (w_session_enter W _ (mkClientSession p p)) as [[]|e]; [|done].
  unfold bind at 1. unfold getattr at 1. cbn [self trace].
  rewrite !lookup_insert_ne by done. rewrite Hsessions.
  unfold bind at 1. cbn [setattr self trace].
  unfold bind at 1. unfold getattr at 1. cbn [self trace]. rewrite lookup_insert_eq.
  rewrite last_snoc.
  unfold bind at 1. cbn [session_initialize]. unfold request at 1. cbn [self trace].
  destruct (w_initialize W _ (mkClientSession p p)) as [[]|e]; [|done].
  unfold bind at 1. unfold MultiClient.iter_sessions at 1.
  unfold bind at 1. unfold getattr at 1. cbn [self trace]. rewrite lookup_insert_eq.
  cbn [ret]. done.
Qed.

Lemma listing_loop_all (ss : list ClientSession) :
  forall (acc r : list Tool) (st st' : state),
    for_each (PSession <$> ss) acc
      (fun (_available_tools : list Tool) sess =>
         let* tools := session_list_tools W sess in
         ret (_available_tools ++ tools)) st
    = (Ret r, st') ->
    st' = {| self := self st; trace := trace st ++ (EvListTools <$> ss) |}.
Proof.
  induction ss as [|s ss IH]; intros acc r st st'.
  - cbn. intros [= _ <-]. destruct st. simpl. by rewrite app_nil_r.
  - cbn [fmap list_fmap for_each]. unfold bind at 1. unfold bind at 1.
    cbn [session_list_tools]. unfold request at 1.
    destruct (w_list_tools W (trace st) s) as [tools|e]; [|done].
    cbn [ret]. intros Hrest. apply IH in Hrest. rewrite Hrest.
    cbn [self trace fmap list_fmap]. by rewrite <- app_assoc.
Qed.

Lemma spawned_app (evs1 evs2 : list event) :
  spawned (evs1 ++ evs2) = spawned evs1 ++ spawned evs2.
Proof. apply omap_app. Qed.

Lemma list_tools_events_spawn_nothing (evs : list event) :
  Forall list_tools_event evs -> spawned evs = [].
Proof.
  induction 1 as [|e evs He _ IH]; [done|].
  unfold spawned in *. destruct e; try done; by cbn [omap].
Qed.

Lemma list_tools_event_quiet (e : event) : list_tools_event e -> quiet_event e.
Proof. by destruct e. Qed.

Lemma multi_connect_returns
    (path : string) (st : state) (callbacks : list exit_callback) (items : list pyobj) :
  self st !! "exit_stack" = Some (PExitStack callbacks) ->
  self st !! "sessions" = Some (PList items) ->
  fst (MultiClient.connect_to_server W path st) = Ret tt ->
  exists (p : proc) (listed : list event),
    supported path = true
    /\ w_spawn W (trace st) (server_params_for path) = Ok p
    /\ w_session_enter W (trace st ++ [EvSpawn (server_params_for path)]) (session_of p)
       = Ok tt
    /\ trace (snd (MultiClient.connect_to_server W path st))
       = trace st ++ [EvSpawn (server_params_for path); EvSessionEnter (session_of p);
                      EvInitialize (session_of p)] ++ listed
    /\ Forall list_tools_event listed
    /\ (forall ss, items = PSession <$> ss ->
                   listed = EvListTools <$> (ss ++ [session_of p]))
    /\ self (snd (MultiClient.connect_to_server W path st)) !! "sessions"
       = Some (PList (items ++ [PSession (session_of p)]))
    /\ self (snd (MultiClient.connect_to_server W path st)) !! "exit_stack"
       = Some (PExitStack (ExitSession (session_of p) :: ExitStdio p :: callbacks))
    /\ forall a : string,
         a <> "sessions" -> a <> "stdio" -> a <> "write" -> a <> "exit_stack" ->
         self (snd (MultiClient.connect_to_server W path st)) !! a = self st !! a.
Proof.
  intros Hstack Hsessions Hret.
  destruct (supported path) eqn:Hsupported.
  2:{ rewrite multi_supported_params, Hsupported in Hret. done. }
  rewrite (multi_connect_run path st callbacks items Hsupported Hstack Hsessions) in *.
  cbv zeta in *.
  destruct (w_spawn W (trace st) (server_params_for path)) as [p|e]; [|done].
  destruct (w_session_enter W _ (session_of p)) as [[]|e] eqn:Henter; [|done].
  destruct (w_initialize W _ (session_of p)) as [[]|e]; [|done].
  match type of Hret with
  | fst (?loop ?st2) = _ =>
      destruct (listing_loop_only_lists (items ++ [PSession (session_of p)]) st2)
        as (listed & Hst & Hlisted);
      destruct (loop st2) as [[[]|e|] st3] eqn:Hloop; try done
  end.
  cbn [snd self trace] in *. subst st3.
  exists p, listed. cbn [self trace]. rewrite <- !app_assoc.
  repeat split; try done; try (by simplify_map_eq).
  - intros ss ->. unfold bind in Hloop.
    match type of Hloop with
    | context [for_each ?l ?acc ?body ?st2] =>
        destruct (for_each l acc body st2) as [[r|e|] st4] eqn:Hfor; try done
    end.
    replace ((PSession <$> ss) ++ [PSession (session_of p)])
      with (PSession <$> (ss ++ [session_of p])) in Hfor by (by rewrite fmap_app).
    apply listing_loop_all in Hfor. cbn [ret] in Hloop.
    injection Hloop as Hst4. rewrite Hfor in Hst4. injection Hst4 as _ Htr.
    rewrite <- !app_assoc in Htr. by repeat apply app_inv_head in Htr.
  - intros a ? ? ? ?. by rewrite !lookup_insert_ne.
Qed.

(** X9: when [connect_to_server] of the multi client returns, the locator
    ended in [.py] or [.js]; a process was spawned for it, a session over
    that process was entered and initialized, and then every session of
    the client, the earlier ones first and the new one last, was asked for
    its tools; the new session has been appended to [self.sessions], after
    the earlier ones, and the exit stack has gained its callback on top of
    the process's. *)
Theorem multi_connect_success
    (path : string) (st : state) (callbacks : list exit_callback) (ss : list ClientSession) :
  self st !! "exit_stack" = Some (PExitStack callbacks) ->
  self st !! "sessions" = Some (PList (PSession <$> ss)) ->
  fst (MultiClient.connect_to_server W path st) = Ret tt ->
  exists p : proc,
    supported path = true
    /\ w_spawn W (trace st) (server_params_for path) = Ok p
    /\ trace (snd (MultiClient.connect_to_server W path st))
       = trace st ++ [EvSpawn (server_params_for path); EvSessionEnter (session_of p);
                      EvInitialize (session_of p)]
                  ++ (EvListTools <$> (ss ++ [session_of p]))
    /\ self (snd (MultiClient.connect_to_server W path st)) !! "sessions"
       = Some (PList (PSession <$> (ss ++ [session_of p])))
    /\ self (snd (MultiClient.connect_to_server W path st)) !! "exit_stack"
       = Some (PExitStack (ExitSession (session_of p) :: ExitStdio p :: callbacks)).
Proof.
  intros Hstack Hsessions Hret.
  destruct (multi_connect_returns path st callbacks _ Hstack Hsessions Hret)
    as (p & listed & Hsup & Hspawn & _ & Htr & _ & Hlisted & Hss & Hst & _).
  exists p. rewrite Htr, (Hlisted ss eq_refl), Hss, Hst.
  repeat split; try done. by rewrite fmap_app.
Qed.

End ConnectedMulti.

Section ConnectingAll.

Context (W : World).

(** The callbacks that entering the sessions [ss] leaves on the stack, in
    the order of entering. *)
Lemma opened_by_one_connect (path : string) (tr : list event) (p : proc)
    (listed : list event) :
  w_spawn W tr (server_params_for path) = Ok p ->
  w_session_enter W (tr ++ [EvSpawn (server_params_for path)]) (session_of p) = Ok tt ->
  Forall list_tools_event listed ->
  opened_from W tr
    ([EvSpawn (server_params_for path); EvSessionEnter (session_of p);
      EvInitialize (session_of p)] ++ listed)
  = [ExitStdio p; ExitSession (session_of p)]
  /\ spawned ([EvSpawn (server_params_for path); EvSessionEnter (session_of p);
               EvInitialize (session_of p)] ++ listed)
     = [server_params_for path].
Proof.
  intros Hspawn Henter Hlisted. split.
  - rewrite opened_from_app. cbn [opened_from]. rewrite Hspawn, Henter.
    destruct (quiet_events_open_nothing W listed
                (tr ++ [EvSpawn (server_params_for path); EvSessionEnter (session_of p);
                        EvInitialize (session_of p)])) as [-> _]; [|done].
    eapply Forall_impl; [done|apply list_tools_event_quiet].
  - rewrite spawned_app, (list_tools_events_spawn_nothing listed) by done. done.
Qed.

Lemma connect_all_loop (paths : list string) :
  forall (st st' : state) (callbacks : list exit_callback) (items : list pyobj) (r : unit),
    self st !! "exit_stack" = Some (PExitStack callbacks) ->
    self st !! "sessions" = Some (PList items) ->
    for_each paths tt (fun _ server_script_path =>
                         MultiClient.connect_to_server W server_script_path) st
    = (Ret r, st') ->
    exists (ss : list ClientSession) (evs : list event),
      length ss = length paths
      /\ trace st' = trace st ++ evs
      /\ spawned evs = server_params_for <$> paths
      /\ opened_from W (trace st) evs
         = flat_map (fun s => [ExitStdio (write_stream s); ExitSession s]) ss
      /\ self st' !! "sessions" = Some (PList (items ++ (PSession <$> ss)))
      /\ self st' !! "exit_stack"
         = Some (PExitStack
                   (rev (flat_map (fun s => [ExitStdio (write_stream s); ExitSession s]) ss)
                    ++ callbacks)).
Proof.
  induction paths as [|path paths IH]; intros st st' callbacks items r Hstack Hsessions.
  - cbn. intros [= _ <-]. exists [], []. rewrite !app_nil_r. by repeat split.
  - cbn [for_each]. unfold bind at 1.
    destruct (MultiClient.connect_to_server W path st) as [[[]|e|] st1] eqn:Hconnect;
      try done.
    intros Hrest.
    destruct (multi_connect_returns W path st callbacks items Hstack Hsessions)
      as (p & listed & _ & Hspawn & Henter & Htr & Hlisted & _ & Hss1 & Hstack1 & _);
      [by rewrite Hconnect|].
    rewrite Hconnect in Htr, Hss1, Hstack1. cbn [snd] in *.
    destruct (IH st1 st' _ _ r Hstack1 Hss1 Hrest)
      as (ss & evs & Hlen & Htr' & Hspawned & Hopened & Hss' & Hstack').
    destruct (opened_by_one_connect path (trace st) p listed Hspawn Henter Hlisted)
      as [Ho1 Hs1].
    exists (session_of p :: ss),
      (([EvSpawn (server_params_for path); EvSessionEnter (session_of p);
         EvInitialize (session_of p)] ++ listed) ++ evs).
    repeat split.
    + cbn. by rewrite Hlen.
    + by rewrite Htr', Htr, <- !app_assoc.
    + by rewrite spawned_app, Hs1, Hspawned.
    + rewrite opened_from_app, Ho1, <- Htr, Hopened. done.
    + rewrite Hss', <- app_assoc. done.
    + rewrite Hstack'. cbn [flat_map write_stream session_of app rev].
      rewrite <- !app_assoc. done.
Qed.

Lemma final_listing_only_lists (paths : list string) (l : list (nat * pyobj)) :
  only_sends list_tools_event
    (for_each l tt
       (fun _ '(idx, loc) =>
          let* loc_tools := session_list_tools W loc in
          match paths !! idx with
          | Some _ => ret tt
          | None => raise (IndexError "list index out of range")
          end)).
Proof.
  apply only_sends_for_each. intros [] [idx loc].
  apply only_sends_bind; [apply session_list_tools_only_lists|intros tools].
  destruct (paths !! idx); [apply only_sends_ret|apply only_sends_raise].
Qed.

Lemma final_listing_out_of_range (paths : list string) (l : list (nat * pyobj)) :
  forall st : state,
    (exists idx loc, (idx, loc) ∈ l /\ paths !! idx = None) ->
    fst (for_each l tt
           (fun _ '(idx, loc) =>
              let* loc_tools := session_list_tools W loc in
              match paths !! idx with
              | Some _ => ret tt
              | None => raise (IndexError "list index out of range")
              end) st) <> Ret tt.
Proof.
  induction l as [|[i x] l IH]; intros st (idx & loc & Hin & Hnone).
  - by apply elem_of_nil in Hin.
  - cbn [for_each]. unfold bind at 1. unfold bind at 1.
    destruct (session_list_tools W x st) as [[tools|e|] st1]; try done.
    apply elem_of_cons in Hin as [[= <- <-]|Hin].
    + by rewrite Hnone.
    + destruct (paths !! i); [|done]. cbn [ret]. apply IH. eauto.
Qed.

Lemma connect_to_servers_unfold (paths : list string) (st : state) :
  MultiClient.connect_to_servers W paths st
  = match for_each paths tt (fun _ server_script_path =>
                               MultiClient.connect_to_server W server_script_path) st with
    | (Ret _, st1) =>
        (let* items := MultiClient.iter_sessions in
         for_each (imap (fun idx loc => (idx, loc)) items) tt
           (fun _ '(idx, loc) =>
              let* loc_tools := session_list_tools W loc in
              match paths !! idx with
              | Some _ => ret tt
              | None => raise (IndexError "list index out of range")
              end)) st1
    | (Exn e, st1) => (Exn e, st1)
    | (OutOfFuel, st1) => (OutOfFuel, st1)
    end.
Proof. reflexivity. Qed.

(** X10: when [connect_to_servers] returns on a client that had no session
    yet, [self.sessions] holds one session per locator, in the order of the
    locators: a process was spawned for each locator in turn, with the
    parameters that locator calls for, and the sessions are those entered
    over these processes.  The exit stack holds their callbacks, the last
    connection on top. *)
Theorem connect_to_servers_registers_in_order
    (paths : list string) (st : state) (callbacks : list exit_callback) :
  self st !! "exit_stack" = Some (PExitStack callbacks) ->
  self st !! "sessions" = Some (PList []) ->
  fst (MultiClient.connect_to_servers W paths st) = Ret tt ->
  exists (ss : list ClientSession) (evs : list event),
    length ss = length paths
    /\ trace (snd (MultiClient.connect_to_servers W paths st)) = trace st ++ evs
    /\ spawned evs = server_params_for <$> paths
    /\ opened_from W (trace st) evs
       = flat_map (fun s => [ExitStdio (write_stream s); ExitSession s]) ss
    /\ self (snd (MultiClient.connect_to_servers W paths st)) !! "sessions"
       = Some (PList (PSession <$> ss))
    /\ self (snd (MultiClient.connect_to_servers W paths st)) !! "exit_stack"
       = Some (PExitStack
                 (rev (flat_map (fun s => [ExitStdio (write_stream s); ExitSession s]) ss)
                  ++ callbacks)).
Proof.
  intros Hstack Hsessions. rewrite connect_to_servers_unfold.
  destruct (for_each paths tt _ st) as [[[]|e|] st1] eqn:Hloop; try done.
  destruct (connect_all_loop paths st st1 callbacks [] tt Hstack Hsessions Hloop)
    as (ss & evs & Hlen & Htr & Hspawned & Hopened & Hss & Hstack1).
  cbn [app] in Hss.
  destruct (final_listing_only_lists paths (imap (fun idx loc => (idx, loc)) (PSession <$> ss))
              st1) as (listed & Hst & Hlisted).
  match goal with
  | |- fst (?m st1) = _ -> _ =>
      assert (Hrun : m st1
                     = for_each (imap (fun idx loc => (idx, loc)) (PSession <$> ss)) tt
                         (fun _ '(idx, loc) =>
                            let* loc_tools := session_list_tools W loc in
                            match paths !! idx with
                            | Some _ => ret tt
                            | None => raise (IndexError "list index out of range")
                            end) st1)
        by (unfold bind at 1; unfold MultiClient.iter_sessions at 1;
            unfold bind at 1; unfold getattr at 1; by rewrite Hss);
      rewrite Hrun
  end.
  intros _. rewrite Hst. cbn [self trace].
  exists ss, (evs ++ listed). rewrite Htr, <- app_assoc.
  destruct (quiet_events_open_nothing W listed (trace st ++ evs)) as [Ho _].
  { eapply Forall_impl; [done|apply list_tools_event_quiet]. }
  rewrite spawned_app, opened_from_app, Ho, (list_tools_events_spawn_nothing listed),
    !app_nil_r by done.
  by repeat split.
Qed.

(** X11: [connect_to_servers] never returns normally on a client that
    already holds a session.  Its closing loop goes over every session of
    the client but reads the locator at the same position in the list it
    was given, which is shorter: once the new connections are made, the
    loop ends in an exception ([IndexError], unless a session raised
    first). *)
Theorem connect_to_servers_needs_a_fresh_client
    (paths : list string) (st : state) (callbacks : list exit_callback)
    (first : pyobj) (others : list pyobj) :
  self st !! "exit_stack" = Some (PExitStack callbacks) ->
  self st !! "sessions" = Some (PList (first :: others)) ->
  fst (MultiClient.connect_to_servers W paths st) <> Ret tt.
Proof.
  intros Hstack Hsessions. rewrite connect_to_servers_unfold.
  destruct (for_each paths tt _ st) as [[[]|e|] st1] eqn:Hloop; try done.
  destruct (connect_all_loop paths st st1 callbacks _ tt Hstack Hsessions Hloop)
    as (ss & evs & Hlen & _ & _ & _ & Hss & _).
  unfold bind at 1. unfold MultiClient.iter_sessions at 1.
  unfold bind at 1. unfold getattr at 1. rewrite Hss. cbn [ret].
  apply final_listing_out_of_range.
  assert (Hlookup : is_Some (((first :: others) ++ (PSession <$> ss)) !! length paths)).
  { apply lookup_lt_is_Some. rewrite length_app, length_fmap. cbn [length]. lia. }
  destruct Hlookup as [loc Hloc].
  exists (length paths), loc. split.
  - apply list_elem_of_lookup. exists (length paths).
    by rewrite list_lookup_imap, Hloc.
  - by apply lookup_ge_None.
Qed.

Lemma multi_connect_spawns_once
    (path : string) (st : state) (callbacks : list exit_callback) (items : list pyobj) :
  supported path = true ->
  self st !! "exit_stack" = Some (PExitStack callbacks) ->
  self st !! "sessions" = Some (PList items) ->
  exists evs,
    trace (snd (MultiClient.connect_to_server W path st)) = trace st ++ evs
    /\ spawned evs = [server_params_for path].
Proof.
  intros Hsupported Hstack Hsessions.
  rewrite (multi_connect_run W path st callbacks items Hsupported Hstack Hsessions).
  cbv zeta.
  destruct (w_spawn W (trace st) (server_params_for path)) as [p|e]; [|by eexists].
  destruct (w_session_enter W _ (session_of p)) as [[]|e];
    [|eexists; cbn [snd trace]; by rewrite <- app_assoc].
  destruct (w_initialize W _ (session_of p)) as [[]|e];
    [|eexists; cbn [snd trace]; by rewrite <- !app_assoc].
  match goal with
  | |- context [snd (?loop ?st2)] =>
      destruct (listing_loop_only_lists W (items ++ [PSession (session_of p)]) st2)
        as (listed & Hst & Hlisted)
  end.
  rewrite Hst. cbn [trace].
  exists ([EvSpawn (server_params_for path); EvSessionEnter (session_of p);
           EvInitialize (session_of p)] ++ listed).
  rewrite <- !app_assoc. split; [done|].
  by rewrite spawned_app, (list_tools_events_spawn_nothing listed).
Qed.

Lemma connect_all_loop_stops (good : list string) (bad : string) (rest : list string) :
  supported bad = false ->
  forall (st : state) (callbacks : list exit_callback) (items : list pyobj),
    self st !! "exit_stack" = Some (PExitStack callbacks) ->
    self st !! "sessions" = Some (PList items) ->
    exists (k : nat) (evs : list event),
      (forall r, fst (for_each (good ++ bad :: rest) tt
                        (fun _ server_script_path =>
                           MultiClient.connect_to_server W server_script_path) st) <> Ret r)
      /\ trace (snd (for_each (good ++ bad :: rest) tt
                       (fun _ server_script_path =>
                          MultiClient.connect_to_server W server_script_path) st))
         = trace st ++ evs
      /\ spawned evs = server_params_for <$> take k good.
Proof.
  intros Hbad. induction good as [|g good IH]; intros st callbacks items Hstack Hsessions.
  - exists 0, []. cbn [app for_each take]. unfold bind.
    rewrite multi_supported_params, Hbad. cbn. by rewrite app_nil_r.
  - cbn [app for_each]. unfold bind at 1 2.
    destruct (supported g) eqn:Hg.
    2:{ exists 0, []. rewrite multi_supported_params, Hg. cbn. by rewrite app_nil_r. }
    destruct (multi_connect_spawns_once g st callbacks items Hg Hstack Hsessions)
      as (evs1 & Htr1 & Hs1).
    destruct (MultiClient.connect_to_server W g st) as [[[]|e|] st1] eqn:Hconnect.
    + destruct (multi_connect_returns W g st callbacks items Hstack Hsessions)
        as (p & _ & _ & _ & _ & _ & _ & _ & Hss1 & Hstack1 & _); [by rewrite Hconnect|].
      rewrite Hconnect in Hss1, Hstack1. cbn [snd] in *.
      destruct (IH st1 _ _ Hstack1 Hss1) as (k & evs & Hne & Htr & Hs).
      exists (S k), (evs1 ++ evs). split; [done|].
      rewrite Htr, Htr1, <- app_assoc, spawned_app, Hs1, Hs. done.
    + exists 1, evs1. cbn [fst snd take] in *. by rewrite take_0.
    + exists 1, evs1. cbn [fst snd take] in *. by rewrite take_0.
Qed.

(** X12: [connect_to_servers] stops at the first locator it cannot
    classify: when some locator of the list ends neither in [.py] nor in
    [.js], the call does not return normally, and it spawns no process for
    that locator nor for any locator after it; the processes it did spawn
    are those of the first [k] locators, for some [k] up to the position of
    the bad one.  It closes nothing itself. *)
Theorem connect_to_servers_stops_at_unsupported
    (good : list string) (bad : string) (rest : list string)
    (st : state) (callbacks : list exit_callback) (items : list pyobj) :
  supported bad = false ->
  self st !! "exit_stack" = Some (PExitStack callbacks) ->
  self st !! "sessions" = Some (PList items) ->
  exists (k : nat) (evs : list event),
    fst (MultiClient.connect_to_servers W (good ++ bad :: rest) st) <> Ret tt
    /\ trace (snd (MultiClient.connect_to_servers W (good ++ bad :: rest) st))
       = trace st ++ evs
    /\ k <= length good
    /\ spawned evs = server_params_for <$> take k good
    /\ closed evs = [].
Proof.
  intros Hbad Hstack Hsessions.
  destruct (connect_all_loop_stops good bad rest Hbad st callbacks items Hstack Hsessions)
    as (k & evs & Hne & Htr & Hs).
  destruct (multi_connect_all_tracks W (good ++ bad :: rest) st callbacks Hstack)
    as (evs' & Htr' & _ & Hclosed).
  rewrite connect_to_servers_unfold in *.
  destruct (for_each (good ++ bad :: rest) tt _ st) as [[r|e|] st1]; cbn [fst snd] in *.
  - by destruct (Hne r).
  - exists (min k (length good)), evs. rewrite Htr' in Htr. apply app_inv_head in Htr.
    subst evs'. repeat split; try done; [lia|].
    rewrite Hs. f_equal. destruct (Nat.min_spec k (length good)) as [[? ->]|[? ->]]; [done|].
    by rewrite !take_ge by lia.
  - exists (min k (length good)), evs. rewrite Htr' in Htr. apply app_inv_head in Htr.
    subst evs'. repeat split; try done; [lia|].
    rewrite Hs. f_equal. destruct (Nat.min_spec k (length good)) as [[? ->]|[? ->]]; [done|].
    by rewrite !take_ge by lia.
Qed.

End ConnectingAll.

(** ** The history of a query *)

Section History.

Context (W : World).

Lemma chat_histories_app (evs1 evs2 : list event) :
  chat_histories (evs1 ++ evs2) = chat_histories evs1 ++ chat_histories evs2.
Proof. apply omap_app. Qed.

Lemma list_tools_events_no_history (evs : list event) :
  Forall list_tools_event evs -> chat_histories evs = [].
Proof.
  induction 1 as [|e evs He _ IH]; [done|].
  unfold chat_histories in *. destruct e; try done; by cbn [omap].
Qed.

Lemma weather_turn_loop_history (model : string) (tools : list value) (fuel : nat) :
  forall (messages : list value) (st : state),
  exists evs,
    trace (snd (WeatherClient.turn_loop W fuel model tools messages st)) = trace st ++ evs
    /\ grows_by_tool_messages messages (chat_histories evs).
Proof.
  induction fuel as [|fuel IH]; intros messages st.
  - exists []. cbn. by rewrite app_nil_r.
  - cbn [WeatherClient.turn_loop]. unfold bind at 1. unfold ollama_chat.
    unfold bind at 1. unfold getattr at 1.
    destruct (self st !! "ollama_client") as [client|];
      [|exists []; cbn; by rewrite app_nil_r].
    destruct client; try (exists []; cbn; by rewrite app_nil_r).
    unfold request at 1.
    assert (Hstop : forall (o : outcome value) (evs : list event),
               chat_histories evs = [] ->
               exists evs0,
                 trace (snd (o, {| self := self st;
                                   trace := (trace st ++ [EvChat model messages tools])
                                            ++ evs |}))
                 = trace st ++ evs0
                 /\ grows_by_tool_messages messages (chat_histories evs0)).
    { intros o evs Hevs. exists ([EvChat model messages tools] ++ evs).
      cbn [snd trace]. rewrite <- app_assoc. split; [done|].
      rewrite chat_histories_app, Hevs. cbn. auto. }
    destruct (w_chat W (trace st) model messages tools) as [response|e].
    2:{ destruct (Hstop (Exn e) [] eq_refl) as (evs0 & Htr & Hg).
        exists evs0. cbn [snd trace] in *. by rewrite app_nil_r in Htr. }
    cbn [self trace].
    destruct (default [] (tool_calls (message response))) as [|first_call others].
    { destruct (Hstop (Ret (default (VStr "") (content (message response)))) [] eq_refl)
        as (evs0 & Htr & Hg).
      exists evs0. cbn [ret snd trace] in *. by rewrite app_nil_r in Htr. }
    unfold bind at 1. rewrite try_json_loads_pure.
    set (raw := dict_get "arguments" (function first_call) (VStr "{}")).
    set (decoded := match raw with
                    | VStr s => _
                    | _ => _
                    end).
    destruct decoded as [tool_args|e|].
    2,3: match goal with
         | |- context [snd (?o, _)] =>
             destruct (Hstop o [] eq_refl) as (evs0 & Htr & Hg);
             exists evs0; cbn [snd trace] in *; by rewrite app_nil_r in Htr
         end.
    unfold bind at 1. unfold getattr at 1. cbn [self trace].
    destruct (self st !! "session") as [session|].
    2:{ match goal with
        | |- context [snd (?o, _)] =>
            destruct (Hstop o [] eq_refl) as (evs0 & Htr & Hg);
            exists evs0; cbn [snd trace] in *; by rewrite app_nil_r in Htr
        end. }
    unfold bind at 1. unfold session_call_tool, no_attribute, raise.
    destruct session;
      try match goal with
          | |- context [snd (?o, _)] =>
              destruct (Hstop o [] eq_refl) as (evs0 & Htr & Hg);
              exists evs0; cbn [snd trace] in *; by rewrite app_nil_r in Htr
          end.
    unfold request. cbn [self trace].
    destruct (w_call_tool W _ s _ tool_args) as [result|e].
    2:{ match goal with
        | |- context [snd (?o, {| self := _; trace := _ ++ [?ev] |})] =>
            destruct (Hstop o [ev] eq_refl) as (evs0 & Htr & Hg);
            exists evs0; by cbn [snd trace] in *
        end. }
    match goal with
    | |- context [WeatherClient.turn_loop W fuel model tools ?msgs ?st2] =>
        destruct (IH msgs st2) as (evs & Htr & Hg);
        exists ([EvChat model messages tools;
                 EvCallTool s (dict_get "name" (function first_call) VNone) tool_args] ++ evs)
    end.
    rewrite Htr. cbn [trace]. rewrite <- !app_assoc. split; [done|].
    cbn [app chat_histories omap]. fold (chat_histories evs).
    split; [done|]. right. eauto.
Qed.

Lemma multi_turn_loop_history (model : string) (tools : list value) (fuel : nat) :
  forall (messages : list value) (st : state),
  exists evs,
    trace (snd (MultiClient.turn_loop W fuel model tools messages st)) = trace st ++ evs
    /\ grows_by_tool_messages messages (chat_histories evs).
Proof.
  induction fuel as [|fuel IH]; intros messages st.
  - exists []. cbn. by rewrite app_nil_r.
  - cbn [MultiClient.turn_loop]. unfold bind at 1. unfold ollama_chat.
    unfold bind at 1. unfold getattr at 1.
    destruct (self st !! "ollama_client") as [client|];
      [|exists []; cbn; by rewrite app_nil_r].
    destruct client; try (exists []; cbn; by rewrite app_nil_r).
    unfold request at 1.
    assert (Hstop : forall (o : outcome value) (evs : list event),
               chat_histories evs = [] ->
               exists evs0,
                 trace (snd (o, {| self := self st;
                                   trace := (trace st ++ [EvChat model messages tools])
                                            ++ evs |}))
                 = trace st ++ evs0
                 /\ grows_by_tool_messages messages (chat_histories evs0)).
    { intros o evs Hevs. exists ([EvChat model messages tools] ++ evs).
      cbn [snd trace]. rewrite <- app_assoc. split; [done|].
      rewrite chat_histories_app, Hevs. cbn. auto. }
    destruct (w_chat W (trace st) model messages tools) as [response|e].
    2:{ destruct (Hstop (Exn e) [] eq_refl) as (evs0 & Htr & Hg).
        exists evs0. cbn [snd trace] in *. by rewrite app_nil_r in Htr. }
    cbn [self trace].
    destruct (default [] (tool_calls (message response))) as [|first_call others].
    { destruct (Hstop (Ret (default (VStr "") (content (message response)))) [] eq_refl)
        as (evs0 & Htr & Hg).
      exists evs0. cbn [ret snd trace] in *. by rewrite app_nil_r in Htr. }
    unfold bind at 1. rewrite try_json_loads_pure.
    set (raw := dict_get "arguments" (function first_call) (VStr "{}")).
    set (decoded := match raw with
                    | VStr s => _
                    | _ => _
                    end).
    destruct decoded as [tool_args|e|].
    2,3: match goal with
         | |- context [snd (?o, _)] =>
             destruct (Hstop o [] eq_refl) as (evs0 & Htr & Hg);
             exists evs0; cbn [snd trace] in *; by rewrite app_nil_r in Htr
         end.
    unfold bind at 1. unfold getattr at 1. cbn [self trace].
    destruct (self st !! "session") as [session|].
    2:{ match goal with
        | |- context [snd (?o, _)] =>
            destruct (Hstop o [] eq_refl) as (evs0 & Htr & Hg);
            exists evs0; cbn [snd trace] in *; by rewrite app_nil_r in Htr
        end. }
    unfold bind at 1. unfold session_call_tool, no_attribute, raise.
    destruct session;
      try match goal with
          | |- context [snd (?o, _)] =>
              destruct (Hstop o [] eq_refl) as (evs0 & Htr & Hg);
              exists evs0; cbn [snd trace] in *; by rewrite app_nil_r in Htr
          end.
    unfold request. cbn [self trace].
    destruct (w_call_tool W _ s _ tool_args) as [result|e].
    2:{ match goal with
        | |- context [snd (?o, {| self := _; trace := _ ++ [?ev] |})] =>
            destruct (Hstop o [ev] eq_refl) as (evs0 & Htr & Hg);
            exists evs0; by cbn [snd trace] in *
        end. }
    match goal with
    | |- context [MultiClient.turn_loop W fuel model tools ?msgs ?st2] =>
        destruct (IH msgs st2) as (evs & Htr & Hg);
        exists ([EvChat model messages tools;
                 EvCallTool s (dict_get "name" (function first_call) VNone) tool_args] ++ evs)
    end.
    rewrite Htr. cbn [trace]. rewrite <- !app_assoc. split; [done|].
    cbn [app chat_histories omap]. fold (chat_histories evs).
    split; [done|]. right. eauto.
Qed.

(** X13: within one [process_query], of either client, the message
    lists sent to the model are append-only: the first chat request carries
    exactly the user's message, and each later one carries the list of the
    request before it with one tool message added at the end.  Nothing of an
    earlier query is ever sent again. *)
Theorem query_history_is_append_only (fuel : nat) (query model : string) (st : state) :
  grows_by_tool_messages [user_message query]
    (chat_histories (new_events st (snd (WeatherClient.process_query W fuel query model st))))
  /\ grows_by_tool_messages [user_message query]
       (chat_histories (new_events st (snd (MultiClient.process_query W fuel query model st)))).
Proof.
  split.
  - unfold WeatherClient.process_query. cbv zeta.
    unfold bind at 1. unfold getattr at 1.
    destruct (self st !! "session") as [session|];
      [|unfold new_events; cbn [snd]; by rewrite drop_all].
    unfold bind at 1.
    destruct (session_list_tools_only_lists W session st) as (pre & Hst & Hpre).
    destruct (session_list_tools W session st) as [[mcp_tools|e|] st1];
      cbn [snd] in Hst; subst st1.
    + destruct (weather_turn_loop_history model
                  (WeatherClient.convert_tools_format mcp_tools) fuel [user_message query]
                  {| self := self st; trace := trace st ++ pre |}) as (evs & Htr & Hg).
      unfold new_events. rewrite Htr. cbn [trace].
      rewrite <- app_assoc, drop_app_length, chat_histories_app.
      by rewrite (list_tools_events_no_history pre).
    + unfold new_events. cbn [snd trace]. rewrite drop_app_length.
      by rewrite (list_tools_events_no_history pre).
    + unfold new_events. cbn [snd trace]. rewrite drop_app_length.
      by rewrite (list_tools_events_no_history pre).
  - unfold MultiClient.process_query. cbv zeta. unfold bind at 1.
    destruct (multi_fetch_only_lists W st) as (pre & Hst & Hpre).
    destruct (MultiClient.fetch_available_tools W st) as [[tools|e|] st1];
      cbn [snd] in Hst; subst st1.
    + destruct (multi_turn_loop_history model tools fuel [user_message query]
                  {| self := self st; trace := trace st ++ pre |}) as (evs & Htr & Hg).
      unfold new_events. rewrite Htr. cbn [trace].
      rewrite <- app_assoc, drop_app_length, chat_histories_app.
      by rewrite (list_tools_events_no_history pre).
    + unfold new_events. cbn [snd trace]. rewrite drop_app_length.
      by rewrite (list_tools_events_no_history pre).
    + unfold new_events. cbn [snd trace]. rewrite drop_app_length.
      by rewrite (list_tools_events_no_history pre).
Qed.

End History.

(** ** The aggregate catalog *)

Section AggregateCatalog.

Context (W : World).

Lemma multi_catalog_loop_answers (ss : list ClientSession) :
  forall (acc : list value) (st : state),
    length (catalog_answers W (trace st) ss) = length ss ->
    for_each (PSession <$> ss) acc
      (fun available_tools sess =>
         let* tools := session_list_tools W sess in
         ret (available_tools ++ MultiClient.convert_tools_format tools)) st
    = (Ret (acc ++ (function_spec <$> concat (catalog_answers W (trace st) ss))),
       {| self := self st; trace := trace st ++ (EvListTools <$> ss) |}).
Proof.
  induction ss as [|s ss IH]; intros acc st Hlen.
  - cbn. rewrite !app_nil_r. by destruct st.
  - cbn [fmap list_fmap for_each]. unfold bind at 1. unfold bind at 1.
    cbn [session_list_tools]. unfold request at 1.
    cbn [catalog_answers] in *.
    destruct (w_list_tools W (trace st) s) as [tools|e]; [|done].
    cbn [ret length] in *. rewrite IH by (cbn [trace]; lia).
    cbn [self trace concat]. rewrite multi_convert_map, fmap_app, <- !app_assoc. done.
Qed.

(** X14: when every session of the multi client answers [list_tools], the
    tool list [process_query] sends to the model, in every chat request of
    the query, is the translation of the sessions' catalogs put one after
    the other, in the order of [self.sessions] and, within a catalog, in the
    provider's order.  Nothing is dropped or merged: a tool name advertised
    by two providers appears twice. *)
Theorem multi_catalog_is_concatenation
    (fuel : nat) (query model : string) (st : state) (ss : list ClientSession) :
  self st !! "sessions" = Some (PList (PSession <$> ss)) ->
  length (catalog_answers W (trace st) ss) = length ss ->
  exists evs : list event,
    snd (MultiClient.process_query W fuel query model st)
    = {| self := self st; trace := trace st ++ (EvListTools <$> ss) ++ evs |}
    /\ Forall (loop_event (function_spec <$> concat (catalog_answers W (trace st) ss))) evs.
Proof.
  intros Hsessions Hlen.
  unfold MultiClient.process_query, MultiClient.fetch_available_tools,
    MultiClient.iter_sessions.
  cbv zeta. unfold bind at 1. unfold bind at 1. unfold bind at 1. unfold getattr at 1.
  rewrite Hsessions. cbn [ret]. rewrite multi_catalog_loop_answers by done. cbn [app].
  destruct (multi_turn_loop_only_sends W fuel model
              (function_spec <$> concat (catalog_answers W (trace st) ss))
              [user_message query]
              {| self := self st; trace := trace st ++ (EvListTools <$> ss) |})
    as (evs & Hst & Hevs).
  exists evs. rewrite Hst. cbn [self trace]. by rewrite <- app_assoc.
Qed.

End AggregateCatalog.

(** ** Queries and the client object *)

(** X15: [process_query], of either client, never changes the client
    object, whatever happens during the query: every attribute is as before.
    The only requests it sends are [list_tools], [chat] and [call_tool]; it
    spawns no process and enters or exits no context. *)
Theorem process_query_leaves_client_unchanged
    (W : World) (fuel : nat) (query model : string) (st : state) :
  (exists evs,
     snd (WeatherClient.process_query W fuel query model st)
     = {| self := self st; trace := trace st ++ evs |}
     /\ Forall query_event evs)
  /\ (exists evs,
        snd (MultiClient.process_query W fuel query model st)
        = {| self := self st; trace := trace st ++ evs |}
        /\ Forall query_event evs).
Proof.
  split; [apply weather_process_query_only_sends|apply multi_process_query_only_sends].
Qed.

(** A query on a client that was never connected.  The weather
    client, whose [session] is still [None], raises [AttributeError] for
    [list_tools] and sends nothing.  The multi client, whose [sessions] is
    empty, fetches no catalog and goes on to ask the model, with an empty
    tool list. *)
Lemma process_query_before_connecting
    (W : World) (fuel : nat) (query model : string) (st : state) :
  (self st !! "session" = Some PNone ->
   WeatherClient.process_query W fuel query model st
   = (Exn (AttributeError "'NoneType' object has no attribute 'list_tools'"), st))
  /\ (self st !! "sessions" = Some (PList []) ->
      MultiClient.process_query W fuel query model st
      = MultiClient.turn_loop W fuel model [] [user_message query] st).
Proof.
  split; intros Hattr.
  - unfold WeatherClient.process_query, bind, getattr. by rewrite Hattr.
  - unfold MultiClient.process_query, MultiClient.fetch_available_tools,
      MultiClient.iter_sessions, bind, getattr.
    by rewrite Hattr.
Qed.

(** ** Instances *)

Lemma connecting_keeps_exit_stack_in_step_witness :
  let W := broken_session_world in
  let weather := snd (WeatherClient.__init__ empty_state) in
  let multi := snd (MultiClient.__init__ empty_state) in
  (exists evs,
     trace (snd (WeatherClient.connect_to_server W "weather_server.py" weather))
     = trace weather ++ evs
     /\ self (snd (WeatherClient.connect_to_server W "weather_server.py" weather))
          !! "exit_stack"
        = Some (PExitStack (rev (opened_from W (trace weather) evs) ++ []))
     /\ closed evs = [])
  /\ (exists evs,
        trace (snd (MultiClient.connect_to_servers W ["time_server.py"; "weather_server.py"]
                      multi))
        = trace multi ++ evs
        /\ self (snd (MultiClient.connect_to_servers W
                         ["time_server.py"; "weather_server.py"] multi)) !! "exit_stack"
           = Some (PExitStack (rev (opened_from W (trace multi) evs) ++ []))
        /\ closed evs = []).
Proof.
  intros W weather multi. split.
  - apply (proj1 (connecting_keeps_exit_stack_in_step W "weather_server.py" [] weather []
                    eq_refl)).
  - apply (proj2 (proj2 (connecting_keeps_exit_stack_in_step W "time_server.py"
                           ["time_server.py"; "weather_server.py"] multi [] eq_refl))).
Defined.

(** With a session that cannot be entered, the spawned process is the one
    thing on the exit stack, and [main] closes it before the exception
    reaches the top. *)
Lemma failed_connection_is_cleaned_up :
  let W := broken_session_world in
  let res := WeatherClient.main W ["client.py"; "weather_server.py"] 5 5 (mkConsole [] []) in
  self (snd (WeatherClient.connect_to_server W "weather_server.py"
               (snd (WeatherClient.__init__ empty_state)))) !! "exit_stack"
  = Some (PExitStack [ExitStdio 0])
  /\ fst (fst res) = Uncaught (ExternalError "session" "stream closed")
  /\ closed (trace (snd res)) = [ExitStdio 0].
Proof. vm_compute. repeat split. Qed.

Lemma main_closes_what_it_opened_witness :
  let W := scenario_world mapping_scenario in
  let con := mkConsole ["What is the weather in Paris?"; "quit"] [] in
  let weather := WeatherClient.main W ["client.py"; "weather_server.py"] 5 5 con in
  let multi := MultiClient.main W ["client.py"; "time_server.py"; "notes.txt"] 5 5 con in
  closed (trace (snd weather)) = rev (opened_from W [] (trace (snd weather)))
  /\ closed (trace (snd multi)) = rev (opened_from W [] (trace (snd multi))).
Proof.
  intros W con weather multi. split.
  - apply (proj1 (main_closes_what_it_opened W ["client.py"; "weather_server.py"] 5 5 con)).
    vm_compute. discriminate.
  - apply (proj2 (main_closes_what_it_opened W ["client.py"; "time_server.py"; "notes.txt"]
                    5 5 con)).
    vm_compute. discriminate.
Defined.

Lemma weather_connect_success_witness :
  let W := scenario_world no_tool_scenario in
  let st := snd (WeatherClient.__init__ empty_state) in
  exists p : proc,
    supported "server.js" = true
    /\ w_spawn W (trace st) (server_params_for "server.js") = Ok p
    /\ trace (snd (WeatherClient.connect_to_server W "server.js" st))
       = trace st ++ [EvSpawn (server_params_for "server.js"); EvSessionEnter (session_of p);
                      EvInitialize (session_of p); EvListTools (session_of p)]
    /\ self (snd (WeatherClient.connect_to_server W "server.js" st)) !! "session"
       = Some (PSession (session_of p))
    /\ self (snd (WeatherClient.connect_to_server W "server.js" st)) !! "exit_stack"
       = Some (PExitStack (ExitSession (session_of p) :: ExitStdio p :: []))
    /\ forall a : string,
         a <> "session" -> a <> "stdio" -> a <> "write" -> a <> "exit_stack" ->
         self (snd (WeatherClient.connect_to_server W "server.js" st)) !! a = self st !! a.
Proof.
  intros W st.
  apply (weather_connect_success W "server.js" st [] eq_refl). vm_compute. reflexivity.
Defined.

Lemma weather_reconnect_replaces_session_witness :
  let W := scenario_world no_tool_scenario in
  let st := snd (WeatherClient.__init__ empty_state) in
  exists (p1 p2 : proc) (evs : list event),
    let st2 := snd (WeatherClient.connect_to_server W "weather_server.py"
                      (snd (WeatherClient.connect_to_server W "time_server.py" st))) in
    w_spawn W (trace st) (server_params_for "time_server.py") = Ok p1
    /\ trace st2 = trace st ++ evs
    /\ closed evs = []
    /\ self st2 !! "session" = Some (PSession (session_of p2))
    /\ self st2 !! "exit_stack"
       = Some (PExitStack (ExitSession (session_of p2) :: ExitStdio p2
                           :: ExitSession (session_of p1) :: ExitStdio p1 :: []))
    /\ forall fuel query model,
         exists rest,
           trace (snd (WeatherClient.process_query W fuel query model st2))
           = trace st2 ++ EvListTools (session_of p2) :: rest.
Proof.
  intros W st.
  apply (weather_reconnect_replaces_session W "time_server.py" "weather_server.py" st []
           eq_refl); vm_compute; reflexivity.
Defined.

Lemma multi_connect_success_witness :
  let W := scenario_world no_tool_scenario in
  let st := snd ((run MultiClient.__init__ then
                  MultiClient.connect_to_server W "time_server.py") empty_state) in
  exists p : proc,
    supported "weather_server.py" = true
    /\ w_spawn W (trace st) (server_params_for "weather_server.py") = Ok p
    /\ trace (snd (MultiClient.connect_to_server W "weather_server.py" st))
       = trace st ++ [EvSpawn (server_params_for "weather_server.py");
                      EvSessionEnter (session_of p); EvInitialize (session_of p)]
                  ++ (EvListTools <$> ([session_of 0] ++ [session_of p]))
    /\ self (snd (MultiClient.connect_to_server W "weather_server.py" st)) !! "sessions"
       = Some (PList (PSession <$> ([session_of 0] ++ [session_of p])))
    /\ self (snd (MultiClient.connect_to_server W "weather_server.py" st)) !! "exit_stack"
       = Some (PExitStack (ExitSession (session_of p) :: ExitStdio p
                           :: [ExitSession (session_of 0); ExitStdio 0])).
Proof.
  intros W st.
  apply (multi_connect_success W "weather_server.py" st
           [ExitSession (session_of 0); ExitStdio 0] [session_of 0]);
    vm_compute; reflexivity.
Defined.

Lemma connect_to_servers_registers_in_order_witness :
  let W := scenario_world no_tool_scenario in
  let st := snd (MultiClient.__init__ empty_state) in
  let paths := ["time_server.py"; "weather_server.py"; "extra.js"] in
  exists (ss : list ClientSession) (evs : list event),
    length ss = length paths
    /\ trace (snd (MultiClient.connect_to_servers W paths st)) = trace st ++ evs
    /\ spawned evs = server_params_for <$> paths
    /\ opened_from W (trace st) evs
       = flat_map (fun s => [ExitStdio (write_stream s); ExitSession s]) ss
    /\ self (snd (MultiClient.connect_to_servers W paths st)) !! "sessions"
       = Some (PList (PSession <$> ss))
    /\ self (snd (MultiClient.connect_to_servers W paths st)) !! "exit_stack"
       = Some (PExitStack
                 (rev (flat_map (fun s => [ExitStdio (write_stream s); ExitSession s]) ss)
                  ++ [])).
Proof.
  intros W st paths.
  apply (connect_to_servers_registers_in_order W paths st [] eq_refl eq_refl).
  vm_compute. reflexivity.
Defined.

Lemma connect_to_servers_needs_a_fresh_client_witness :
  let W := scenario_world no_tool_scenario in
  fst (MultiClient.connect_to_servers W ["extra.js"] (multi_connected W)) <> Ret tt.
Proof.
  intros W.
  apply (connect_to_servers_needs_a_fresh_client W ["extra.js"] (multi_connected W)
           [ExitSession (session_of 1); ExitStdio 1; ExitSession (session_of 0); ExitStdio 0]
           (PSession (session_of 0)) [PSession (session_of 1)]);
    vm_compute; reflexivity.
Defined.

(** On the scenario the exception is the [IndexError] of the closing loop,
    raised once the new provider has been connected. *)
Lemma second_connect_to_servers_raises_index_error :
  let W := scenario_world no_tool_scenario in
  let res := MultiClient.connect_to_servers W ["extra.js"] (multi_connected W) in
  fst res = Exn (IndexError "list index out of range")
  /\ spawned (new_events (multi_connected W) (snd res)) = [server_params_for "extra.js"]
  /\ self (snd res) !! "sessions"
     = Some (PList [PSession (session_of 0); PSession (session_of 1); PSession (session_of 2)]).
Proof. vm_compute. repeat split. Qed.

Lemma connect_to_servers_stops_at_unsupported_witness :
  let W := scenario_world no_tool_scenario in
  let st := snd (MultiClient.__init__ empty_state) in
  exists (k : nat) (evs : list event),
    fst (MultiClient.connect_to_servers W
           (["time_server.py"] ++ "notes.txt" :: ["weather_server.py"]) st) <> Ret tt
    /\ trace (snd (MultiClient.connect_to_servers W
                     (["time_server.py"] ++ "notes.txt" :: ["weather_server.py"]) st))
       = trace st ++ evs
    /\ k <= length ["time_server.py"]
    /\ spawned evs = server_params_for <$> take k ["time_server.py"]
    /\ closed evs = [].
Proof.
  intros W st.
  apply (connect_to_servers_stops_at_unsupported W ["time_server.py"] "notes.txt"
           ["weather_server.py"] st [] [] eq_refl eq_refl eq_refl).
Defined.

Lemma multi_catalog_is_concatenation_witness :
  let W := scenario_world mapping_scenario in
  let st := multi_connected W in
  let ss := [session_of 0; session_of 1] in
  exists evs : list event,
    snd (MultiClient.process_query W 3 the_query the_model st)
    = {| self := self st; trace := trace st ++ (EvListTools <$> ss) ++ evs |}
    /\ Forall (loop_event (function_spec <$> concat (catalog_answers W (trace st) ss))) evs.
Proof.
  intros W st ss.
  apply (multi_catalog_is_concatenation W 3 the_query the_model st ss);
    vm_compute; reflexivity.
Defined.

(** Two providers that advertise the same tool: the model is sent both
    entries. *)
Lemma colliding_names_are_both_sent :
  let W := scenario_world no_tool_scenario in
  let st := snd ((run MultiClient.__init__ then
                  MultiClient.connect_to_servers W ["weather_server.py"; "weather_server.py"])
                   empty_state) in
  concat (catalog_answers W (trace st) [session_of 0; session_of 1])
  = [get_weather_tool; get_weather_tool].
Proof. vm_compute. reflexivity. Qed.
